(** * property_manager: the version-and-activation workflow of
      library/property_manager.py

    The module searches a property by name, creates a new version from
    the one active on production, uploads a rule tree to it and
    activates it on staging and/or production, polling until the
    activation is ACTIVE.

    The embedding follows the Python text function by function.  The
    global [result] dict and the log of everything the module does to
    the outside (HTTP requests, file opens, sleeps) are threaded through
    a small state-and-halt monad; [module.fail_json], [module.exit_json]
    and uncaught Python exceptions halt the run.

    Modelling conventions:
    - a decoded JSON document is a [json] tree; numbers are integers and
      the keys of an object are distinct;
    - a Python [str] is kept as the bytes of its UTF-8 encoding, which is
      also how a string literal of this file holds a character beyond
      ASCII; [chars] cuts it into its characters.  On characters [.] is
      everything but the line feed and [\d] is a decimal digit: 0 to 9 in
      ASCII, and beyond ASCII whatever the interpreter's Unicode table,
      the [decimal] of the world, says;
    - [response.text] is kept as what [json.loads] makes of it:
      [None] stands for a text [json.loads] rejects;
    - a URL is kept as the format template together with the values
      substituted into it.  The base URL is one the libraries accept, and
      so are the module's own paths, which start with [papi/] and hold
      no scheme and no host.  An activation locator comes from a reply:
      whether [urljoin] and the session accept it is the [locator_ok] of
      the world.  What they refuse they refuse with a ValueError
      (urllib's own, or requests' InvalidURL and InvalidSchema, which
      derive from it), raised before anything is sent;
    - the remote API is a script [nat -> response]: the reply to the
      n-th request the module sends; every request sent gets a reply;
    - the [while True] loop of [activate_property] runs on fuel; a run
      that exhausts it halts with [Running]. *)

From stdpp Require Import gmap strings list fin_maps.
From Stdlib Require Import ZArith Ascii.

Set Warnings "-register-all".
Open Scope Z_scope.

(** ** Decoded JSON values and the Python operations used on them *)

Inductive json : Type :=
| JNull
| JBool (b : bool)
| JNum (n : Z)
| JStr (s : string)
| JArr (l : list json)
| JObj (kv : list (string * json)).

Inductive exn : Type :=
| JSONDecodeError
| KeyError (key : string)
| IndexError
| TypeError
| ValueError
| FileNotFoundError (path : string).

(** The bytes 10xxxxxx, which continue a character of several bytes. *)
Definition continuation (b : ascii) : bool :=
  (128 <=? nat_of_ascii b)%nat && (nat_of_ascii b <? 192)%nat.

Definition continues (s : string) : bool :=
  match s with
  | EmptyString => false
  | String b _ => continuation b
  end.

Definition ascii_byte (b : ascii) : bool := (nat_of_ascii b <? 128)%nat.

(** The characters of a string: a byte of ASCII is a character, and any
    other byte is one together with the continuation bytes that follow
    it. *)
Fixpoint chars (s : string) : list string :=
  match s with
  | EmptyString => []
  | String b s' =>
      if negb (ascii_byte b) && continues s' then
        match chars s' with
        | c :: cs => String b c :: cs
        | [] => [String b EmptyString]
        end
      else String b EmptyString :: chars s'
  end.

(** The string made of a list of characters. *)
Fixpoint glue (l : list string) : string :=
  match l with
  | [] => EmptyString
  | c :: l' => c +:+ glue l'
  end.

(** [d.get(k)] on the key-value pairs of a decoded object. *)
Fixpoint assoc (k : string) (kv : list (string * json)) : option json :=
  match kv with
  | [] => None
  | (k', v) :: kv' => if String.eqb k k' then Some v else assoc k kv'
  end.

(** [v[k]] for a string key [k]. *)
Definition getitem (v : json) (k : string) : exn + json :=
  match v with
  | JObj kv => match assoc k kv with Some x => inr x | None => inl (KeyError k) end
  | _ => inl TypeError
  end.

(** [v[0]]. *)
Definition getitem0 (v : json) : exn + json :=
  match v with
  | JArr [] => inl IndexError
  | JArr (x :: _) => inr x
  | JStr s => match chars s with [] => inl IndexError | c :: _ => inr (JStr c) end
  | JObj _ => inl (KeyError "0")
  | _ => inl TypeError
  end.

(** The items [for x in v] runs over. *)
Definition py_iter (v : json) : exn + list json :=
  match v with
  | JArr l => inr l
  | JStr s => inr (JStr <$> chars s)
  | JObj kv => inr (map (fun e => JStr e.1) kv)
  | _ => inl TypeError
  end.

(** Truth value of [v], as [not v] tests it. *)
Definition truthy (v : json) : bool :=
  match v with
  | JNull => false
  | JBool b => b
  | JNum n => negb (n =? 0)
  | JStr s => negb (String.eqb s "")
  | JArr l => match l with [] => false | _ => true end
  | JObj kv => match kv with [] => false | _ => true end
  end.

(** [v == s] for a string literal [s]. *)
Definition py_eq_str (v : json) (s : string) : bool :=
  match v with
  | JStr s' => String.eqb s' s
  | _ => false
  end.

(** [d[k] = x] on a decoded document: an existing key keeps its place,
    a new key goes last. *)
Fixpoint assoc_set (k : string) (x : json) (kv : list (string * json))
  : list (string * json) :=
  match kv with
  | [] => [(k, x)]
  | (k', v) :: kv' =>
      if String.eqb k k' then (k, x) :: kv' else (k', v) :: assoc_set k x kv'
  end.

Definition setitem (v : json) (k : string) (x : json) : exn + json :=
  match v with
  | JObj kv => inr (JObj (assoc_set k x kv))
  | _ => inl TypeError
  end.

(** ** The regular expression of [create_new_property_version]

    A pattern is a sequence of atoms, each a character class matched
    once or greedily one-or-more times, inside or outside group 1.
    [re_match] is the backtracking matcher anchored at the start of the
    subject, a list of characters; [re_findall] scans the subject left
    to right and collects group 1 of the successive non-overlapping
    matches.  [dec] is the Unicode table: the characters beyond ASCII
    that are decimal digits. *)

Inductive cclass : Type :=
| AnyChar            (* .   any character but a line feed *)
| Digit              (* \d  *)
| Lit (c : ascii).   (* an escaped or plain literal *)

Inductive quant : Type := One | Plus.

Record atom : Type := Atom { cls : cclass; rep : quant; grp : bool }.

Definition is_digit (dec : string -> bool) (c : string) : bool :=
  match c with
  | EmptyString => false
  | String b EmptyString =>
      (48 <=? nat_of_ascii b)%nat && (nat_of_ascii b <=? 57)%nat
  | String b _ => negb (continuation b) && dec c
  end.

Definition accepts (dec : string -> bool) (k : cclass) (c : string) : bool :=
  match k with
  | AnyChar => negb (String.eqb c (String "010" EmptyString))
  | Digit => is_digit dec c
  | Lit c' => String.eqb c (String c' EmptyString)
  end.

Definition keep (a : atom) (c : string) (r : string * list string)
  : string * list string :=
  (if grp a then c +:+ r.1 else r.1, r.2).

(** Result: the text of group 1 and the unmatched rest of the subject. *)
Fixpoint re_match (dec : string -> bool) (s : list string) (pat : list atom)
    {struct s} : option (string * list string) :=
  match pat with
  | [] => Some (EmptyString, s)
  | a :: pat' =>
      match s with
      | [] => None
      | c :: s' =>
          if accepts dec (cls a) c then
            match rep a with
            | One => keep a c <$> re_match dec s' pat'
            | Plus =>
                match re_match dec s' pat with
                | Some r => Some (keep a c r)
                | None => keep a c <$> re_match dec s' pat'
                end
            end
          else None
      end
  end.

Fixpoint re_findall_from (dec : string -> bool) (fuel : nat) (pat : list atom)
    (s : list string) : list string :=
  match fuel with
  | O => []
  | S fuel' =>
      match re_match dec s pat with
      | Some (g, rest) => g :: re_findall_from dec fuel' pat rest
      | None =>
          match s with
          | [] => []
          | _ :: s' => re_findall_from dec fuel' pat s'
          end
      end
  end.

Definition re_findall (dec : string -> bool) (pat : list atom) (s : string)
  : list string :=
  re_findall_from dec (S (length (chars s))) pat (chars s).

(** ['.+\/(\d+)\?.+'] *)
Definition version_pattern : list atom :=
  [ Atom AnyChar Plus false;
    Atom (Lit "/") One false;
    Atom Digit Plus true;
    Atom (Lit "?") One false;
    Atom AnyChar Plus false ].

(** ** What the module exchanges with the outside *)

Inductive http_method : Type := GET | POST | PUT.

(** The URL handed to the session, before [urljoin] and [format] paste
    it together. *)
Inductive url : Type :=
| UrlSearch                                     (* papi/v1/search/find-by-value *)
| UrlVersions (property_id : json)              (* papi/v1/properties/{}/versions *)
| UrlRules (property_id new_version : json)     (* papi/v1/properties/{}/versions/{}/rules *)
| UrlActivations (property_id : json)           (* papi/v1/properties/{}/activations *)
| UrlLink (activation_link : string)            (* urljoin(baseurl, activation_link) *)
| UrlBase.                                      (* urljoin(baseurl, <empty>) *)

Record request : Type :=
  Request { method : http_method; target : url; payload : option json }.

Record response : Type :=
  Response { status_code : Z; text : option json }.

Inductive event : Type :=
| Http (r : request)
| Open (path : string)
| Sleep (seconds : Z).

Abbreviation dict := (gmap string json).

(** What ends a run: [module.exit_json] or [module.fail_json] with the
    keyword arguments [kw] it was given, an exception nobody catches, or, for the model only, a polling loop
    still going when the fuel is spent. *)
Inductive halt : Type :=
| ExitJson (kw : dict)
| FailJson (msg : string) (kw : dict)
| Uncaught (e : exn)
| Running.

(** The global [result] and the log of outside effects, oldest first. *)
Record state : Type := State { result : dict; log : list event }.

Inductive outcome (A : Type) : Type :=
| Ret (a : A)
| Stop (h : halt).
Arguments Ret {A} a.
Arguments Stop {A} h.

Definition M (A : Type) : Type := state -> outcome A * state.

Definition ret {A} (a : A) : M A := fun st => (Ret a, st).

Definition bind {A B} (m : M A) (k : A -> M B) : M B :=
  fun st =>
    match m st with
    | (Ret a, st') => k a st'
    | (Stop h, st') => (Stop h, st')
    end.

Declare Scope py_scope.
Delimit Scope py_scope with py.
Notation "x <- m ;; k" := (bind m (fun x => k))
  (at level 100, m at next level, right associativity) : py_scope.
Notation "m ;; k" := (bind m (fun _ => k))
  (at level 100, right associativity) : py_scope.
Open Scope py_scope.

Definition stop {A} (h : halt) : M A := fun st => (Stop h, st).

Definition raise {A} (e : exn) : M A := stop (Uncaught e).

Definition try {A} (x : exn + A) : M A :=
  match x with
  | inl e => raise e
  | inr a => ret a
  end.

(** [result[k] = v] and [result[k]]. *)
Definition set_result (k : string) (v : json) : M unit :=
  fun st => (Ret tt, State (<[k := v]> (result st)) (log st)).

Definition get_result (k : string) : M json :=
  fun st =>
    match result st !! k with
    | Some v => (Ret v, st)
    | None => (Stop (Uncaught (KeyError k)), st)
    end.

Definition emit (e : event) : M unit :=
  fun st => (Ret tt, State (result st) (log st ++ [e])).

(** Number of requests sent so far. *)
Fixpoint sent (l : list event) : nat :=
  match l with
  | [] => O
  | Http _ :: l' => S (sent l')
  | _ :: l' => sent l'
  end.

(** [json.loads(response.text)] *)
Definition json_loads (t : option json) : M json :=
  match t with
  | Some j => ret j
  | None => raise JSONDecodeError
  end.

Definition status_ok (c : Z) : bool :=
  (c =? 200) || (c =? 201) || (c =? 204).

Record parameters : Type :=
  Parameters {
    name : string;
    version_notes : string;
    activate_staging : bool;
    activate_production : bool }.

Record AnsibleModule : Type :=
  Module_ { params : parameters; check_mode : bool }.

(** What the run meets outside the module: the API script; the
    rule-tree files, [files path] being [None] for a missing file and
    else what [json.load] makes of its content; and the two library
    tables of the conventions above. *)
Record world : Type :=
  World {
    api : nat -> response;
    files : string -> option (option json);
    decimal : string -> bool;
    locator_ok : string -> bool }.

Section Workflow.

Variable module : AnsibleModule.
Variable session : world.

Definition send (m : http_method) (u : url) (b : option json) : M response :=
  fun st =>
    (Ret (api session (sent (log st))),
     State (result st) (log st ++ [Http (Request m u b)])).

(** [urljoin(baseurl, x)] for the session to fetch: an empty value of
    any type gives the base back, a non-empty value that is not a string
    is a TypeError, and a non-empty string is joined on the base unless
    the libraries refuse it. *)
Definition urljoin (x : json) : M url :=
  if negb (truthy x) then ret UrlBase
  else
    match x with
    | JStr s => if locator_ok session s then ret (UrlLink s) else raise ValueError
    | _ => raise TypeError
    end.

Definition fail_json {A} (msg : string) : M A :=
  fun st => (Stop (FailJson msg (result st)), st).

Definition exit_json {A} : M A :=
  fun st => (Stop (ExitJson (result st)), st).

Definition error_handling (response : response) (action : string) : M unit :=
  if negb (status_ok (status_code response)) then
    fail_json "Error Response Received from API Endpoint"
  else if String.eqb action "search" then
    j <- json_loads (text response) ;;
    versions <- try (getitem j "versions") ;;
    items <- try (getitem versions "items") ;;
    if negb (truthy items) then fail_json "Property Not Found" else ret tt
  else ret tt.

(** One turn of the [for activation in ...] loop of [search_property]. *)
Definition scan_item (activation : json) : M unit :=
  status <- try (getitem activation "productionStatus") ;;
  if py_eq_str status "ACTIVE" then
    v <- try (getitem activation "propertyVersion") ;;
    set_result "current_version" v ;;
    i <- try (getitem activation "propertyId") ;;
    set_result "propertyId" i
  else ret tt.

Fixpoint for_each (l : list json) (body : json -> M unit) : M unit :=
  match l with
  | [] => ret tt
  | x :: l' => body x ;; for_each l' body
  end.

Definition search_property (property_name : string) : M unit :=
  let request_body := JObj [("propertyName", JStr property_name)] in
  response <- send POST UrlSearch (Some request_body) ;;
  response_json_object <- json_loads (text response) ;;
  set_result "api_search_response" response_json_object ;;
  error_handling response "search" ;;
  versions <- try (getitem response_json_object "versions") ;;
  items <- try (getitem versions "items") ;;
  l <- try (py_iter items) ;;
  for_each l scan_item.

(** [re.findall(pattern, x)] raises TypeError on a subject that is not a
    string. *)
Definition findall_version (x : json) : exn + list string :=
  match x with
  | JStr s => inr (re_findall (decimal session) version_pattern s)
  | _ => inl TypeError
  end.

Definition first_of (l : list string) : exn + string :=
  match l with
  | [] => inl IndexError
  | x :: _ => inr x
  end.

Definition create_new_property_version (property_id version : json) : M unit :=
  let request_body := JObj [("createFromVersion", version)] in
  response <- send POST (UrlVersions property_id) (Some request_body) ;;
  response_json_object <- json_loads (text response) ;;
  set_result "api_creation_response" response_json_object ;;
  error_handling response "create" ;;
  link <- try (getitem response_json_object "versionLink") ;;
  new_version <- try (findall_version link) ;;
  v <- try (first_of new_version) ;;
  set_result "new_version" (JStr v) ;;
  set_result "changed" (JBool true).

Definition ruletree_path (property_name : string) : string :=
  "./ruletree/" +:+ property_name +:+ ".ruletree.json".

(** [with open(path) as body: json.load(body)] *)
Definition load_file (path : string) : M json :=
  emit (Open path) ;;
  match files session path with
  | None => raise (FileNotFoundError path)
  | Some t => json_loads t
  end.

Definition update_property (property_name : string) (property_id new_version : json)
  : M unit :=
  request_body <- load_file (ruletree_path property_name) ;;
  request_body <- try (setitem request_body "comments"
                         (JStr (version_notes (params module)))) ;;
  response <- send PUT (UrlRules property_id new_version) (Some request_body) ;;
  _ <- json_loads (text response) ;;
  error_handling response "update".

(** [response_json_object['activations']['items'][0]['status']] *)
Definition first_status (j : json) : exn + json :=
  match getitem j "activations" with
  | inl e => inl e
  | inr a =>
      match getitem a "items" with
      | inl e => inl e
      | inr i =>
          match getitem0 i with
          | inl e => inl e
          | inr x => getitem x "status"
          end
      end
  end.

(** The [while (True)] loop of [activate_property]. *)
Fixpoint poll (fuel : nat) (activation_link : json) : M unit :=
  match fuel with
  | O => stop Running
  | S fuel' =>
      u <- urljoin activation_link ;;
      response <- send GET u None ;;
      response_json_object <- json_loads (text response) ;;
      status <- try (first_status response_json_object) ;;
      if py_eq_str status "ACTIVE" then ret tt
      else emit (Sleep 10) ;; poll fuel' activation_link
  end.

Definition activation_body (network : string) (new_version : json) : json :=
  JObj [("acknowledgeAllWarnings", JStr "true");
        ("network", JStr network);
        ("notifyEmails", JArr [JStr "noreply@example.com"]);
        ("propertyVersion", new_version);
        ("note", JStr (version_notes (params module)))].

Definition activate_property (fuel : nat) (property_id : json) (network : string)
  : M unit :=
  new_version <- get_result "new_version" ;;
  response <- send POST (UrlActivations property_id)
                (Some (activation_body network new_version)) ;;
  response_json_object <- json_loads (text response) ;;
  set_result "api_activation_response" response_json_object ;;
  error_handling response "activate" ;;
  activation_link <- try (getitem response_json_object "activationLink") ;;
  poll fuel activation_link.

(** [result = dict(changed=False, failed=False, propertyId='',
    current_version='', new_version='')] *)
Definition seed : dict :=
  <["new_version" := JStr ""]>
  (<["current_version" := JStr ""]>
  (<["propertyId" := JStr ""]>
  (<["failed" := JBool false]>
  (<["changed" := JBool false]> ∅)))).

Definition when (b : bool) (m : M unit) : M unit :=
  if b then m else ret tt.

Definition run_module (fuel : nat) : M unit :=
  (fun st => (Ret tt, State seed (log st))) ;;
  when (check_mode module) exit_json ;;
  search_property (name (params module)) ;;
  property_id <- get_result "propertyId" ;;
  current_version <- get_result "current_version" ;;
  create_new_property_version property_id current_version ;;
  property_id <- get_result "propertyId" ;;
  new_version <- get_result "new_version" ;;
  update_property (name (params module)) property_id new_version ;;
  when (activate_staging (params module))
    (property_id <- get_result "propertyId" ;;
     activate_property fuel property_id "STAGING") ;;
  when (activate_production (params module))
    (property_id <- get_result "propertyId" ;;
     activate_property fuel property_id "PRODUCTION") ;;
  when (String.eqb (name (params module)) "fail me")
    (fail_json "You requested this to fail") ;;
  exit_json.

End Workflow.

(** A run starts with no [result] and nothing done yet. *)
Definition boot : state := State ∅ [].

Definition run (module : AnsibleModule) (session : world) (fuel : nat)
  : outcome unit * state :=
  run_module module session fuel boot.

(** ** Vocabulary of the statements *)

Definition transport_msg : string := "Error Response Received from API Endpoint".
Definition not_found_msg : string := "Property Not Found".

(** [json.loads(response.text)['versions']['items']] *)
Definition items_of (t : option json) : exn + json :=
  match t with
  | None => inl JSONDecodeError
  | Some j =>
      match getitem j "versions" with
      | inl e => inl e
      | inr v => getitem v "items"
      end
  end.

(** Whether a version item of the search reply is the one active on
    production: [activation['productionStatus'] == 'ACTIVE']. *)
Definition production_active (x : json) : option bool :=
  match getitem x "productionStatus" with
  | inr s => Some (py_eq_str s "ACTIVE")
  | inl _ => None
  end.

Definition inactive (x : json) : Prop := production_active x = Some false.

Definition active_with (x p v : json) : Prop :=
  production_active x = Some true
  /\ getitem x "propertyVersion" = inr v
  /\ getitem x "propertyId" = inr p.

Definition scannable (x : json) : Prop :=
  inactive x \/ exists p v, active_with x p v.

Definition search_request (property_name : string) : request :=
  Request POST UrlSearch (Some (JObj [("propertyName", JStr property_name)])).

Definition create_request (property_id version : json) : request :=
  Request POST (UrlVersions property_id) (Some (JObj [("createFromVersion", version)])).

Definition activation_request (module : AnsibleModule) (property_id : json)
    (network : string) (new_version : json) : request :=
  Request POST (UrlActivations property_id)
    (Some (activation_body module network new_version)).

(** What the polling loop reads in a status reply: [Some true] when the
    first item's status is ACTIVE, [Some false] when it is anything
    else, [None] when the reply has no such field. *)
Definition status_active (t : option json) : option bool :=
  match t with
  | Some j =>
      match first_status j with
      | inr s => Some (py_eq_str s "ACTIVE")
      | inl _ => None
      end
  | None => None
  end.

(** What [urljoin] makes of a locator: the URL to fetch, or the
    exception it is refused with. *)
Definition joined (session : world) (x : json) : exn + url :=
  if negb (truthy x) then inr UrlBase
  else
    match x with
    | JStr s => if locator_ok session s then inr (UrlLink s) else inl ValueError
    | _ => inl TypeError
    end.

Definition fetch (u : url) : event := Http (Request GET u None).

(** [k] fetches, each followed by the 10 second sleep. *)
Fixpoint polling (u : url) (k : nat) : list event :=
  match k with
  | O => []
  | S k' => fetch u :: Sleep 10 :: polling u k'
  end.

Definition poll_event (e : event) : Prop :=
  match e with
  | Http (Request GET _ None) => True
  | Sleep 10 => True
  | _ => False
  end.

(** How a step may halt: by an uncaught exception, or by the validator
    rejecting the reply to the request just sent, in which case the
    report carries [result] as it stands. *)
Definition step_halt (session : world) (h : halt) (st : state) : Prop :=
  match h with
  | Uncaught _ => True
  | FailJson msg kw =>
      kw = result st
      /\ exists l rq,
           log st = l ++ [Http rq]
           /\ method rq <> GET
           /\ let reply := api session (sent l) in
              (msg = transport_msg /\ status_ok (status_code reply) = false)
              \/ (msg = not_found_msg /\ status_ok (status_code reply) = true
                  /\ exists i, items_of (text reply) = inr i /\ truthy i = false)
  | ExitJson _ => False
  | Running => False
  end.

(** The version number the creation reply announces: group 1 of the
    first match of the pattern in its [versionLink]. *)
Definition created_version (session : world) (reply : response) : option string :=
  match text reply with
  | Some body =>
      match getitem body "versionLink" with
      | inr (JStr link) => head (re_findall (decimal session) version_pattern link)
      | _ => None
      end
  | None => None
  end.

(** The fork went through on [reply] and left its marks in [r]. *)
Definition forked (session : world) (reply : response) (ver : string) (r : dict)
  : Prop :=
  status_ok (status_code reply) = true
  /\ created_version session reply = Some ver
  /\ r !! "new_version" = Some (JStr ver)
  /\ r !! "changed" = Some (JBool true).

(** *** The shape of a run

    The events of the workflow's steps, what [search_property] found on
    the first reply, and, as an inductive predicate, the places where a
    run that is not in check mode can end, each with the log and the
    [result] it ends with. *)

Definition locate_event (module : AnsibleModule) : event :=
  Http (search_request (name (params module))).

Definition fork_event (property_id version : json) : event :=
  Http (create_request property_id version).

Definition open_event (module : AnsibleModule) : event :=
  Open (ruletree_path (name (params module))).

Definition apply_event (property_id : json) (ver : string) (b : option json) : event :=
  Http (Request PUT (UrlRules property_id (JStr ver)) b).

Definition activate_event (module : AnsibleModule) (network : string)
    (property_id : json) (ver : string) : event :=
  Http (activation_request module property_id network (JStr ver)).

Definition discovered (module : AnsibleModule) (session : world)
    (property_id version : json) : Prop :=
  let out := search_property session (name (params module)) (State seed []) in
  out.1 = Ret tt
  /\ result out.2 !! "propertyId" = Some property_id
  /\ result out.2 !! "current_version" = Some version.

Definition located (r : dict) (property_id version : json) : Prop :=
  r !! "propertyId" = Some property_id /\ r !! "current_version" = Some version.

(** [tail] is a completed wait: fetches and sleeps, the last fetch
    answered ACTIVE. *)
Definition waited (session : world) (before tail : list event) : Prop :=
  Forall poll_event tail
  /\ exists t0 u,
       tail = t0 ++ [fetch u]
       /\ status_active (text (api session (sent (before ++ t0)))) = Some true.

Definition activation_done (module : AnsibleModule) (session : world)
    (requested : bool) (network : string) (property_id : json) (ver : string)
    (before part : list event) : Prop :=
  if requested then
    exists tail,
      part = activate_event module network property_id ver :: tail
      /\ waited session (before ++ [activate_event module network property_id ver]) tail
  else part = [].

Definition applied (module : AnsibleModule) (property_id version : json)
    (ver : string) (b : option json) : list event :=
  [locate_event module; fork_event property_id version;
   open_event module; apply_event property_id ver b].

Definition last_call (module : AnsibleModule) (r : dict) : halt :=
  if String.eqb (name (params module)) "fail me"
  then FailJson "You requested this to fail" r
  else ExitJson r.

Inductive run_shape (module : AnsibleModule) (session : world)
  : outcome unit -> state -> Prop :=
| halt_locate h r :
    (search_property session (name (params module)) (State seed [])).1 = Stop h ->
    step_halt session h (State r [locate_event module]) ->
    r !! "changed" = Some (JBool false) ->
    run_shape module session (Stop h) (State r [locate_event module])
| halt_fork h r pid cv :
    discovered module session pid cv ->
    located r pid cv ->
    step_halt session h (State r [locate_event module; fork_event pid cv]) ->
    r !! "changed" = Some (JBool false) ->
    run_shape module session (Stop h)
      (State r [locate_event module; fork_event pid cv])
| halt_apply h r pid cv ver tail :
    discovered module session pid cv ->
    located r pid cv ->
    forked session (api session 1) ver r ->
    (tail = [] \/ exists b, tail = [apply_event pid ver b]) ->
    step_halt session h
      (State r ([locate_event module; fork_event pid cv; open_event module] ++ tail)) ->
    run_shape module session (Stop h)
      (State r ([locate_event module; fork_event pid cv; open_event module] ++ tail))
| halt_staging h r pid cv ver b tail :
    activate_staging (params module) = true ->
    discovered module session pid cv ->
    located r pid cv ->
    forked session (api session 1) ver r ->
    Forall poll_event tail ->
    (h = Running
     \/ step_halt session h
          (State r (applied module pid cv ver b
                    ++ activate_event module "STAGING" pid ver :: tail))) ->
    run_shape module session (Stop h)
      (State r (applied module pid cv ver b
                ++ activate_event module "STAGING" pid ver :: tail))
| halt_production h r pid cv ver b stg tail :
    activate_production (params module) = true ->
    discovered module session pid cv ->
    located r pid cv ->
    forked session (api session 1) ver r ->
    activation_done module session (activate_staging (params module))
      "STAGING" pid ver (applied module pid cv ver b) stg ->
    Forall poll_event tail ->
    (h = Running
     \/ step_halt session h
          (State r (applied module pid cv ver b ++ stg
                    ++ activate_event module "PRODUCTION" pid ver :: tail))) ->
    run_shape module session (Stop h)
      (State r (applied module pid cv ver b ++ stg
                ++ activate_event module "PRODUCTION" pid ver :: tail))
| finished r pid cv ver b stg prd :
    discovered module session pid cv ->
    located r pid cv ->
    forked session (api session 1) ver r ->
    activation_done module session (activate_staging (params module))
      "STAGING" pid ver (applied module pid cv ver b) stg ->
    activation_done module session (activate_production (params module))
      "PRODUCTION" pid ver (applied module pid cv ver b ++ stg) prd ->
    run_shape module session (Stop (last_call module r))
      (State r (applied module pid cv ver b ++ stg ++ prd)).

(** Character tests over a whole string: no line feed, only decimal
    digits, no slash. *)
Definition one_line (s : string) : bool :=
  forallb (fun c => negb (String.eqb c (String "010" EmptyString))) (chars s).

Definition digits (dec : string -> bool) (s : string) : bool :=
  forallb (is_digit dec) (chars s).

Definition no_slash (s : string) : bool :=
  forallb (fun c => negb (String.eqb c "/")) (chars s).

(** A version segment in a list of characters: a character that is not
    a line feed, a slash, the digits [ds], a question mark, and again a
    character that is not a line feed. *)
Definition segment (x : string) (ds : list string) (y : string) : list string :=
  x :: "/" :: ds ++ ["?"; y].

Definition segment_ok (dec : string -> bool) (x : string) (ds : list string)
    (y : string) : Prop :=
  accepts dec AnyChar x = true
  /\ ds <> [] /\ forallb (is_digit dec) ds = true
  /\ accepts dec AnyChar y = true.

Definition has_version (dec : string -> bool) (cs : list string) : Prop :=
  exists u x ds y v,
    cs = u ++ segment x ds y ++ v /\ segment_ok dec x ds y.

(** *** The steps of the workflow, as read off the log *)

Inductive step : Type :=
| Locate (property_name : json)
| Fork (property_id from_version : json)
| Apply (property_id version : json)
| Activate (network property_id version : json).

Definition field (b : option json) (k : string) : json :=
  match b with
  | Some j => match getitem j k with inr v => v | inl _ => JNull end
  | None => JNull
  end.

(** The step a logged event starts; fetches, sleeps and file opens start
    none. *)
Definition step_of (e : event) : option step :=
  match e with
  | Http (Request POST UrlSearch b) => Some (Locate (field b "propertyName"))
  | Http (Request POST (UrlVersions pid) b) =>
      Some (Fork pid (field b "createFromVersion"))
  | Http (Request PUT (UrlRules pid v) _) => Some (Apply pid v)
  | Http (Request POST (UrlActivations pid) b) =>
      Some (Activate (field b "network") pid (field b "propertyVersion"))
  | _ => None
  end.

Definition steps (l : list event) : list step := omap step_of l.

(** The sequence the orchestrator is to go through. *)
Definition plan (module : AnsibleModule) (property_id version : json) (ver : string)
  : list step :=
  [Locate (JStr (name (params module)));
   Fork property_id version;
   Apply property_id (JStr ver)]
  ++ (if activate_staging (params module)
      then [Activate (JStr "STAGING") property_id (JStr ver)] else [])
  ++ (if activate_production (params module)
      then [Activate (JStr "PRODUCTION") property_id (JStr ver)] else []).

Definition activates (network : string) (e : event) : Prop :=
  exists pid v, step_of e = Some (Activate (JStr network) pid v).

(** A run that ends in a failure, and the result fields its failure
    report carries: those handed to [fail_json]; an uncaught exception
    leaves the module with a traceback and no fields. *)
Definition failure (h : halt) : Prop :=
  match h with
  | FailJson _ _ => True
  | Uncaught _ => True
  | _ => False
  end.

Definition failure_report (h : halt) : option dict :=
  match h with
  | FailJson _ kw => Some kw
  | _ => None
  end.

Definition reports_partial_result (module : AnsibleModule) (session : world)
    (fuel : nat) : Prop :=
  forall h st,
    run module session fuel = (Stop h, st) ->
    failure h ->
    failure_report h = Some (result st).

(** *** Sample runs *)

Definition demo_item (status : string) (version : Z) : json :=
  JObj [("propertyId", JStr "prp_1");
        ("propertyVersion", JNum version);
        ("productionStatus", JStr status)].

Definition status_doc (status : string) : json :=
  JObj [("activations", JObj [("items", JArr [JObj [("status", JStr status)]])])].

Definition demo_api (n : nat) : response :=
  match n with
  | 0%nat =>
      Response 200
        (Some (JObj [("versions",
                      JObj [("items", JArr [demo_item "INACTIVE" 4;
                                            demo_item "ACTIVE" 5])])]))
  | 1%nat =>
      Response 201
        (Some (JObj [("versionLink",
                      JStr "/papi/v1/properties/prp_1/versions/6?contractId=ctr_1")]))
  | 2%nat => Response 200 (Some (JObj []))
  | 3%nat =>
      Response 201
        (Some (JObj [("activationLink",
                      JStr "/papi/v1/properties/prp_1/activations/atv_1")]))
  | 4%nat | 5%nat => Response 200 (Some (status_doc "PENDING"))
  | _ => Response 200 (Some (status_doc "ACTIVE"))
  end.

(** Sample library tables.  The Unicode table knows the decimal digits
    of six blocks: Arabic-Indic (U+0660), Extended Arabic-Indic (U+06F0),
    Devanagari (U+0966), Bengali (U+09E6), Thai (U+0E50) and Fullwidth
    (U+FF10).  The URL libraries take a locator when it is a path from
    the root of the host. *)
Definition code_point (c : string) : option N :=
  match c with
  | String b1 (String b2 EmptyString) =>
      Some ((N_of_ascii b1 - 192) * 64 + (N_of_ascii b2 - 128))%N
  | String b1 (String b2 (String b3 EmptyString)) =>
      Some ((N_of_ascii b1 - 224) * 4096 + (N_of_ascii b2 - 128) * 64
            + (N_of_ascii b3 - 128))%N
  | _ => None
  end.

Definition sample_decimal (c : string) : bool :=
  match code_point c with
  | Some n =>
      existsb (fun zero => (zero <=? n)%N && (n <? zero + 10)%N)
        [1632; 1776; 2406; 2534; 3664; 65296]%N
  | None => false
  end.

Definition rooted_path (s : string) : bool :=
  match s with
  | String "/" (String "/" _) => false
  | String "/" _ => true
  | _ => false
  end.

Definition serving (a : nat -> response) (f : string -> option (option json))
  : world :=
  World a f sample_decimal rooted_path.

Definition demo_files (path : string) : option (option json) :=
  if String.eqb path "./ruletree/demo.ruletree.json"
  then Some (Some (JObj [("rules", JObj [])]))
  else None.

Definition demo_world : world := serving demo_api demo_files.

Definition no_files : world := serving demo_api (fun _ => None).

Definition demo_module : AnsibleModule :=
  Module_ (Parameters "demo" "n" true false) false.

(** The validator's contract read as three cases that leave nothing
    out: transport failure, not-found failure, success. *)
Definition three_way_validator (r : response) (action : string) (st : state)
  : Prop :=
  let o := (error_handling r action st).1 in
  (status_ok (status_code r) = false ->
     o = Stop (FailJson transport_msg (result st)))
  /\ (status_ok (status_code r) = true ->
      action = "search" -> items_of (text r) = inr (JArr []) ->
      o = Stop (FailJson not_found_msg (result st)))
  /\ (status_ok (status_code r) = true ->
      ~ (action = "search" /\ items_of (text r) = inr (JArr [])) ->
      o = Ret tt).

Definition items_doc (l : list json) : json :=
  JObj [("versions", JObj [("items", JArr l)])].

(** Replies for the sample runs: a search that finds nothing, one that
    finds no active version, a status that never turns ACTIVE, a status
    that does at the third fetch, and a gateway answering in HTML. *)
Definition empty_world : world :=
  serving (fun _ => Response 200 (Some (items_doc []))) demo_files.

Definition inactive_world : world :=
  serving (fun n => match n with
                  | O => Response 200 (Some (items_doc [demo_item "INACTIVE" 4]))
                  | _ => demo_api n
                  end) demo_files.

Definition stuck_world : world :=
  serving (fun _ => Response 200 (Some (status_doc "ABORTED"))) demo_files.

Definition polling_world : world :=
  serving (fun n => match n with
                  | 0%nat | 1%nat => Response 200 (Some (status_doc "PENDING"))
                  | _ => Response 200 (Some (status_doc "ACTIVE"))
                  end) demo_files.

Definition garbled_world : world :=
  serving (fun _ => Response 502 None) demo_files.

Definition rejecting_world : world :=
  serving (fun _ => Response 403 (Some (JObj []))) demo_files.

(** The state of the demo run after the search and the fork. *)
Definition after_fork : state :=
  State (<["new_version" := JStr "6"]> seed)
        [Http (search_request "demo");
         Http (create_request (JStr "prp_1") (JNum 5))].

Definition shape_of (module : AnsibleModule) (session : world)
    (x : outcome unit * state) : Prop :=
  run_shape module session x.1 x.2.

(** The pattern from each of its atoms on. *)
Definition tail_any : list atom := [Atom AnyChar Plus false].
Definition tail_query : list atom := Atom (Lit "?") One false :: tail_any.
Definition tail_digits : list atom := Atom Digit Plus true :: tail_query.
Definition tail_slash : list atom := Atom (Lit "/") One false :: tail_digits.

(** An event that, if it is an activation request, asks for [ver]. *)
Definition asks_version (ver : string) (e : event) : Prop :=
  forall pid b,
    e = Http (Request POST (UrlActivations pid) b) ->
    field b "propertyVersion" = JStr ver.

(** *** Vocabulary of the further properties *)

(** A non-empty string of decimal digits. *)
Definition numeral (dec : string -> bool) (s : string) : Prop :=
  s <> EmptyString /\ digits dec s = true.

(** [m] keeps a property of [result], whatever state it starts in. *)
Definition preserves (P : dict -> Prop) {A : Type} (m : M A) : Prop :=
  forall st, P (result st) -> P (result (m st).2).

(** The keys [result] can ever hold: the five seeded ones and the three
    raw replies. *)
Definition result_keys : list string :=
  ["changed"; "failed"; "propertyId"; "current_version"; "new_version";
   "api_search_response"; "api_creation_response"; "api_activation_response"].

Definition flag (b : bool) : nat := if b then 1%nat else 0%nat.

(** The same replies as [polling_world], all with status 500. *)
Definition failing_status_world : world :=
  serving (fun n => Response 500 (text (api polling_world n))) demo_files.

(** One PENDING status, then an HTML page. *)
Definition broken_poll_world : world :=
  serving (fun n => match n with
                  | O => Response 200 (Some (status_doc "PENDING"))
                  | _ => Response 200 None
                  end) demo_files.

Definition fail_me_module : AnsibleModule :=
  Module_ (Parameters "fail me" "n" false false) false.

Definition fail_me_files (path : string) : option (option json) :=
  if String.eqb path "./ruletree/fail me.ruletree.json"
  then Some (Some (JObj []))
  else None.

Definition fail_me_world : world := serving demo_api fail_me_files.

Definition update_only_module : AnsibleModule :=
  Module_ (Parameters "demo" "n" false false) false.

Definition production_only_module : AnsibleModule :=
  Module_ (Parameters "demo" "n" false true) false.

(** A rule tree that is a JSON list, and one that is not JSON. *)
Definition list_ruletree : world :=
  serving demo_api (fun _ => Some (Some (JArr []))).

Definition garbled_ruletree : world :=
  serving demo_api (fun _ => Some None).

(** An activation reply whose locator urllib cannot split. *)
Definition refused_link_world : world :=
  serving (fun _ => Response 201 (Some (JObj [("activationLink", JStr "//[")])))
          demo_files.

(** The replies to an activation request sent as request number [n]:
    accepted, with a locator [urljoin] takes, then [k] status replies
    that are not ACTIVE and one that is. *)
Definition accepted_activation (session : world) (n : nat) (body link : json)
    (u : url) (k : nat) : Prop :=
  status_ok (status_code (api session n)) = true
  /\ text (api session n) = Some body
  /\ getitem body "activationLink" = inr link
  /\ joined session link = inr u
  /\ (forall i, (i < k)%nat ->
        status_active (text (api session (S n + i))) = Some false)
  /\ status_active (text (api session (S n + k))) = Some true.

(** *** The steps as the specification words them

    Readings to the letter of what the specification promises of the
    fork, the locator and the rule applier, to be compared with what the
    code does. *)

(** After the fork step went through on [body]. *)
Definition fork_done (property_id version : json) (st : state) (body : json)
    (ver : string) : outcome unit * state :=
  (Ret tt,
   State (<["changed" := JBool true]>
            (<["new_version" := JStr ver]>
               (<["api_creation_response" := body]> (result st))))
         (log st ++ [Http (create_request property_id version)])).

(** After the fork step raised [e] on the accepted reply [body]. *)
Definition fork_raised (property_id version : json) (st : state) (body : json)
    (e : exn) : outcome unit * state :=
  (Stop (Uncaught e),
   State (<["api_creation_response" := body]> (result st))
         (log st ++ [Http (create_request property_id version)])).

(** A locator "ending in .../versions/<digits>?...". *)
Definition version_locator (dec : string -> bool) (link ds : string) : Prop :=
  ds <> EmptyString /\ digits dec ds = true
  /\ exists pre q, link = pre +:+ "/versions/" +:+ ds +:+ "?" +:+ q.

(** "For every successful creation response whose version locator ends
    in .../versions/<digits>?..., fork returns that integer and changed
    becomes true; for every creation response without that pattern, fork
    fails." *)
Definition fork_as_claimed (session : world) (property_id version : json)
    (st : state) : Prop :=
  let reply := api session (sent (log st)) in
  let out := create_new_property_version session property_id version st in
  forall body link,
    status_ok (status_code reply) = true ->
    text reply = Some body ->
    getitem body "versionLink" = inr (JStr link) ->
    (forall ds, version_locator (decimal session) link ds ->
       out.1 = Ret tt
       /\ result out.2 !! "new_version" = Some (JStr ds)
       /\ result out.2 !! "changed" = Some (JBool true))
    /\ ((forall ds, ~ version_locator (decimal session) link ds) ->
        exists h, out.1 = Stop h).

(** A creation reply with the given locator, whatever is asked. *)
Definition link_world (link : string) : world :=
  serving (fun _ => Response 201 (Some (JObj [("versionLink", JStr link)])))
          demo_files.

(** What reading one version item raises, if anything. *)
Definition scan_error (x : json) : option exn :=
  match getitem x "productionStatus" with
  | inl e => Some e
  | inr s =>
      if py_eq_str s "ACTIVE" then
        match getitem x "propertyVersion" with
        | inl e => Some e
        | inr _ =>
            match getitem x "propertyId" with
            | inl e => Some e
            | inr _ => None
            end
        end
      else None
  end.

(** An item that is not active on production, whether it says so or
    carries no production status at all. *)
Definition not_active (x : json) : Prop := production_active x <> Some true.

(** "For a search response containing exactly one item with production
    status ACTIVE bearing version v and property id p, locate returns
    (p, v)." *)
Definition locate_as_claimed (session : world) (property_name : string)
    (st : state) : Prop :=
  let reply := api session (sent (log st)) in
  let out := search_property session property_name st in
  forall body l1 a l2 p v,
    status_ok (status_code reply) = true ->
    text reply = Some body ->
    items_of (Some body) = inr (JArr (l1 ++ a :: l2)) ->
    active_with a p v ->
    Forall not_active (l1 ++ l2) ->
    out.1 = Ret tt
    /\ result out.2 !! "propertyId" = Some p
    /\ result out.2 !! "current_version" = Some v.

(** "For every search response with a non-empty version list in which
    no item carries production status ACTIVE, locate does not fail and
    the workflow proceeds to the next step with the empty identifiers." *)
Definition proceeds_as_claimed (module : AnsibleModule) (session : world)
    (fuel : nat) : Prop :=
  forall body l,
    status_ok (status_code (api session 0)) = true ->
    text (api session 0) = Some body ->
    items_of (Some body) = inr (JArr l) ->
    l <> [] ->
    Forall not_active l ->
    (search_property session (name (params module)) (State seed [])).1 = Ret tt
    /\ exists rest,
         log (run module session fuel).2
         = locate_event module :: fork_event (JStr "") (JStr "") :: rest.

(** A version item without a production status. *)
Definition bare_item : json :=
  JObj [("propertyId", JStr "prp_1"); ("propertyVersion", JNum 4)].

Definition bare_world : world :=
  serving (fun n => match n with
                    | O => Response 200 (Some (items_doc [bare_item]))
                    | _ => demo_api n
                    end) demo_files.

Definition bare_first_world : world :=
  serving (fun n => match n with
                    | O => Response 200
                             (Some (items_doc [bare_item; demo_item "ACTIVE" 5]))
                    | _ => demo_api n
                    end) demo_files.

(** "The Rule Applier loads the rule document keyed by the property
    name, injects the notes and submits it, and fails with
    RuleDocumentNotFoundError when the document cannot be located." *)
Definition applier_as_claimed (module : AnsibleModule) (session : world)
    (property_name : string) (property_id new_version : json) (st : state)
  : Prop :=
  let path := "./ruletree/" +:+ property_name +:+ ".ruletree.json" in
  let out := update_property module session property_name property_id new_version st in
  (files session path = None ->
     out.1 = Stop (Uncaught (FileNotFoundError path)))
  /\ (files session path <> None ->
      exists body,
        Http (Request PUT (UrlRules property_id new_version) (Some body))
          ∈ log out.2).

(** *** The orchestration

    [x] is what the run [out] does next: when [x] halts, [out] is [x],
    and when [x] returns, [next] holds of the state it leaves. *)
Definition proceeds (out x : outcome unit * state) (next : state -> Prop) : Prop :=
  match x.1 with
  | Stop _ => out = x
  | Ret _ => next x.2
  end.

(** ** Proof support *)

Arguments py_eq_str : simpl never.

Ltac run_step :=
  unfold when, try, json_loads, raise, stop, set_result, get_result,
    emit, send, fail_json, exit_json, ret, bind in *; simpl in *.

Ltac norm_list :=
  unfold applied; cbn [app]; rewrite <- ?app_assoc; cbn [app].

(** ** Check mode *)

Lemma run_check_mode p session fuel :
  run (Module_ p true) session fuel = (Stop (ExitJson seed), State seed []).
Proof. reflexivity. Qed.

(** C7. With the check-mode flag set, the run exits through [exit_json]
    with the seeded result, untouched, and has done nothing to the
    outside: its log holds no request, no file open and no sleep.  This
    holds for every parameter set, API script, file system and fuel. *)
Theorem check_mode_short_circuit
    (module : AnsibleModule) (session : world) (fuel : nat) :
  check_mode module = true ->
  let out := run module session fuel in
  out.1 = Stop (ExitJson seed)
  /\ result out.2 = seed
  /\ log out.2 = []
  /\ sent (log out.2) = 0%nat.
Proof.
  intros Hc. destruct module as [p c]. simpl in Hc. subst c.
  repeat split.
Qed.

(** ** The response validator *)

Lemma error_handling_state r action st :
  (error_handling r action st).2 = st.
Proof.
  unfold error_handling.
  destruct (status_ok (status_code r)); simpl; [|reflexivity].
  destruct (String.eqb action "search"); [|reflexivity].
  destruct (text r) as [j|]; run_step; [|reflexivity].
  destruct (getitem j "versions") as [e|v]; simpl; [reflexivity|].
  destruct (getitem v "items") as [e|i]; simpl; [reflexivity|].
  destruct (truthy i); reflexivity.
Qed.

(** C5, as the code has it.  On a status code outside 200, 201 and 204
    the validator fails with the transport message whatever the body is;
    on an accepted code it looks at the body for the action [search]
    only: it fails with the not-found message when the body's
    [versions.items] is empty, succeeds when it is not empty, and lets the
    decoding or lookup exception escape when the body has no
    [versions.items] at all; for every other action it succeeds without
    reading the body.  It never changes the state, and what it reports
    carries the result accumulated so far. *)
Theorem error_handling_cases (r : response) (action : string) (st : state) :
  (status_ok (status_code r) = false ->
     error_handling r action st = (Stop (FailJson transport_msg (result st)), st))
  /\ (status_ok (status_code r) = true -> action <> "search" ->
     error_handling r action st = (Ret tt, st))
  /\ (forall i, status_ok (status_code r) = true -> action = "search" ->
       items_of (text r) = inr i -> truthy i = false ->
       error_handling r action st = (Stop (FailJson not_found_msg (result st)), st))
  /\ (forall i, status_ok (status_code r) = true -> action = "search" ->
       items_of (text r) = inr i -> truthy i = true ->
       error_handling r action st = (Ret tt, st))
  /\ (forall e, status_ok (status_code r) = true -> action = "search" ->
       items_of (text r) = inl e ->
       error_handling r action st = (Stop (Uncaught e), st))
  /\ (error_handling r action st).2 = st.
Proof.
  repeat split; try apply error_handling_state.
  - intros H. unfold error_handling. rewrite H. reflexivity.
  - intros H Ha. unfold error_handling. rewrite H. simpl.
    destruct (String.eqb_spec action "search"); [contradiction|reflexivity].
  - intros i H -> Hi Ht. unfold error_handling, items_of in *. rewrite H. simpl.
    destruct (text r) as [j|]; [|discriminate]. run_step.
    destruct (getitem j "versions") as [e|v]; [discriminate|]. simpl.
    rewrite Hi. simpl. rewrite Ht. reflexivity.
  - intros i H -> Hi Ht. unfold error_handling, items_of in *. rewrite H. simpl.
    destruct (text r) as [j|]; [|discriminate]. run_step.
    destruct (getitem j "versions") as [e|v]; [discriminate|]. simpl.
    rewrite Hi. simpl. rewrite Ht. reflexivity.
  - intros e H -> Hi. unfold error_handling, items_of in *. rewrite H. simpl.
    destruct (text r) as [j|]; run_step; [|congruence].
    destruct (getitem j "versions") as [e'|v]; simpl; [congruence|].
    rewrite Hi. reflexivity.
Qed.

Lemma sent_app l1 l2 : sent (l1 ++ l2) = (sent l1 + sent l2)%nat.
Proof.
  induction l1 as [|e l1 IH]; simpl; [reflexivity|].
  destruct e; simpl; rewrite IH; reflexivity.
Qed.

Lemma sent_open l path : sent (l ++ [Open path]) = sent l.
Proof. rewrite sent_app. simpl. lia. Qed.

(** ** Decoding comes before validation *)

(** C10. Each step decodes the body of the reply before it hands the
    reply to the validator.  So whenever the reply to the step's request
    has a body that is not JSON, the step ends with an uncaught
    JSONDecodeError, whatever the status code, in particular for a code
    outside 200, 201 and 204, where a decodable body would have given the
    validator's transport failure instead.  (For the update step the rule
    tree must have been loaded as an object, and for the activation step
    the result must hold a new version, else the step ends before its
    request.) *)
Theorem decode_before_validate
    (module : AnsibleModule) (session : world) (st : state)
    (property_name network : string) (property_id version : json) (fuel : nat) :
  let reply := api session (sent (log st)) in
  (text reply = None ->
     (search_property session property_name st).1 = Stop (Uncaught JSONDecodeError)
     /\ (create_new_property_version session property_id version st).1
        = Stop (Uncaught JSONDecodeError)
     /\ (forall kv, files session (ruletree_path property_name) = Some (Some (JObj kv)) ->
         (update_property module session property_name property_id version st).1
         = Stop (Uncaught JSONDecodeError))
     /\ (forall v, result st !! "new_version" = Some v ->
         (activate_property module session fuel property_id network st).1
         = Stop (Uncaught JSONDecodeError)))
  /\ (forall j, text reply = Some j -> status_ok (status_code reply) = false ->
     (exists kw, (search_property session property_name st).1
                 = Stop (FailJson transport_msg kw))
     /\ (exists kw, (create_new_property_version session property_id version st).1
                    = Stop (FailJson transport_msg kw))
     /\ (forall kv, files session (ruletree_path property_name) = Some (Some (JObj kv)) ->
         exists kw, (update_property module session property_name property_id version st).1
                    = Stop (FailJson transport_msg kw))
     /\ (forall v, result st !! "new_version" = Some v ->
         exists kw, (activate_property module session fuel property_id network st).1
                    = Stop (FailJson transport_msg kw))).
Proof.
  intros reply. subst reply. split.
  - intros Ht. repeat split.
    + unfold search_property. run_step. rewrite Ht. reflexivity.
    + unfold create_new_property_version. run_step. rewrite Ht. reflexivity.
    + intros kv Hf. unfold update_property, load_file. run_step.
      rewrite Hf. simpl. rewrite sent_open, Ht. reflexivity.
    + intros v Hv. unfold activate_property. run_step.
      rewrite Hv. simpl. rewrite Ht. reflexivity.
  - intros j Ht Hs. repeat split.
    + unfold search_property, error_handling. run_step.
      rewrite Ht. simpl. rewrite Hs. simpl. eauto.
    + unfold create_new_property_version, error_handling. run_step.
      rewrite Ht. simpl. rewrite Hs. simpl. eauto.
    + intros kv Hf. unfold update_property, load_file, error_handling. run_step.
      rewrite Hf. simpl. rewrite sent_open, Ht. simpl. rewrite Hs. simpl. eauto.
    + intros v Hv. unfold activate_property, error_handling. run_step.
      rewrite Hv. simpl. rewrite Ht. simpl. rewrite Hs. simpl. eauto.
Qed.

(** ** The rule applier *)

Lemma assoc_set_same k x kv : assoc k (assoc_set k x kv) = Some x.
Proof.
  induction kv as [|[k' v] kv IH]; simpl.
  - rewrite String.eqb_refl. reflexivity.
  - destruct (String.eqb k k') eqn:E; simpl.
    + rewrite String.eqb_refl. reflexivity.
    + rewrite E. exact IH.
Qed.

Lemma assoc_set_other k k' x kv :
  k' <> k -> assoc k' (assoc_set k x kv) = assoc k' kv.
Proof.
  intros Hne. induction kv as [|[k0 v] kv IH]; simpl.
  - destruct (String.eqb_spec k' k); [contradiction|reflexivity].
  - destruct (String.eqb_spec k k0) as [->|Hk]; simpl.
    + destruct (String.eqb_spec k' k0); [contradiction|reflexivity].
    + rewrite IH. reflexivity.
Qed.

(** Whatever happens, the update step leaves [result] as it found it. *)
Lemma update_property_result module session property_name property_id new_version st :
  result (update_property module session property_name property_id new_version st).2
  = result st.
Proof.
  unfold update_property, load_file. run_step.
  destruct (files session (ruletree_path property_name)) as [[doc|]|]; simpl;
    try reflexivity.
  destruct (setitem doc "comments" _) as [e|body]; simpl; [reflexivity|].
  rewrite sent_open.
  destruct (text (api session (sent (log st)))) as [j|]; simpl; [|reflexivity].
  match goal with |- result (?m ?s).2 = _ =>
    change (result (error_handling (api session (sent (log st))) "update" s).2 = result st)
  end.
  rewrite error_handling_state. reflexivity.
Qed.

(** C9, as the code has it.  The update step opens the file
    [./ruletree/<property name>.ruletree.json].  When the file is
    missing the step ends in an uncaught FileNotFoundError; when its
    content is not JSON, in an uncaught JSONDecodeError; when it is JSON
    but not an object, in an uncaught TypeError at the assignment of
    [comments]; in these three cases nothing is sent.  When the file
    holds an object the step sends one PUT to the rules of the given
    property version, whose body is that object with [comments] set to
    the version notes and every other top-level key as loaded; the step
    then raises JSONDecodeError on a reply that is not JSON, fails with
    the transport message on a rejected status, and returns otherwise.
    In every case [result] is left as it was, so no field for the update
    reply is ever recorded. *)
Theorem update_property_contract
    (module : AnsibleModule) (session : world) (property_name : string)
    (property_id new_version : json) (st : state) :
  let path := "./ruletree/" +:+ property_name +:+ ".ruletree.json" in
  let notes := JStr (version_notes (params module)) in
  let out := update_property module session property_name property_id new_version st in
  let reply := api session (sent (log st)) in
  let opened := State (result st) (log st ++ [Open path]) in
  (files session path = None ->
     out = (Stop (Uncaught (FileNotFoundError path)), opened))
  /\ (files session path = Some None ->
     out = (Stop (Uncaught JSONDecodeError), opened))
  /\ (forall doc,
        files session path = Some (Some doc) ->
        (forall kv, doc <> JObj kv) ->
        out = (Stop (Uncaught TypeError), opened))
  /\ (forall kv,
        files session path = Some (Some (JObj kv)) ->
        let body := assoc_set "comments" notes kv in
        assoc "comments" body = Some notes
        /\ (forall k, k <> "comments" -> assoc k body = assoc k kv)
        /\ out.2
           = State (result st)
               (log st ++ [Open path;
                           Http (Request PUT (UrlRules property_id new_version)
                                   (Some (JObj body)))])
        /\ (text reply = None -> out.1 = Stop (Uncaught JSONDecodeError))
        /\ (text reply <> None -> status_ok (status_code reply) = false ->
            out.1 = Stop (FailJson transport_msg (result st)))
        /\ (text reply <> None -> status_ok (status_code reply) = true ->
            out.1 = Ret tt))
  /\ result out.2 = result st
  /\ result out.2 !! "api_update_response" = result st !! "api_update_response".
Proof.
  intros path notes out reply opened. subst out opened.
  change path with (ruletree_path property_name) in *.
  split; [|split; [|split; [|split; [|split]]]].
  - intros Hf. unfold update_property, load_file. run_step.
    rewrite Hf. reflexivity.
  - intros Hf. unfold update_property, load_file. run_step.
    rewrite Hf. reflexivity.
  - intros doc Hf Hd. unfold update_property, load_file. run_step.
    rewrite Hf. simpl.
    destruct doc; try reflexivity. exfalso. apply (Hd kv). reflexivity.
  - intros kv Hf body.
    assert (E : update_property module session property_name property_id new_version st
                = error_handling reply "update"
                    (State (result st)
                       (log st ++ [Open (ruletree_path property_name);
                                   Http (Request PUT (UrlRules property_id new_version)
                                           (Some (JObj body)))]))
                  \/ (text reply = None
                      /\ update_property module session property_name property_id
                           new_version st
                         = (Stop (Uncaught JSONDecodeError),
                            State (result st)
                              (log st ++ [Open (ruletree_path property_name);
                                   Http (Request PUT (UrlRules property_id new_version)
                                           (Some (JObj body)))])))).
    { unfold update_property, load_file. run_step. rewrite Hf. simpl.
      rewrite sent_open. fold reply.
      destruct (text reply) as [j|]; simpl.
      - left. rewrite <- app_assoc. reflexivity.
      - right. split; [reflexivity|]. rewrite <- app_assoc. reflexivity. }
    split; [apply assoc_set_same|].
    split; [intros k Hk; apply assoc_set_other; exact Hk|].
    split; [|split; [|split]].
    + destruct E as [-> | [_ ->]]; [apply error_handling_state|reflexivity].
    + intros Ht. unfold update_property, load_file. run_step.
      rewrite Hf. simpl. rewrite sent_open. fold reply. rewrite Ht. reflexivity.
    + intros Ht Hs. destruct E as [-> | [F _]]; [|contradiction].
      unfold error_handling. rewrite Hs. reflexivity.
    + intros Ht Hs. destruct E as [-> | [F _]]; [|contradiction].
      unfold error_handling. rewrite Hs. reflexivity.
  - apply update_property_result.
  - rewrite update_property_result. reflexivity.
Qed.

(** C9 as stated fails on a rule document that is found but is not a
    JSON object: with the file of [demo] holding a JSON list the step
    ends in an uncaught TypeError and submits nothing, although the
    document was located. *)
Lemma applier_document_not_object :
  files list_ruletree "./ruletree/demo.ruletree.json" = Some (Some (JArr []))
  /\ update_property demo_module list_ruletree "demo" (JStr "prp_1") (JStr "6")
       after_fork
     = (Stop (Uncaught TypeError),
        State (result after_fork)
          (log after_fork ++ [Open "./ruletree/demo.ruletree.json"]))
  /\ ~ applier_as_claimed demo_module list_ruletree "demo" (JStr "prp_1") (JStr "6")
         after_fork.
Proof.
  split; [reflexivity|]. split; [reflexivity|].
  intros [_ H]. destruct H as (body & Hin); [discriminate|].
  apply list_elem_of_In in Hin. vm_compute in Hin.
  destruct Hin as [F|[F|[F|[]]]]; discriminate F.
Qed.

(** ** The property locator *)

Lemma scan_item_inactive x st :
  inactive x -> scan_item x st = (Ret tt, st).
Proof.
  unfold inactive, production_active, scan_item. run_step.
  destruct (getitem x "productionStatus") as [e|s]; [discriminate|].
  intros [= ->]. reflexivity.
Qed.

Lemma scan_item_active x p v st :
  active_with x p v ->
  scan_item x st
  = (Ret tt, State (<["propertyId" := p]> (<["current_version" := v]> (result st)))
               (log st)).
Proof.
  unfold active_with, production_active, scan_item. run_step.
  destruct (getitem x "productionStatus") as [e|s]; [intros [[=] _]|].
  intros ([= ->] & -> & ->). reflexivity.
Qed.

Lemma for_each_app l1 l2 body st :
  for_each (l1 ++ l2) body st
  = match for_each l1 body st with
    | (Ret _, st') => for_each l2 body st'
    | (Stop h, st') => (Stop h, st')
    end.
Proof.
  revert st. induction l1 as [|x l1 IH]; intros st; simpl; [reflexivity|].
  unfold bind. destruct (body x st) as [[[]|h] st1]; [apply IH|reflexivity].
Qed.

Lemma for_each_inactive l st :
  Forall inactive l -> for_each l scan_item st = (Ret tt, st).
Proof.
  intros H. revert st. induction H as [|x l Hx _ IH]; intros st; simpl; [reflexivity|].
  unfold bind. rewrite (scan_item_inactive _ _ Hx). apply IH.
Qed.

(** The scan never touches the log and writes two keys only; it ends
    normally or with an uncaught exception. *)
Lemma is_Some_insert (m : dict) k k' v :
  is_Some (m !! k) -> is_Some (<[k' := v]> m !! k).
Proof.
  intros H. apply lookup_insert_is_Some.
  destruct (decide (k' = k)); [left; assumption|right; split; assumption].
Qed.

Lemma scan_item_frame x st :
  exists o r,
    scan_item x st = (o, State r (log st))
    /\ (forall k, k <> "current_version" -> k <> "propertyId" ->
        r !! k = result st !! k)
    /\ (forall k, is_Some (result st !! k) -> is_Some (r !! k))
    /\ (forall h, o = Stop h -> exists e, h = Uncaught e).
Proof.
  destruct st as [r0 l0]. unfold scan_item. run_step.
  destruct (getitem x "productionStatus") as [e|s]; simpl.
  { eexists _, _. split; [reflexivity|]. split; [reflexivity|].
    split; [auto|]. intros h [= <-]. eauto. }
  destruct (py_eq_str s "ACTIVE").
  2:{ eexists _, _. split; [reflexivity|]. split; [reflexivity|].
      split; [auto|]. intros h [=]. }
  destruct (getitem x "propertyVersion") as [e|v]; simpl.
  { eexists _, _. split; [reflexivity|]. split; [reflexivity|].
    split; [auto|]. intros h [= <-]. eauto. }
  destruct (getitem x "propertyId") as [e|p]; simpl.
  - eexists _, _. split; [reflexivity|]. split; [|split].
    + intros k H1 H2. rewrite lookup_insert_ne by congruence. reflexivity.
    + intros k Hk. apply is_Some_insert, Hk.
    + intros h [= <-]. eauto.
  - eexists _, _. split; [reflexivity|]. split; [|split].
    + intros k H1 H2. rewrite !lookup_insert_ne by congruence. reflexivity.
    + intros k Hk. apply is_Some_insert, is_Some_insert, Hk.
    + intros h [=].
Qed.

Lemma for_each_scan_frame l st :
  exists o r,
    for_each l scan_item st = (o, State r (log st))
    /\ (forall k, k <> "current_version" -> k <> "propertyId" ->
        r !! k = result st !! k)
    /\ (forall k, is_Some (result st !! k) -> is_Some (r !! k))
    /\ (forall h, o = Stop h -> exists e, h = Uncaught e).
Proof.
  revert st. induction l as [|x l IH]; intros st; simpl.
  - exists (Ret tt), (result st). split; [destruct st; reflexivity|].
    split; [reflexivity|]. split; [auto|]. intros h [=].
  - unfold bind. destruct (scan_item_frame x st) as (o & r & -> & Hr & Hk & Ho).
    destruct o as [[]|h].
    + destruct (IH (State r (log st))) as (o' & r' & E & Hr' & Hk' & Ho').
      exists o', r'. split; [exact E|]. split; [|split; [|exact Ho']].
      * intros k H1 H2. rewrite Hr' by assumption. apply Hr; assumption.
      * intros k H. apply Hk', Hk, H.
    + exists (Stop h), r. split; [reflexivity|]. repeat split; assumption.
Qed.

Lemma for_each_scannable l st :
  Forall scannable l ->
  exists r, for_each l scan_item st = (Ret tt, State r (log st)).
Proof.
  intros H. revert st. induction H as [|x l Hx _ IH]; intros st; simpl.
  - exists (result st). destruct st; reflexivity.
  - unfold bind. destruct Hx as [Hx|(p & v & Hx)].
    + rewrite (scan_item_inactive _ _ Hx). apply IH.
    + rewrite (scan_item_active _ _ _ _ Hx).
      destruct (IH (State (<["propertyId" := p]> (<["current_version" := v]> (result st)))
                      (log st))) as (r & E).
      exists r. exact E.
Qed.

(** Past the validator, [search_property] is the scan of the items. *)
Lemma search_property_scan session property_name st body items l :
  let reply := api session (sent (log st)) in
  status_ok (status_code reply) = true ->
  text reply = Some body ->
  items_of (Some body) = inr items ->
  truthy items = true ->
  py_iter items = inr l ->
  search_property session property_name st
  = for_each l scan_item
      (State (<["api_search_response" := body]> (result st))
             (log st ++ [Http (search_request property_name)])).
Proof.
  intros reply Hs Ht Hi Htr Hl. subst reply.
  unfold search_property, error_handling, items_of in *. run_step.
  rewrite Ht. simpl. rewrite Hs. simpl.
  destruct (getitem body "versions") as [e|vs]; [discriminate|]. simpl.
  rewrite Hi. simpl. rewrite Htr. simpl. rewrite Hl. simpl.
  reflexivity.
Qed.

Lemma getitem_error v k e :
  getitem v k = inl e -> e = KeyError k \/ e = TypeError.
Proof.
  destruct v; simpl; try (intros [= <-]; right; reflexivity).
  destruct (assoc k kv); [discriminate|]. intros [= <-]. left. reflexivity.
Qed.

Lemma scan_item_error x e st :
  scan_error x = Some e ->
  exists r,
    scan_item x st = (Stop (Uncaught e), State r (log st))
    /\ (getitem x "productionStatus" = inl e -> r = result st).
Proof.
  unfold scan_error, scan_item. run_step.
  destruct (getitem x "productionStatus") as [e0|s]; simpl.
  { intros [= ->]. exists (result st). split; [destruct st; reflexivity|reflexivity]. }
  destruct (py_eq_str s "ACTIVE"); [|discriminate].
  destruct (getitem x "propertyVersion") as [e0|v]; simpl.
  { intros [= ->]. exists (result st). split; [destruct st; reflexivity|discriminate]. }
  destruct (getitem x "propertyId") as [e0|p]; simpl; [|discriminate].
  intros [= ->]. eexists. split; [reflexivity|discriminate].
Qed.

Lemma scan_error_kind x e :
  scan_error x = Some e -> (exists k, e = KeyError k) \/ e = TypeError.
Proof.
  assert (G : forall k, getitem x k = inl e ->
                (exists k', e = KeyError k') \/ e = TypeError).
  { intros k H. destruct (getitem_error _ _ _ H) as [-> | ->]; [left; eauto|right; reflexivity]. }
  unfold scan_error.
  destruct (getitem x "productionStatus") as [e0|s] eqn:E0.
  { intros [= <-]. apply (G _ E0). }
  destruct (py_eq_str s "ACTIVE"); [|discriminate].
  destruct (getitem x "propertyVersion") as [e0|v] eqn:E1.
  { intros [= <-]. apply (G _ E1). }
  destruct (getitem x "propertyId") as [e0|p] eqn:E2; [|discriminate].
  intros [= <-]. apply (G _ E2).
Qed.

(** The scan up to the first item it cannot read. *)
Lemma search_property_stops session property_name st body l1 x l2 e :
  status_ok (status_code (api session (sent (log st)))) = true ->
  text (api session (sent (log st))) = Some body ->
  items_of (Some body) = inr (JArr (l1 ++ x :: l2)) ->
  Forall scannable l1 ->
  scan_error x = Some e ->
  let st0 := State (<["api_search_response" := body]> (result st))
                   (log st ++ [Http (search_request property_name)]) in
  exists r1 r,
    for_each l1 scan_item st0 = (Ret tt, State r1 (log st0))
    /\ search_property session property_name st
       = (Stop (Uncaught e), State r (log st0))
    /\ (getitem x "productionStatus" = inl e -> r = r1).
Proof.
  intros Hs Ht Hi H1 He st0.
  rewrite (search_property_scan session property_name st body
             (JArr (l1 ++ x :: l2)) (l1 ++ x :: l2) Hs Ht Hi);
    [|destruct l1; reflexivity|reflexivity].
  fold st0. rewrite for_each_app.
  destruct (for_each_scannable l1 st0 H1) as (r1 & E1). rewrite E1.
  destruct (scan_item_error x e (State r1 (log st0)) He) as (r & E & Hr).
  exists r1, r. split; [reflexivity|]. split; [|exact Hr].
  cbn [for_each]. unfold bind. rewrite E. reflexivity.
Qed.

(** C4, as the code has it.  The scan of [search_property] reads the
    items of an accepted reply in the order of the API and does not stop
    at a match.  When the list is [l1], then an item active on
    production with property id [p] and version [v], then items [l2]
    none of which is active, and every item carries a production status
    (an active one also its version and id), the step returns with
    [propertyId = p] and [current_version = v], whatever active items
    [l1] holds (the last match wins); in particular when that item is
    the only active one.  The first item that cannot be read (one
    without production status, or an active one without version or id)
    ends the scan there in the uncaught lookup exception, whatever
    follows it; when it is the production status that is missing,
    [propertyId] and [current_version] are as the items before it left
    them: those of the last active one among them, or untouched when
    there is none. *)
Theorem locate_last_active_wins
    (session : world) (property_name : string) (st : state) (body : json) :
  let reply := api session (sent (log st)) in
  let out := search_property session property_name st in
  status_ok (status_code reply) = true ->
  text reply = Some body ->
  (forall l1 a l2 p v,
     items_of (Some body) = inr (JArr (l1 ++ a :: l2)) ->
     active_with a p v ->
     Forall inactive l2 ->
     (Forall scannable l1 ->
        out.1 = Ret tt
        /\ result out.2 !! "propertyId" = Some p
        /\ result out.2 !! "current_version" = Some v)
     /\ (Forall inactive l1 ->
        out.1 = Ret tt
        /\ result out.2 !! "propertyId" = Some p
        /\ result out.2 !! "current_version" = Some v))
  /\ (forall l1 x l2 e,
     items_of (Some body) = inr (JArr (l1 ++ x :: l2)) ->
     Forall scannable l1 ->
     scan_error x = Some e ->
     out.1 = Stop (Uncaught e)
     /\ ((exists k, e = KeyError k) \/ e = TypeError))
  /\ (forall l1 x l2 e,
     items_of (Some body) = inr (JArr (l1 ++ x :: l2)) ->
     getitem x "productionStatus" = inl e ->
     (e = KeyError "productionStatus" \/ e = TypeError)
     /\ scan_error x = Some e
     /\ (Forall inactive l1 ->
         result out.2 !! "propertyId" = result st !! "propertyId"
         /\ result out.2 !! "current_version" = result st !! "current_version")
     /\ (forall l0 a l0' p v,
           l1 = l0 ++ a :: l0' ->
           Forall scannable l0 -> active_with a p v -> Forall inactive l0' ->
           result out.2 !! "propertyId" = Some p
           /\ result out.2 !! "current_version" = Some v)).
Proof.
  intros reply out Hs Ht. subst out. split; [|split].
  - intros l1 a l2 p v Hi Ha H2.
    assert (G : Forall scannable l1 ->
       (search_property session property_name st).1 = Ret tt
       /\ result (search_property session property_name st).2 !! "propertyId" = Some p
       /\ result (search_property session property_name st).2 !! "current_version"
          = Some v).
    { intros H1.
      rewrite (search_property_scan session property_name st body
                 (JArr (l1 ++ a :: l2)) (l1 ++ a :: l2) Hs Ht Hi);
        [|destruct l1; reflexivity|reflexivity].
      rewrite for_each_app.
      destruct (for_each_scannable l1
                  (State (<["api_search_response" := body]> (result st))
                         (log st ++ [Http (search_request property_name)])) H1)
        as (r & ->).
      simpl. unfold bind. rewrite (scan_item_active _ _ _ _ Ha).
      rewrite (for_each_inactive _ _ H2). simpl.
      split; [reflexivity|]. split.
      - apply lookup_insert_eq.
      - rewrite lookup_insert_ne by discriminate. apply lookup_insert_eq. }
    split; [exact G|].
    intros H1. apply G. eapply Forall_impl; [exact H1|]. intros x Hx. left. exact Hx.
  - intros l1 x l2 e Hi H1 He. split.
    + destruct (search_property_stops session property_name st body l1 x l2 e
                  Hs Ht Hi H1 He) as (r1 & r & _ & -> & _). reflexivity.
    + apply (scan_error_kind x e He).
  - intros l1 x l2 e Hi Hx.
    assert (He : scan_error x = Some e) by (unfold scan_error; rewrite Hx; reflexivity).
    split; [apply (getitem_error _ _ _ Hx)|]. split; [exact He|]. split.
    + intros H1.
      assert (H1' : Forall scannable l1)
        by (eapply Forall_impl; [exact H1|]; intros y Hy; left; exact Hy).
      destruct (search_property_stops session property_name st body l1 x l2 e
                  Hs Ht Hi H1' He) as (r1 & r & E1 & -> & Hr).
      rewrite (Hr Hx). rewrite (for_each_inactive _ _ H1) in E1.
      injection E1 as <-. cbn [snd result].
      split; rewrite lookup_insert_ne by discriminate; reflexivity.
    + intros l0 a l0' p v -> H0 Ha H0'.
      assert (H1' : Forall scannable (l0 ++ a :: l0')).
      { apply Forall_app. split; [exact H0|]. constructor.
        - right. exists p, v. exact Ha.
        - eapply Forall_impl; [exact H0'|]. intros y Hy. left. exact Hy. }
      destruct (search_property_stops session property_name st body
                  (l0 ++ a :: l0') x l2 e Hs Ht Hi H1' He) as (r1 & r & E1 & -> & Hr).
      rewrite (Hr Hx). rewrite for_each_app in E1.
      destruct (for_each_scannable l0
                  (State (<["api_search_response" := body]> (result st))
                         (log st ++ [Http (search_request property_name)])) H0)
        as (r0 & E0).
      rewrite E0 in E1. cbn [for_each] in E1. unfold bind in E1.
      rewrite (scan_item_active _ _ _ _ Ha) in E1.
      rewrite (for_each_inactive _ _ H0') in E1.
      injection E1 as <-. cbn [snd result]. split.
      * apply lookup_insert_eq.
      * rewrite lookup_insert_ne by discriminate. apply lookup_insert_eq.
Qed.

(** C4 as stated fails on a list whose only active item comes after an
    item without production status: the scan ends at that item in an
    uncaught KeyError, the active item is never read and the
    identifiers are not set. *)
Lemma locate_item_without_status :
  let out := search_property bare_first_world "demo" (State seed []) in
  out.1 = Stop (Uncaught (KeyError "productionStatus"))
  /\ result out.2 !! "propertyId" = Some (JStr "")
  /\ result out.2 !! "current_version" = Some (JStr "")
  /\ ~ locate_as_claimed bare_first_world "demo" (State seed []).
Proof.
  split; [vm_compute; reflexivity|].
  split; [vm_compute; reflexivity|].
  split; [vm_compute; reflexivity|].
  intros H.
  destruct (H (items_doc [bare_item; demo_item "ACTIVE" 5])
              [bare_item] (demo_item "ACTIVE" 5) [] (JStr "prp_1") (JNum 5)
              eq_refl eq_refl eq_refl) as (F & _).
  - repeat split.
  - constructor; [discriminate|constructor].
  - vm_compute in F. discriminate F.
Qed.

(** ** The polling loop *)

Lemma urljoin_joined session x st :
  urljoin session x st
  = match joined session x with
    | inr u => (Ret u, st)
    | inl e => (Stop (Uncaught e), st)
    end.
Proof.
  unfold urljoin, joined.
  destruct (truthy x); simpl; [|reflexivity].
  destruct x; try reflexivity. destruct (locator_ok session s); reflexivity.
Qed.

Lemma poll_again session fuel link u st :
  joined session link = inr u ->
  status_active (text (api session (sent (log st)))) = Some false ->
  poll session (S fuel) link st
  = poll session fuel link (State (result st) (log st ++ [fetch u; Sleep 10])).
Proof.
  intros Hu Hs. simpl. unfold bind at 1. rewrite urljoin_joined, Hu.
  unfold status_active in Hs. run_step.
  destruct (text (api session (sent (log st)))) as [j|]; [|discriminate]. simpl.
  destruct (first_status j) as [e|s]; [discriminate|]. simpl.
  injection Hs as ->. simpl. rewrite <- app_assoc. reflexivity.
Qed.

Lemma poll_done session fuel link u st :
  joined session link = inr u ->
  status_active (text (api session (sent (log st)))) = Some true ->
  poll session (S fuel) link st
  = (Ret tt, State (result st) (log st ++ [fetch u])).
Proof.
  intros Hu Hs. simpl. unfold bind at 1. rewrite urljoin_joined, Hu.
  unfold status_active in Hs. run_step.
  destruct (text (api session (sent (log st)))) as [j|]; [|discriminate]. simpl.
  destruct (first_status j) as [e|s]; [discriminate|]. simpl.
  injection Hs as ->. reflexivity.
Qed.

Lemma sent_polling l u k : sent (l ++ polling u k) = (sent l + k)%nat.
Proof.
  rewrite sent_app. f_equal. induction k as [|k IH]; simpl; [reflexivity|].
  rewrite IH. reflexivity.
Qed.

Lemma polling_snoc u k : polling u (S k) = polling u k ++ [fetch u; Sleep 10].
Proof.
  induction k as [|k IH]; [reflexivity|].
  simpl in *. rewrite <- IH. reflexivity.
Qed.

(** While the replies are not ACTIVE the loop keeps going: after any
    number [k] of turns it is where it started, [k] fetches later. *)
Lemma poll_turns session link u k : forall fuel st,
  joined session link = inr u ->
  (forall i, (i < k)%nat ->
     status_active (text (api session (sent (log st) + i))) = Some false) ->
  poll session (k + fuel) link st
  = poll session fuel link (State (result st) (log st ++ polling u k)).
Proof.
  induction k as [|k IH]; intros fuel st Hu Hp.
  - simpl. rewrite app_nil_r. destruct st; reflexivity.
  - replace (S k + fuel)%nat with (k + S fuel)%nat by lia.
    rewrite IH; [|exact Hu|intros i Hi; apply Hp; lia].
    rewrite (poll_again session fuel link u); [|exact Hu|].
    + cbn [result log]. rewrite polling_snoc, app_assoc. reflexivity.
    + cbn [result log]. rewrite sent_polling. apply Hp. lia.
Qed.

Lemma poll_broken session fuel link u st :
  joined session link = inr u ->
  status_active (text (api session (sent (log st)))) = None ->
  exists e, poll session (S fuel) link st
            = (Stop (Uncaught e), State (result st) (log st ++ [fetch u])).
Proof.
  intros Hu Hs. simpl. unfold bind at 1. rewrite urljoin_joined, Hu.
  unfold status_active in Hs. run_step.
  destruct (text (api session (sent (log st)))) as [j|]; simpl; [|eauto].
  destruct (first_status j) as [e|s]; [|discriminate]. simpl. eauto.
Qed.

Lemma Forall_poll_event_polling u k : Forall poll_event (polling u k).
Proof.
  induction k as [|k IH]; simpl; [constructor|].
  constructor; [exact I|]. constructor; [exact I|exact IH].
Qed.

(** Every way the loop can go: it only fetches and sleeps, leaves
    [result] alone, and returns exactly when a fetch within the fuel is
    answered ACTIVE after non-ACTIVE answers to all earlier ones. *)
Lemma poll_frame session link : forall fuel st,
  exists o tail,
    poll session fuel link st = (o, State (result st) (log st ++ tail))
    /\ Forall poll_event tail
    /\ (o = Ret tt ->
        exists k u,
          joined session link = inr u /\ (k < fuel)%nat
          /\ tail = polling u k ++ [fetch u]
          /\ status_active (text (api session (sent (log st) + k))) = Some true
          /\ forall i, (i < k)%nat ->
               status_active (text (api session (sent (log st) + i))) = Some false)
    /\ (forall h, o = Stop h -> h = Running \/ exists e, h = Uncaught e).
Proof.
  induction fuel as [|fuel IH]; intros st.
  - exists (Stop Running), []. simpl. rewrite app_nil_r.
    split; [destruct st; reflexivity|]. split; [constructor|].
    split; [discriminate|]. intros h [= <-]. left. reflexivity.
  - destruct (joined session link) as [e|u] eqn:Hu.
    1:{ exists (Stop (Uncaught e)), []. simpl. unfold bind at 1.
        rewrite urljoin_joined, Hu, app_nil_r.
        split; [destruct st; reflexivity|]. split; [constructor|].
        split; [discriminate|]. intros h [= <-]. right. eauto. }
    destruct (status_active (text (api session (sent (log st))))) as [[|]|] eqn:Hs.
    + exists (Ret tt), [fetch u].
      split; [apply poll_done; assumption|].
      split; [repeat constructor|]. split; [|discriminate].
      intros _. exists O, u. rewrite Nat.add_0_r.
      repeat split; try assumption; try lia.
    + rewrite (poll_again session fuel link u st Hu Hs).
      destruct (IH (State (result st) (log st ++ [fetch u; Sleep 10])))
        as (o & tail & E & Hf & Hr & Hh).
      cbn [result log] in *.
      exists o, ([fetch u; Sleep 10] ++ tail).
      split; [rewrite E, app_assoc; reflexivity|].
      split; [repeat constructor; exact Hf|].
      split; [|exact Hh].
      intros Ho. destruct (Hr Ho) as (k & u' & Hu' & Hk & -> & Ha & Hp).
      assert (u' = u) as -> by congruence.
      rewrite sent_app in Ha. simpl in Ha.
      exists (S k), u. split; [reflexivity|]. split; [lia|].
      split; [reflexivity|]. split.
      * rewrite <- Ha. f_equal. f_equal. f_equal. lia.
      * intros i Hi. destruct i as [|i].
        -- rewrite Nat.add_0_r. exact Hs.
        -- specialize (Hp i). rewrite sent_app in Hp. simpl in Hp.
           rewrite <- Hp by lia. f_equal. f_equal. f_equal. lia.
    + destruct (poll_broken session fuel link u st Hu Hs) as (e & E).
      exists (Stop (Uncaught e)), [fetch u].
      split; [exact E|]. split; [repeat constructor|].
      split; [discriminate|]. intros h [= <-]. right. eauto.
Qed.

(** C2. The polling loop, for a status locator [urljoin] accepts.  It
    fetches the locator and sleeps 10 seconds between one fetch and the
    next.  It returns at the first fetch whose reply has ACTIVE as the
    status of its first item, all earlier replies having some other
    status there, and it returns in no other way.  On the replies
    PENDING, PENDING, ACTIVE it makes three fetches with two sleeps in
    between and returns.  When no reply ever has ACTIVE there, whatever
    other status it has, the loop is still running after any number of
    turns. *)
Theorem polling_loop
    (session : world) (link : json) (u : url) (st : state) :
  joined session link = inr u ->
  let answer i := status_active (text (api session (sent (log st) + i))) in
  (forall k fuel,
     (forall i, (i < k)%nat -> answer i = Some false) ->
     answer k = Some true ->
     (k < fuel)%nat ->
     poll session fuel link st
     = (Ret tt, State (result st) (log st ++ polling u k ++ [fetch u])))
  /\ (forall fuel st',
     poll session fuel link st = (Ret tt, st') ->
     exists k,
       (k < fuel)%nat /\ answer k = Some true
       /\ (forall i, (i < k)%nat -> answer i = Some false)
       /\ st' = State (result st) (log st ++ polling u k ++ [fetch u]))
  /\ (forall fuel j0 j1 j2,
     text (api session (sent (log st))) = Some j0 ->
     text (api session (sent (log st) + 1)) = Some j1 ->
     text (api session (sent (log st) + 2)) = Some j2 ->
     first_status j0 = inr (JStr "PENDING") ->
     first_status j1 = inr (JStr "PENDING") ->
     first_status j2 = inr (JStr "ACTIVE") ->
     (3 <= fuel)%nat ->
     poll session fuel link st
     = (Ret tt,
        State (result st)
          (log st ++ [fetch u; Sleep 10; fetch u; Sleep 10; fetch u])))
  /\ ((forall i, answer i = Some false) ->
     forall fuel,
       poll session fuel link st
       = (Stop Running, State (result st) (log st ++ polling u fuel))).
Proof.
  intros Hu answer.
  assert (G : forall k fuel,
     (forall i, (i < k)%nat -> answer i = Some false) ->
     answer k = Some true ->
     (k < fuel)%nat ->
     poll session fuel link st
     = (Ret tt, State (result st) (log st ++ polling u k ++ [fetch u]))).
  { intros k fuel Hp Ha Hk.
    replace fuel with (k + S (fuel - S k))%nat by lia.
    rewrite (poll_turns session link u k _ st Hu Hp).
    rewrite (poll_done session _ link u); [|exact Hu|].
    - cbn [result log]. rewrite app_assoc. reflexivity.
    - cbn [result log]. rewrite sent_polling. exact Ha. }
  split; [exact G|]. split; [|split].
  - intros fuel st' E.
    destruct (poll_frame session link fuel st) as (o & tail & E' & _ & Hr & _).
    rewrite E in E'. injection E' as <- ->.
    destruct (Hr eq_refl) as (k & u' & Hu' & Hk & -> & Ha & Hp).
    assert (u' = u) as -> by congruence.
    exists k. repeat split; assumption.
  - intros fuel j0 j1 j2 H0 H1 H2 F0 F1 F2 Hf.
    apply (G 2%nat fuel); [| |lia].
    + intros i Hi. unfold answer, status_active.
      destruct i as [|[|i]]; [| |lia].
      * rewrite Nat.add_0_r, H0, F0. reflexivity.
      * rewrite H1, F1. reflexivity.
    + unfold answer, status_active. rewrite H2, F2. reflexivity.
  - intros Hp fuel.
    replace fuel with (fuel + 0)%nat at 1 by lia.
    rewrite (poll_turns session link u fuel 0%nat st Hu); [reflexivity|].
    intros i _. apply Hp.
Qed.

(** ** What each step does to the state, for the run as a whole *)

Lemma error_handling_halt r action st h :
  (error_handling r action st).1 = Stop h ->
  (exists e, h = Uncaught e)
  \/ (h = FailJson transport_msg (result st)
      /\ status_ok (status_code r) = false)
  \/ (h = FailJson not_found_msg (result st)
      /\ status_ok (status_code r) = true
      /\ exists i, items_of (text r) = inr i /\ truthy i = false).
Proof.
  unfold error_handling, items_of.
  destruct (status_ok (status_code r)) eqn:Hs; simpl.
  2:{ intros [= <-]. right. left. split; reflexivity. }
  destruct (String.eqb action "search"); [|discriminate].
  run_step.
  destruct (text r) as [j|]; simpl; [|intros [= <-]; left; eauto].
  destruct (getitem j "versions") as [e|v]; simpl; [intros [= <-]; left; eauto|].
  destruct (getitem v "items") as [e|i]; simpl; [intros [= <-]; left; eauto|].
  destruct (truthy i) eqn:Ht; simpl; [discriminate|].
  intros [= <-]. right. right. split; [reflexivity|]. split; [reflexivity|].
  exists i. split; [reflexivity|exact Ht].
Qed.

(** The validator called right after the request [rq] was logged. *)
Lemma error_handling_after session action rq r l :
  method rq <> GET ->
  let reply := api session (sent l) in
  let st := State r (l ++ [Http rq]) in
  (error_handling reply action st = (Ret tt, st)
   /\ status_ok (status_code reply) = true)
  \/ exists h, error_handling reply action st = (Stop h, st)
               /\ step_halt session h st.
Proof.
  intros Hm reply st.
  pose proof (error_handling_state reply action st) as Hst.
  destruct (error_handling reply action st) as [[[]|h] st'] eqn:E;
    simpl in Hst; subst st'.
  - left. split; [reflexivity|].
    destruct (status_ok (status_code reply)) eqn:Hs; [reflexivity|].
    unfold error_handling in E. rewrite Hs in E. discriminate.
  - right. exists h. split; [reflexivity|].
    destruct (error_handling_halt reply action st h) as [(e & ->)|[(-> & Hs)|(-> & Hs & Hi)]].
    + rewrite E. reflexivity.
    + exact I.
    + split; [reflexivity|]. exists l, rq. split; [reflexivity|].
      split; [exact Hm|]. left. split; [reflexivity|exact Hs].
    + split; [reflexivity|]. exists l, rq. split; [reflexivity|].
      split; [exact Hm|]. right. split; [reflexivity|]. split; [exact Hs|exact Hi].
Qed.

Lemma search_property_spec session property_name st :
  exists o r,
    search_property session property_name st
    = (o, State r (log st ++ [Http (search_request property_name)]))
    /\ (forall k, k <> "api_search_response" -> k <> "current_version" ->
                  k <> "propertyId" -> r !! k = result st !! k)
    /\ (forall k, is_Some (result st !! k) -> is_Some (r !! k))
    /\ (forall h, o = Stop h ->
        step_halt session h
          (State r (log st ++ [Http (search_request property_name)]))).
Proof.
  unfold search_property. fold (search_request property_name).
  unfold bind at 1. unfold send at 1. cbn [result log].
  unfold bind at 1.
  destruct (text (api session (sent (log st)))) as [body|]; simpl.
  2:{ exists (Stop (Uncaught JSONDecodeError)), (result st).
      split; [reflexivity|]. split; [reflexivity|]. split; [auto|].
      intros h [= <-]. exact I. }
  fold (search_request property_name).
  unfold bind at 1. unfold set_result at 1. cbn [result log].
  unfold bind at 1.
  assert (Hfr : forall k, k <> "api_search_response" ->
            <["api_search_response" := body]> (result st) !! k = result st !! k).
  { intros k Hk. rewrite lookup_insert_ne by congruence. reflexivity. }
  assert (Hks : forall k, is_Some (result st !! k) ->
            is_Some (<["api_search_response" := body]> (result st) !! k)).
  { intros k Hk. apply is_Some_insert, Hk. }
  destruct (error_handling_after session "search" (search_request property_name)
              (<["api_search_response" := body]> (result st)) (log st))
    as [[E Hs]|(h & E & Hh)]; [discriminate| |]; rewrite E.
  2:{ exists (Stop h), (<["api_search_response" := body]> (result st)).
      split; [reflexivity|]. split; [intros k H1 _ _; apply Hfr, H1|].
      split; [exact Hks|]. intros h' [= <-]. exact Hh. }
  unfold bind at 1.
  destruct (getitem body "versions") as [e|vs]; simpl.
  { exists (Stop (Uncaught e)), (<["api_search_response" := body]> (result st)).
    split; [reflexivity|]. split; [intros k H1 _ _; apply Hfr, H1|].
    split; [exact Hks|]. intros h' [= <-]. exact I. }
  unfold bind at 1.
  destruct (getitem vs "items") as [e|items]; simpl.
  { exists (Stop (Uncaught e)), (<["api_search_response" := body]> (result st)).
    split; [reflexivity|]. split; [intros k H1 _ _; apply Hfr, H1|].
    split; [exact Hks|]. intros h' [= <-]. exact I. }
  unfold bind at 1.
  destruct (py_iter items) as [e|l]; simpl.
  { exists (Stop (Uncaught e)), (<["api_search_response" := body]> (result st)).
    split; [reflexivity|]. split; [intros k H1 _ _; apply Hfr, H1|].
    split; [exact Hks|]. intros h' [= <-]. exact I. }
  destruct (for_each_scan_frame l
              (State (<["api_search_response" := body]> (result st))
                     (log st ++ [Http (search_request property_name)])))
    as (o & r & E' & Hr & Hk & Ho).
  exists o, r. split; [exact E'|]. split; [|split].
  - intros k H1 H2 H3. rewrite Hr by assumption. cbn [result]. apply Hfr, H1.
  - intros k H. apply Hk, Hks, H.
  - intros h' ->. destruct (Ho h' eq_refl) as (e & ->). exact I.
Qed.

Lemma create_new_property_version_spec session property_id version st :
  exists o r,
    create_new_property_version session property_id version st
    = (o, State r (log st ++ [Http (create_request property_id version)]))
    /\ (forall k, k <> "api_creation_response" -> k <> "new_version" ->
                  k <> "changed" -> r !! k = result st !! k)
    /\ (forall h, o = Stop h ->
        step_halt session h
          (State r (log st ++ [Http (create_request property_id version)]))
        /\ r !! "changed" = result st !! "changed"
        /\ r !! "new_version" = result st !! "new_version")
    /\ (o = Ret tt ->
        exists ver, forked session (api session (sent (log st))) ver r).
Proof.
  unfold create_new_property_version. fold (create_request property_id version).
  unfold bind at 1. unfold send at 1. cbn [result log].
  unfold bind at 1. unfold forked, created_version.
  destruct (text (api session (sent (log st)))) as [body|]; simpl.
  2:{ exists (Stop (Uncaught JSONDecodeError)), (result st).
      split; [reflexivity|]. split; [reflexivity|].
      split; [|discriminate]. intros h [= <-]. repeat split. }
  fold (create_request property_id version).
  unfold bind at 1. unfold set_result at 1. cbn [result log].
  unfold bind at 1.
  assert (Hfr : forall k, k <> "api_creation_response" ->
            <["api_creation_response" := body]> (result st) !! k = result st !! k).
  { intros k Hk. rewrite lookup_insert_ne by congruence. reflexivity. }
  destruct (error_handling_after session "create" (create_request property_id version)
              (<["api_creation_response" := body]> (result st)) (log st))
    as [[E Hs]|(h & E & Hh)]; [discriminate| |]; rewrite E.
  2:{ exists (Stop h), (<["api_creation_response" := body]> (result st)).
      split; [reflexivity|]. split; [intros k H1 _ _; apply Hfr, H1|].
      split; [|discriminate]. intros h' [= <-].
      split; [exact Hh|]. split; apply Hfr; discriminate. }
  unfold bind at 1.
  destruct (getitem body "versionLink") as [e|link]; simpl.
  { exists (Stop (Uncaught e)), (<["api_creation_response" := body]> (result st)).
    split; [reflexivity|]. split; [intros k H1 _ _; apply Hfr, H1|].
    split; [|discriminate]. intros h' [= <-].
    split; [exact I|]. split; apply Hfr; discriminate. }
  unfold bind at 1.
  destruct link as [| | |link| |]; simpl;
    try (exists (Stop (Uncaught TypeError)),
           (<["api_creation_response" := body]> (result st));
         split; [reflexivity|]; split; [intros k H1 _ _; apply Hfr, H1|];
         split; [|discriminate]; intros h' [= <-];
         split; [exact I|]; split; apply Hfr; discriminate).
  unfold bind at 1.
  destruct (re_findall (decimal session) version_pattern link) as [|ver rest]; simpl.
  { exists (Stop (Uncaught IndexError)), (<["api_creation_response" := body]> (result st)).
    split; [reflexivity|]. split; [intros k H1 _ _; apply Hfr, H1|].
    split; [|discriminate]. intros h' [= <-].
    split; [exact I|]. split; apply Hfr; discriminate. }
  run_step.
  eexists (Ret tt), _. split; [reflexivity|]. split.
  - intros k H1 H2 H3. rewrite !lookup_insert_ne by congruence. reflexivity.
  - split; [discriminate|]. intros _. exists ver.
    split; [exact Hs|]. split; [reflexivity|]. split.
    + rewrite lookup_insert_ne by discriminate. apply lookup_insert_eq.
    + apply lookup_insert_eq.
Qed.

Lemma update_property_spec module session property_name property_id new_version st :
  exists o tail,
    update_property module session property_name property_id new_version st
    = (o, State (result st) (log st ++ Open (ruletree_path property_name) :: tail))
    /\ (tail = []
        \/ exists b, tail = [Http (Request PUT (UrlRules property_id new_version) b)])
    /\ (o = Ret tt -> tail <> [])
    /\ (forall h, o = Stop h ->
        step_halt session h
          (State (result st) (log st ++ Open (ruletree_path property_name) :: tail))).
Proof.
  unfold update_property, load_file. 
  unfold bind at 1. unfold bind at 1. unfold emit at 1. cbn [result log].
  destruct (files session (ruletree_path property_name)) as [[doc|]|]; simpl.
  2,3: eexists (Stop (Uncaught _)), [];
       (split; [reflexivity|]); (split; [left; reflexivity|]);
       (split; [discriminate|]); intros h [= <-]; exact I.
  unfold bind at 1.
  destruct (setitem doc "comments" (JStr (version_notes (params module)))) as [e|body];
    simpl.
  { exists (Stop (Uncaught e)), []. split; [reflexivity|].
    split; [left; reflexivity|]. split; [discriminate|]. intros h [= <-]. exact I. }
  unfold bind at 1. unfold send at 1. cbn [result log].
  set (rq := Request PUT (UrlRules property_id new_version) (Some body)).
  assert (Hlog : (log st ++ [Open (ruletree_path property_name)]) ++ [Http rq]
                 = log st ++ Open (ruletree_path property_name) :: [Http rq]).
  { rewrite <- app_assoc. reflexivity. }
  unfold bind at 1.
  destruct (text (api session (sent (log st ++ [Open (ruletree_path property_name)]))))
    as [j|] eqn:Ht; simpl.
  2:{ exists (Stop (Uncaught JSONDecodeError)), [Http rq].
      split; [rewrite Hlog; reflexivity|]. split; [right; eexists; reflexivity|].
      split; [discriminate|]. intros h [= <-]. exact I. }
  destruct (error_handling_after session "update" rq (result st)
              (log st ++ [Open (ruletree_path property_name)]))
    as [[E Hs]|(h & E & Hh)]; [discriminate| |]; rewrite E.
  - exists (Ret tt), [Http rq]. split; [rewrite Hlog; reflexivity|].
    split; [right; eexists; reflexivity|]. split; [discriminate|]. discriminate.
  - exists (Stop h), [Http rq]. split; [rewrite Hlog; reflexivity|].
    split; [right; eexists; reflexivity|]. split; [discriminate|].
    intros h' [= <-]. rewrite <- Hlog. exact Hh.
Qed.

Lemma activate_property_spec module session fuel property_id network st new_version :
  result st !! "new_version" = Some new_version ->
  let rq := activation_request module property_id network new_version in
  exists o r tail,
    activate_property module session fuel property_id network st
    = (o, State r (log st ++ Http rq :: tail))
    /\ Forall poll_event tail
    /\ (forall k, k <> "api_activation_response" -> r !! k = result st !! k)
    /\ (o = Ret tt ->
        exists t0 u,
          tail = t0 ++ [fetch u]
          /\ status_active (text (api session (sent (log st ++ Http rq :: t0))))
             = Some true)
    /\ (forall h, o = Stop h ->
        h = Running \/ step_halt session h (State r (log st ++ Http rq :: tail))).
Proof.
  intros Hv rq. unfold activate_property.
  unfold bind at 1. unfold get_result at 1. rewrite Hv.
  fold (activation_request module property_id network new_version). fold rq.
  unfold bind at 1. unfold send at 1. cbn [result log].
  unfold bind at 1.
  destruct (text (api session (sent (log st)))) as [body|]; simpl.
  2:{ exists (Stop (Uncaught JSONDecodeError)), (result st), [].
      split; [reflexivity|]. split; [constructor|]. split; [reflexivity|].
      split; [discriminate|]. intros h [= <-]. right. exact I. }
  fold (activation_request module property_id network new_version). fold rq.
  unfold bind at 1. unfold set_result at 1. cbn [result log].
  unfold bind at 1.
  assert (Hfr : forall k, k <> "api_activation_response" ->
            <["api_activation_response" := body]> (result st) !! k = result st !! k).
  { intros k Hk. rewrite lookup_insert_ne by congruence. reflexivity. }
  destruct (error_handling_after session "activate" rq
              (<["api_activation_response" := body]> (result st)) (log st))
    as [[E Hs]|(h & E & Hh)]; [discriminate| |]; rewrite E.
  2:{ exists (Stop h), (<["api_activation_response" := body]> (result st)), [].
      split; [reflexivity|]. split; [constructor|]. split; [exact Hfr|].
      split; [discriminate|]. intros h' [= <-]. right. exact Hh. }
  unfold bind at 1.
  destruct (getitem body "activationLink") as [e|link]; simpl.
  { exists (Stop (Uncaught e)), (<["api_activation_response" := body]> (result st)), [].
    split; [reflexivity|]. split; [constructor|]. split; [exact Hfr|].
    split; [discriminate|]. intros h' [= <-]. right. exact I. }
  destruct (poll_frame session link fuel
              (State (<["api_activation_response" := body]> (result st))
                     (log st ++ [Http rq])))
    as (o & tail & E' & Hf & Hr & Hh).
  cbn [result log] in *.
  exists o, (<["api_activation_response" := body]> (result st)), tail.
  split; [rewrite E', <- app_assoc; reflexivity|].
  split; [exact Hf|]. split; [exact Hfr|]. split.
  - intros Ho. destruct (Hr Ho) as (k & u & _ & _ & -> & Ha & _).
    exists (polling u k), u. split; [reflexivity|].
    rewrite <- Ha. change (Http rq :: polling u k) with ([Http rq] ++ polling u k).
    rewrite app_assoc, sent_polling. reflexivity.
  - intros h ->. destruct (Hh h eq_refl) as [->|(e & ->)]; [left; reflexivity|].
    right. exact I.
Qed.

Lemma search_property_keeps session property_name st k :
  k <> "api_search_response" -> k <> "current_version" -> k <> "propertyId" ->
  result (search_property session property_name st).2 !! k = result st !! k.
Proof.
  intros H1 H2 H3.
  destruct (search_property_spec session property_name st) as (o & r & -> & Hfr & _).
  apply Hfr; assumption.
Qed.

Lemma activate_property_keeps module session fuel property_id network st k :
  k <> "api_activation_response" ->
  result (activate_property module session fuel property_id network st).2 !! k
  = result st !! k.
Proof.
  intros Hk. destruct (result st !! "new_version") as [nv|] eqn:Hv.
  - destruct (activate_property_spec module session fuel property_id network st nv Hv)
      as (o & r & tail & -> & _ & Hfr & _).
    apply Hfr, Hk.
  - unfold activate_property. unfold bind at 1. unfold get_result at 1.
    rewrite Hv. reflexivity.
Qed.

Lemma last_call_reached module st :
  (when (String.eqb (name (params module)) "fail me")
     (fail_json "You requested this to fail") ;;
   @exit_json unit) st
  = (Stop (last_call module (result st)), st).
Proof.
  unfold last_call, bind, when, fail_json, exit_json, ret.
  destruct (String.eqb (name (params module)) "fail me"); reflexivity.
Qed.

(** ** Where a run can end *)

Lemma shape_finish module session r pid cv ver b stg prd :
  discovered module session pid cv ->
  located r pid cv ->
  forked session (api session 1) ver r ->
  activation_done module session (activate_staging (params module))
    "STAGING" pid ver (applied module pid cv ver b) stg ->
  activation_done module session (activate_production (params module))
    "PRODUCTION" pid ver (applied module pid cv ver b ++ stg) prd ->
  shape_of module session
    ((when (String.eqb (name (params module)) "fail me")
        (fail_json "You requested this to fail") ;;
      exit_json)
       (State r (applied module pid cv ver b ++ stg ++ prd))).
Proof.
  intros Hd Hl Hf Hs Hp. unfold shape_of.
  pose proof (finished module session r pid cv ver b stg prd Hd Hl Hf Hs Hp) as G.
  unfold last_call in G. unfold bind, when, fail_json, exit_json, ret.
  destruct (String.eqb (name (params module)) "fail me"); exact G.
Qed.

Lemma forked_frame session reply ver (r r' : dict) :
  (forall k, k <> "api_activation_response" -> r' !! k = r !! k) ->
  forked session reply ver r -> forked session reply ver r'.
Proof.
  intros Hfr (H1 & H2 & H3 & H4). repeat split; try assumption.
  - rewrite Hfr by discriminate. exact H3.
  - rewrite Hfr by discriminate. exact H4.
Qed.

Lemma located_frame pid cv (r r' : dict) :
  (forall k, k <> "api_activation_response" -> r' !! k = r !! k) ->
  located r pid cv -> located r' pid cv.
Proof.
  intros Hfr (H1 & H2). split; rewrite Hfr by discriminate; assumption.
Qed.

Lemma shape_production module session fuel r pid cv ver b stg :
  discovered module session pid cv ->
  located r pid cv ->
  forked session (api session 1) ver r ->
  activation_done module session (activate_staging (params module))
    "STAGING" pid ver (applied module pid cv ver b) stg ->
  shape_of module session
    ((when (activate_production (params module))
        (property_id <- get_result "propertyId" ;;
         activate_property module session fuel property_id "PRODUCTION") ;;
      when (String.eqb (name (params module)) "fail me")
        (fail_json "You requested this to fail") ;;
      exit_json)
       (State r (applied module pid cv ver b ++ stg))).
Proof.
  intros Hd Hl Hf Hs.
  destruct (activate_production (params module)) eqn:Hp; unfold when at 1.
  2:{ unfold bind at 1, ret at 1.
      pose proof (shape_finish module session r pid cv ver b stg [] Hd Hl Hf Hs) as G.
      rewrite Hp, app_nil_r in G. apply G. reflexivity. }
  unfold bind at 1. unfold bind at 1. unfold get_result at 1. cbn [result].
  destruct Hl as [Hpid Hcv]. rewrite Hpid.
  destruct Hf as (Hf1 & Hf2 & Hnv & Hch).
  destruct (activate_property_spec module session fuel pid "PRODUCTION"
              (State r (applied module pid cv ver b ++ stg)) (JStr ver) Hnv)
    as (o & r' & tail & E & Hpoll & Hfr & Hret & Hhalt).
  rewrite E. cbn [log] in *.
  fold (activate_event module "PRODUCTION" pid ver) in *.
  assert (Hl' : located r' pid cv) by (apply (located_frame pid cv r); [exact Hfr|split; assumption]).
  assert (Hf' : forked session (api session 1) ver r')
    by (apply (forked_frame _ _ _ r); [exact Hfr|repeat split; assumption]).
  destruct o as [[]|h].
  - pose proof (shape_finish module session r' pid cv ver b stg
                  (activate_event module "PRODUCTION" pid ver :: tail) Hd Hl' Hf' Hs) as G.
    rewrite Hp in G. rewrite <- app_assoc. apply G. unfold activation_done.
    exists tail. split; [reflexivity|]. split; [exact Hpoll|].
    destruct (Hret eq_refl) as (t0 & u & -> & Ha).
    exists t0, u. split; [reflexivity|].
    rewrite <- Ha. do 3 f_equal; norm_list; reflexivity.
  - unfold shape_of. cbn [fst snd]. rewrite <- app_assoc.
    apply halt_production; try assumption.
    destruct (Hhalt h eq_refl) as [->|Hh]; [left; reflexivity|right].
    rewrite <- app_assoc in Hh. exact Hh.
Qed.

Lemma shape_staging module session fuel r pid cv ver b :
  discovered module session pid cv ->
  located r pid cv ->
  forked session (api session 1) ver r ->
  shape_of module session
    ((when (activate_staging (params module))
        (property_id <- get_result "propertyId" ;;
         activate_property module session fuel property_id "STAGING") ;;
      when (activate_production (params module))
        (property_id <- get_result "propertyId" ;;
         activate_property module session fuel property_id "PRODUCTION") ;;
      when (String.eqb (name (params module)) "fail me")
        (fail_json "You requested this to fail") ;;
      exit_json)
       (State r (applied module pid cv ver b))).
Proof.
  intros Hd Hl Hf.
  destruct (activate_staging (params module)) eqn:Hs; unfold when at 1.
  2:{ unfold bind at 1, ret at 1.
      pose proof (shape_production module session fuel r pid cv ver b [] Hd Hl Hf) as G.
      rewrite Hs, app_nil_r in G. apply G. reflexivity. }
  unfold bind at 1. unfold bind at 1. unfold get_result at 1. cbn [result].
  destruct Hl as [Hpid Hcv]. rewrite Hpid.
  destruct Hf as (Hf1 & Hf2 & Hnv & Hch).
  destruct (activate_property_spec module session fuel pid "STAGING"
              (State r (applied module pid cv ver b)) (JStr ver) Hnv)
    as (o & r' & tail & E & Hpoll & Hfr & Hret & Hhalt).
  rewrite E. cbn [log] in *.
  fold (activate_event module "STAGING" pid ver) in *.
  assert (Hl' : located r' pid cv)
    by (apply (located_frame pid cv r); [exact Hfr|split; assumption]).
  assert (Hf' : forked session (api session 1) ver r')
    by (apply (forked_frame _ _ _ r); [exact Hfr|repeat split; assumption]).
  destruct o as [[]|h].
  - pose proof (shape_production module session fuel r' pid cv ver b
                  (activate_event module "STAGING" pid ver :: tail) Hd Hl' Hf') as G.
    rewrite Hs in G. apply G. unfold activation_done.
    exists tail. split; [reflexivity|]. split; [exact Hpoll|].
    destruct (Hret eq_refl) as (t0 & u & -> & Ha).
    exists t0, u. split; [reflexivity|].
    rewrite <- Ha. do 3 f_equal; norm_list; reflexivity.
  - unfold shape_of. cbn [fst snd].
    apply halt_staging; try assumption.
    destruct (Hhalt h eq_refl) as [->|Hh]; [left; reflexivity|right; exact Hh].
Qed.

(** Every run that is not in check mode ends in one of the six ways of
    [run_shape]. *)
Lemma run_has_shape module session fuel :
  check_mode module = false ->
  shape_of module session (run module session fuel).
Proof.
  intros Hc. unfold run, run_module.
  unfold bind at 1. cbn [boot log result].
  unfold bind at 1. rewrite Hc. unfold when at 1, ret at 1.
  unfold bind at 1.
  pose proof (search_property_spec session (name (params module)) (State seed []))
    as (o1 & r1 & E1 & Hfr1 & Hk1 & Hh1).
  cbn [result log app] in *. fold (locate_event module) in *.
  assert (Hd0 : search_property session (name (params module)) (State seed [])
                = (o1, State r1 [locate_event module])) by exact E1.
  rewrite E1.
  assert (Hch1 : r1 !! "changed" = Some (JBool false)).
  { rewrite Hfr1 by discriminate. reflexivity. }
  destruct o1 as [[]|h1].
  2:{ unfold shape_of. cbn [fst snd]. apply halt_locate.
      - rewrite Hd0. reflexivity.
      - apply Hh1. reflexivity.
      - exact Hch1. }
  destruct (Hk1 "propertyId") as [pid Hpid]; [eexists; reflexivity|].
  destruct (Hk1 "current_version") as [cv Hcv]; [eexists; reflexivity|].
  assert (Hd : discovered module session pid cv).
  { unfold discovered. rewrite Hd0. repeat split; assumption. }
  unfold bind at 1. unfold get_result at 1. cbn [result]. rewrite Hpid.
  unfold bind at 1. unfold get_result at 1. cbn [result]. rewrite Hcv.
  unfold bind at 1.
  pose proof (create_new_property_version_spec session pid cv
                (State r1 [locate_event module]))
    as (o2 & r2 & E2 & Hfr2 & Hh2 & Hf2).
  cbn [result log app sent locate_event] in *. fold (locate_event module) in *.
  fold (fork_event pid cv) in *.
  rewrite E2.
  assert (Hl2 : located r2 pid cv).
  { split; rewrite Hfr2 by discriminate; assumption. }
  destruct o2 as [[]|h2].
  2:{ unfold shape_of. cbn [fst snd].
      destruct (Hh2 h2 eq_refl) as (Hs & Hch & _).
      apply halt_fork; try assumption. rewrite Hch. exact Hch1. }
  destruct (Hf2 eq_refl) as (ver & Hf).
  unfold bind at 1. unfold get_result at 1. cbn [result].
  destruct Hl2 as [Hpid2 Hcv2]. rewrite Hpid2.
  unfold bind at 1. unfold get_result at 1. cbn [result].
  destruct Hf as (Hf1 & Hf2' & Hnv & Hch). rewrite Hnv.
  unfold bind at 1.
  pose proof (update_property_spec module session (name (params module)) pid (JStr ver)
                (State r2 [locate_event module; fork_event pid cv]))
    as (o3 & tail & E3 & Ht & Hret & Hh3).
  cbn [result log app] in *. fold (open_event module) in *.
  rewrite E3.
  destruct o3 as [[]|h3].
  2:{ unfold shape_of. cbn [fst snd].
      apply (halt_apply module session h3 r2 pid cv ver tail); try assumption.
      - split; assumption.
      - repeat split; assumption.
      - apply Hh3. reflexivity. }
  destruct Ht as [->|(b & ->)]; [exfalso; apply Hret; reflexivity|].
  apply (shape_staging module session fuel r2 pid cv ver b); try assumption.
  - split; assumption.
  - repeat split; assumption.
Qed.

(** ** The version pattern *)

(** *** Characters *)

Lemma chars_nonempty b s : chars (String b s) <> [].
Proof.
  simpl. destruct (negb (ascii_byte b) && continues s); [destruct (chars s)|];
    discriminate.
Qed.

Lemma chars_step b s :
  chars (String b s)
  = if negb (ascii_byte b) && continues s then
      match chars s with
      | c :: cs => String b c :: cs
      | [] => [String b EmptyString]
      end
    else String b EmptyString :: chars s.
Proof. reflexivity. Qed.

Lemma chars_head b s : exists t cs, chars (String b s) = String b t :: cs.
Proof.
  simpl. destruct (negb (ascii_byte b) && continues s);
    [destruct (chars s) as [|c cs]|]; eauto.
Qed.

Lemma chars_ascii b s :
  ascii_byte b = true -> chars (String b s) = String b EmptyString :: chars s.
Proof. intros H. simpl. rewrite H. reflexivity. Qed.

Lemma chars_app s t :
  continues t = false -> chars (s +:+ t) = chars s ++ chars t.
Proof.
  intros Ht. induction s as [|b s IH]; [reflexivity|].
  change (String b s +:+ t) with (String b (s +:+ t)).
  cbn [chars]. rewrite IH.
  destruct s as [|b' s'].
  - change (continues (EmptyString +:+ t)) with (continues t).
    change (continues EmptyString) with false.
    rewrite Ht, andb_false_r. reflexivity.
  - change (continues (String b' s' +:+ t)) with (continuation b').
    change (continues (String b' s')) with (continuation b').
    destruct (negb (ascii_byte b) && continuation b'); [|reflexivity].
    destruct (chars (String b' s')) as [|c cs] eqn:E;
      [exfalso; eapply chars_nonempty; exact E|]. reflexivity.
Qed.

Lemma glue_chars s : glue (chars s) = s.
Proof.
  induction s as [|b s IH]; [reflexivity|]. cbn [chars].
  destruct (negb (ascii_byte b) && continues s) eqn:Hm.
  - destruct (chars s) as [|c cs] eqn:E.
    + destruct s as [|b' s']; [reflexivity|].
      exfalso. eapply chars_nonempty. exact E.
    + cbn [glue] in *. change (String b c +:+ glue cs) with (String b (c +:+ glue cs)).
      rewrite IH. reflexivity.
  - cbn [glue]. rewrite IH. reflexivity.
Qed.

Lemma chars_empty s : chars s = [] -> s = EmptyString.
Proof.
  destruct s as [|b s]; [reflexivity|]. intros E.
  exfalso. eapply chars_nonempty. exact E.
Qed.

(** What [chars] gives are characters: cut again, each stays whole. *)
Lemma chars_whole s : Forall (fun c => chars c = [c]) (chars s).
Proof.
  induction s as [|b s IH]; [constructor|]. cbn [chars].
  destruct (negb (ascii_byte b) && continues s) eqn:Hm.
  - apply andb_true_iff in Hm as [Hb Hs].
    destruct s as [|b' s']; [discriminate Hs|].
    destruct (chars_head b' s') as (t & cs & E). rewrite E in *.
    apply Forall_cons in IH as [Hc IH]. constructor; [|exact IH].
    rewrite chars_step. cbn [continues]. simpl in Hs. rewrite Hb, Hs.
    cbn [andb]. rewrite Hc. reflexivity.
  - constructor; [|exact IH]. rewrite chars_step.
    change (continues EmptyString) with false. rewrite andb_false_r. reflexivity.
Qed.

Lemma chars_glue D :
  Forall (fun c => chars c = [c]) D ->
  Forall (fun c => continues c = false) D ->
  chars (glue D) = D.
Proof.
  induction D as [|d D IH]; [reflexivity|].
  intros Hw Hc. apply Forall_cons in Hw as [Hd Hw]. apply Forall_cons in Hc as [Hcd Hc].
  cbn [glue]. rewrite chars_app, Hd, (IH Hw Hc); [reflexivity|].
  destruct D as [|d' D']; [reflexivity|].
  apply Forall_cons in Hc as [Hd' _]. apply Forall_cons in Hw as [Hw' _].
  cbn [glue]. destruct d' as [|b t]; [discriminate Hw'|exact Hd'].
Qed.

(** *** Digits *)

Lemma is_digit_not dec c :
  is_digit dec c = true ->
  continues c = false
  /\ accepts dec AnyChar c = true
  /\ accepts dec (Lit "/") c = false
  /\ accepts dec (Lit "?") c = false.
Proof.
  destruct c as [|b [|b' t]]; [discriminate| |].
  - destruct b as [[] [] [] [] [] [] [] []]; intros H; try discriminate H;
      repeat split.
  - simpl. intros H. apply andb_true_iff in H as [H _].
    apply negb_true_iff in H. repeat split; try exact H.
    + destruct (Ascii.eqb b "010"); reflexivity.
    + destruct (Ascii.eqb b "/"); reflexivity.
    + destruct (Ascii.eqb b "?"); reflexivity.
Qed.

Lemma digits_whole dec D :
  forallb (is_digit dec) D = true -> Forall (fun c => continues c = false) D.
Proof.
  intros H. apply Forall_forall. intros c Hc.
  rewrite forallb_forall in H. apply (is_digit_not dec c).
  apply H, list_elem_of_In, Hc.
Qed.

(** *** The matcher on the version pattern *)

Section Pattern.

Variable dec : string -> bool.

Lemma version_pattern_eq : version_pattern = Atom AnyChar Plus false :: tail_slash.
Proof. reflexivity. Qed.

Lemma re_match_step c s a pat :
  re_match dec (c :: s) (a :: pat)
  = if accepts dec (cls a) c then
      match rep a with
      | One => keep a c <$> re_match dec s pat
      | Plus =>
          match re_match dec s (a :: pat) with
          | Some r => Some (keep a c r)
          | None => keep a c <$> re_match dec s pat
          end
      end
    else None.
Proof. reflexivity. Qed.

Lemma accepts_lit a c : accepts dec (Lit a) c = true -> c = String a EmptyString.
Proof. simpl. intros H. apply String.eqb_eq, H. Qed.

(** [.+] at the end of the pattern: it takes what it can, and group 1
    gets nothing of it. *)
Lemma match_any_sound s g r :
  re_match dec s tail_any = Some (g, r) ->
  g = EmptyString /\ exists y v, s = y :: v /\ accepts dec AnyChar y = true.
Proof.
  revert g r. induction s as [|c s IH]; intros g r; [discriminate|].
  unfold tail_any in *. rewrite re_match_step. cbn [cls rep].
  destruct (accepts dec AnyChar c) eqn:Hc; [|discriminate].
  destruct (re_match dec s [Atom AnyChar Plus false]) as [[g' r']|] eqn:E.
  - intros [= <- <-]. destruct (IH g' r' eq_refl) as [-> _]. split; [reflexivity|eauto].
  - destruct s; simpl; intros [= <- <-]; (split; [reflexivity|eauto]).
Qed.

Lemma match_any_some y v :
  accepts dec AnyChar y = true ->
  exists r, re_match dec (y :: v) tail_any = Some (EmptyString, r).
Proof.
  intros Hy. unfold tail_any. rewrite re_match_step. cbn [cls rep]. rewrite Hy.
  destruct (re_match dec v [Atom AnyChar Plus false]) as [[g r]|] eqn:E.
  - destruct (match_any_sound v g r E) as [-> _]. eexists. reflexivity.
  - destruct v; simpl; eexists; reflexivity.
Qed.

Lemma match_any_all B :
  B <> [] -> forallb (accepts dec AnyChar) B = true ->
  re_match dec B tail_any = Some (EmptyString, []).
Proof.
  induction B as [|c B IH]; [congruence|]. intros _ HB.
  cbn [forallb] in HB. apply andb_true_iff in HB as [Hc HB].
  unfold tail_any in *. rewrite re_match_step. cbn [cls rep]. rewrite Hc.
  destruct B as [|c' B'].
  - reflexivity.
  - rewrite IH; [reflexivity|discriminate|exact HB].
Qed.

(** [\?.+] *)
Lemma match_query_sound s g r :
  re_match dec s tail_query = Some (g, r) ->
  g = EmptyString /\ exists y v, s = "?" :: y :: v /\ accepts dec AnyChar y = true.
Proof.
  destruct s as [|c s]; [discriminate|].
  unfold tail_query. rewrite re_match_step. cbn [cls rep].
  destruct (accepts dec (Lit "?") c) eqn:Hc; [|discriminate].
  apply accepts_lit in Hc as ->.
  destruct (re_match dec s tail_any) as [[g' r']|] eqn:E; [|discriminate].
  intros [= <- <-]. destruct (match_any_sound s g' r' E) as (-> & y & v & -> & Hy).
  split; [reflexivity|]. eauto.
Qed.

Lemma match_query_then w r :
  re_match dec w tail_any = Some (EmptyString, r) ->
  re_match dec ("?" :: w) tail_query = Some (EmptyString, r).
Proof.
  intros H. unfold tail_query. rewrite re_match_step. cbn [cls rep accepts].
  rewrite String.eqb_refl, H. reflexivity.
Qed.

(** [(\d+)\?.+] *)
Lemma match_digits_sound s g r :
  re_match dec s tail_digits = Some (g, r) ->
  exists D y v,
    s = D ++ "?" :: y :: v /\ D <> [] /\ forallb (is_digit dec) D = true
    /\ accepts dec AnyChar y = true /\ g = glue D.
Proof.
  revert g r. induction s as [|c s IH]; intros g r; [discriminate|].
  unfold tail_digits in *. rewrite re_match_step. cbn [cls rep accepts].
  destruct (is_digit dec c) eqn:Hc; [|discriminate].
  destruct (re_match dec s (Atom Digit Plus true :: tail_query)) as [[g' r']|] eqn:E.
  - intros [= <- <-].
    destruct (IH g' r' eq_refl) as (D & y & v & -> & HD & Hd & Hy & ->).
    exists (c :: D), y, v. repeat split; try assumption; try discriminate.
    cbn [forallb]. rewrite Hc, Hd. reflexivity.
  - destruct (re_match dec s tail_query) as [[g' r']|] eqn:E'; [|discriminate].
    intros [= <- <-].
    destruct (match_query_sound s g' r' E') as (-> & y & v & -> & Hy).
    exists [c], y, v. repeat split; try assumption; try discriminate.
    cbn [forallb]. rewrite Hc. reflexivity.
Qed.

Lemma match_digits_then D w r :
  D <> [] -> forallb (is_digit dec) D = true ->
  re_match dec ("?" :: w) tail_query = Some (EmptyString, r) ->
  re_match dec (D ++ "?" :: w) tail_digits = Some (glue D, r).
Proof.
  intros HD Hd Hq. induction D as [|d D IH]; [congruence|].
  cbn [forallb] in Hd. apply andb_true_iff in Hd as [Hc Hd].
  change ((d :: D) ++ "?" :: w) with (d :: D ++ "?" :: w).
  unfold tail_digits at 1. rewrite re_match_step. cbn [cls rep accepts]. rewrite Hc.
  fold tail_digits.
  destruct D as [|d' D'].
  - change ([] ++ "?" :: w) with ("?" :: w).
    assert (E : re_match dec ("?" :: w) tail_digits = None) by reflexivity.
    rewrite E, Hq. reflexivity.
  - rewrite IH; [reflexivity|discriminate|exact Hd].
Qed.

(** [\/(\d+)\?.+] *)
Lemma match_slash_sound s g r :
  re_match dec s tail_slash = Some (g, r) ->
  exists D y v,
    s = "/" :: D ++ "?" :: y :: v /\ D <> [] /\ forallb (is_digit dec) D = true
    /\ accepts dec AnyChar y = true /\ g = glue D.
Proof.
  destruct s as [|c s]; [discriminate|].
  unfold tail_slash. rewrite re_match_step. cbn [cls rep].
  destruct (accepts dec (Lit "/") c) eqn:Hc; [|discriminate].
  apply accepts_lit in Hc as ->. fold tail_digits.
  destruct (re_match dec s tail_digits) as [[g' r']|] eqn:E; [|discriminate].
  intros [= <- <-].
  destruct (match_digits_sound s g' r' E) as (D & y & v & -> & HD & Hd & Hy & ->).
  exists D, y, v. repeat split; assumption.
Qed.

Lemma match_slash_then D w r :
  D <> [] -> forallb (is_digit dec) D = true ->
  re_match dec w tail_any = Some (EmptyString, r) ->
  re_match dec ("/" :: D ++ "?" :: w) tail_slash = Some (glue D, r).
Proof.
  intros HD Hd Hw. unfold tail_slash. rewrite re_match_step. cbn [cls rep accepts].
  rewrite String.eqb_refl. fold tail_digits.
  rewrite (match_digits_then D w r HD Hd (match_query_then w r Hw)). reflexivity.
Qed.

(** The whole pattern: what it matches begins with some characters of
    one line, then a slash, digits, a question mark and one more
    character of that line; group 1 is the digits. *)
Lemma match_pattern_sound s g r :
  re_match dec s version_pattern = Some (g, r) ->
  exists A D y v,
    s = A ++ "/" :: D ++ "?" :: y :: v
    /\ A <> [] /\ forallb (accepts dec AnyChar) A = true
    /\ D <> [] /\ forallb (is_digit dec) D = true
    /\ accepts dec AnyChar y = true /\ g = glue D.
Proof.
  rewrite version_pattern_eq.
  revert g r. induction s as [|c s IH]; intros g r; [discriminate|].
  rewrite re_match_step. cbn [cls rep].
  destruct (accepts dec AnyChar c) eqn:Hc; [|discriminate].
  destruct (re_match dec s (Atom AnyChar Plus false :: tail_slash)) as [[g' r']|] eqn:E.
  - intros [= <- <-].
    destruct (IH g' r' eq_refl) as (A & D & y & v & -> & HA & Ha & HD & Hd & Hy & ->).
    exists (c :: A), D, y, v. repeat split; try assumption; try discriminate.
    cbn [forallb]. rewrite Hc, Ha. reflexivity.
  - destruct (re_match dec s tail_slash) as [[g' r']|] eqn:E'; [|discriminate].
    intros [= <- <-].
    destruct (match_slash_sound s g' r' E') as (D & y & v & -> & HD & Hd & Hy & ->).
    exists [c], D, y, v. repeat split; try assumption; try discriminate.
    cbn [forallb]. rewrite Hc. reflexivity.
Qed.

Lemma match_pattern_segment s g r :
  re_match dec s version_pattern = Some (g, r) ->
  exists u x ds y v,
    s = u ++ segment x ds y ++ v /\ segment_ok dec x ds y /\ g = glue ds.
Proof.
  intros H.
  destruct (match_pattern_sound s g r H) as (A & D & y & v & -> & HA & Ha & HD & Hd & Hy & ->).
  destruct A as [|a A] using rev_ind; [congruence|]. clear IHA.
  rewrite forallb_app in Ha. apply andb_true_iff in Ha as [_ Hx].
  cbn [forallb] in Hx. rewrite andb_true_r in Hx.
  exists A, a, D, y, v. split; [|split; [repeat split; assumption|reflexivity]].
  unfold segment. rewrite <- !app_assoc. simpl. rewrite <- app_assoc. reflexivity.
Qed.

Lemma has_version_cons c s : has_version dec s -> has_version dec (c :: s).
Proof.
  intros (u & x & ds & y & v & -> & H). exists (c :: u), x, ds, y, v.
  split; [reflexivity|exact H].
Qed.

(** Where no version segment is, the pattern matches nothing. *)
Lemma no_version_no_match s :
  ~ has_version dec s -> re_match dec s version_pattern = None.
Proof.
  rewrite version_pattern_eq.
  induction s as [|c s IH]; intros Hn; [reflexivity|].
  rewrite re_match_step. cbn [cls rep].
  destruct (accepts dec AnyChar c) eqn:Hc; [|reflexivity].
  rewrite IH by (intros H; apply Hn, has_version_cons, H).
  destruct (re_match dec s tail_slash) as [[g r]|] eqn:E; [|reflexivity].
  exfalso. apply Hn.
  destruct (match_slash_sound s g r E) as (D & y & v & -> & HD & Hd & Hy & _).
  exists [], c, D, y, v. split; [|repeat split; assumption].
  unfold segment. simpl. rewrite <- app_assoc. reflexivity.
Qed.

(** At a version segment the pattern matches. *)
Lemma match_at_segment x ds y v :
  segment_ok dec x ds y ->
  exists g r, re_match dec (segment x ds y ++ v) version_pattern = Some (g, r).
Proof.
  intros (Hx & HD & Hd & Hy). rewrite version_pattern_eq.
  unfold segment. change ((x :: "/" :: ds ++ ["?"; y]) ++ v)
    with (x :: ("/" :: ds ++ ["?"; y]) ++ v).
  rewrite re_match_step. cbn [cls rep]. rewrite Hx.
  destruct (re_match dec (("/" :: ds ++ ["?"; y]) ++ v)
              (Atom AnyChar Plus false :: tail_slash)) as [[g r]|]; [eauto|].
  destruct (match_any_some y v Hy) as (r & E).
  replace (("/" :: ds ++ ["?"; y]) ++ v) with ("/" :: ds ++ "?" :: y :: v)
    by (simpl; rewrite <- app_assoc; reflexivity).
  rewrite (match_slash_then ds (y :: v) r HD Hd E). simpl. eauto.
Qed.

Lemma findall_from_nil fuel : re_findall_from dec fuel version_pattern [] = [].
Proof. destruct fuel; reflexivity. Qed.

Lemma findall_from_some fuel s :
  has_version dec s -> (length s < fuel)%nat ->
  re_findall_from dec fuel version_pattern s <> [].
Proof.
  intros (u & x & ds & y & v & -> & H). revert fuel.
  induction u as [|c u IH]; intros fuel Hf;
    (destruct fuel as [|fuel]; [lia|]); cbn [re_findall_from].
  - destruct (match_at_segment x ds y v H) as (g & r & E).
    change ([] ++ segment x ds y ++ v) with (segment x ds y ++ v).
    rewrite E. discriminate.
  - change ((c :: u) ++ segment x ds y ++ v)
      with (c :: (u ++ segment x ds y ++ v)) in *.
    destruct (re_match dec (c :: (u ++ segment x ds y ++ v)) version_pattern)
      as [[g r]|]; [discriminate|].
    apply IH. cbn [length] in Hf. lia.
Qed.

Lemma findall_from_none fuel s :
  ~ has_version dec s -> re_findall_from dec fuel version_pattern s = [].
Proof.
  revert s. induction fuel as [|fuel IH]; intros s Hn; [reflexivity|].
  cbn [re_findall_from]. rewrite (no_version_no_match s Hn).
  destruct s as [|c s]; [reflexivity|].
  apply IH. intros H. apply Hn, has_version_cons, H.
Qed.

(** Each element [re.findall] returns is the digits of a version
    segment of the subject. *)
Lemma findall_from_sound fuel : forall s,
  Forall (fun g => exists u x ds y v,
            s = u ++ segment x ds y ++ v /\ segment_ok dec x ds y /\ g = glue ds)
         (re_findall_from dec fuel version_pattern s).
Proof.
  induction fuel as [|fuel IH]; intros s; [constructor|].
  cbn [re_findall_from].
  destruct (re_match dec s version_pattern) as [[g r]|] eqn:E.
  - constructor; [apply (match_pattern_segment s g r E)|].
    destruct (match_pattern_sound s g r E) as (A & D & y & v & Hs & _).
    assert (Hr : exists p, s = p ++ r).
    { clear - E. revert g r E. rewrite version_pattern_eq. generalize (Atom AnyChar Plus false :: tail_slash).
      intros pat. revert pat. induction s as [|c s IHs]; intros pat g r.
      - destruct pat; [intros [= <- <-]; exists []; reflexivity|discriminate].
      - destruct pat as [|a pat]; [intros [= <- <-]; exists []; reflexivity|].
        rewrite re_match_step. destruct (accepts dec (cls a) c); [|discriminate].
        destruct (rep a).
        + destruct (re_match dec s pat) as [[g' r']|] eqn:E'; [|discriminate].
          intros [= <- <-]. destruct (IHs pat g' r' E') as (p & ->).
          exists (c :: p). reflexivity.
        + destruct (re_match dec s (a :: pat)) as [[g' r']|] eqn:E'.
          * intros [= <- <-]. destruct (IHs (a :: pat) g' r' E') as (p & ->).
            exists (c :: p). reflexivity.
          * destruct (re_match dec s pat) as [[g' r']|] eqn:E''; [|discriminate].
            intros [= <- <-]. destruct (IHs pat g' r' E'') as (p & ->).
            exists (c :: p). reflexivity. }
    destruct Hr as (p & Hp).
    eapply Forall_impl; [apply (IH r)|].
    intros g0 (u & x & ds & y0 & v0 & Hr & Hok & Hg).
    exists (p ++ u), x, ds, y0, v0. split; [|split; assumption].
    rewrite Hp, Hr, <- app_assoc. reflexivity.
  - destruct s as [|c s]; [constructor|].
    eapply Forall_impl; [apply (IH s)|].
    intros g0 (u & x & ds & y0 & v0 & Hr & Hok & Hg).
    exists (c :: u), x, ds, y0, v0. split; [|split; assumption].
    rewrite Hr. reflexivity.
Qed.

(** In a segment only the slash is a slash: what follows a segment's
    slash up to its question mark holds no segment of its own. *)
Lemma has_version_skip c s :
  has_version dec (c :: s) ->
  (forall s', s = "/" :: s' -> False) ->
  has_version dec s.
Proof.
  intros (u & x & ds & y & v & E & H) Hs.
  destruct u as [|c' u].
  - exfalso. unfold segment in E. simpl in E. injection E as _ E.
    apply (Hs _ E).
  - simpl in E. injection E as _ ->. exists u, x, ds, y, v. split; [reflexivity|exact H].
Qed.

Lemma has_version_digits D w :
  forallb (is_digit dec) D = true ->
  has_version dec (D ++ "?" :: w) -> has_version dec ("?" :: w).
Proof.
  induction D as [|d D IH]; [intros _ H; exact H|].
  intros Hd H. cbn [forallb] in Hd. apply andb_true_iff in Hd as [Hc Hd].
  apply (IH Hd). apply (has_version_skip d); [exact H|].
  intros s' E. destruct D as [|d' D']; simpl in E.
  - discriminate E.
  - injection E as -> _. cbn [forallb] in Hd. apply andb_true_iff in Hd as [Hd' _].
    destruct (is_digit_not dec "/" Hd') as (_ & _ & F & _). discriminate F.
Qed.

(** On one line the leading [.+] goes back to the last version segment. *)
Lemma match_last_segment A D B :
  A <> [] -> forallb (accepts dec AnyChar) A = true ->
  D <> [] -> forallb (is_digit dec) D = true ->
  B <> [] -> forallb (accepts dec AnyChar) B = true ->
  ~ has_version dec ("?" :: B) ->
  re_match dec (A ++ "/" :: D ++ "?" :: B) version_pattern = Some (glue D, []).
Proof.
  intros HA Ha HD Hd HB Hb Hn.
  set (w := "/" :: D ++ "?" :: B).
  assert (H2 : re_match dec w tail_slash = Some (glue D, [])).
  { apply match_slash_then; [exact HD|exact Hd|apply match_any_all; assumption]. }
  assert (H1 : re_match dec w version_pattern = None).
  { apply no_version_no_match. intros H. apply Hn.
    apply (has_version_digits D B Hd). apply (has_version_skip "/"); [exact H|].
    intros s' E. destruct D as [|d D']; [congruence|]. simpl in E.
    injection E as -> _. cbn [forallb] in Hd. apply andb_true_iff in Hd as [Hd' _].
    destruct (is_digit_not dec "/" Hd') as (_ & _ & F & _). discriminate F. }
  clearbody w. induction A as [|a A IH]; [congruence|].
  cbn [forallb] in Ha. apply andb_true_iff in Ha as [Hc Ha].
  change ((a :: A) ++ w) with (a :: A ++ w).
  rewrite version_pattern_eq in *. rewrite re_match_step. cbn [cls rep]. rewrite Hc.
  destruct A as [|a' A'].
  - change ([] ++ w) with w. rewrite H1, H2. reflexivity.
  - rewrite IH; [reflexivity|discriminate|exact Ha].
Qed.

End Pattern.

(** *** [re.findall] on a locator *)

Lemma has_version_no_slash dec q :
  no_slash q = true -> ~ has_version dec ("?" :: chars q).
Proof.
  intros Hq (u & x & ds & y & v & E & _).
  assert (Hin : "/" ∈ "?" :: chars q).
  { rewrite E. unfold segment. apply elem_of_app. right.
    apply list_elem_of_further, list_elem_of_here. }
  apply elem_of_cons in Hin as [Hin|Hin]; [discriminate Hin|].
  unfold no_slash in Hq. rewrite forallb_forall in Hq.
  specialize (Hq "/" (proj1 (list_elem_of_In _ _) Hin)). discriminate Hq.
Qed.

Lemma chars_locator pre ds q :
  chars (pre +:+ "/" +:+ ds +:+ "?" +:+ q)
  = chars pre ++ "/" :: chars ds ++ "?" :: chars q.
Proof.
  rewrite chars_app by reflexivity.
  change ("/" +:+ ds +:+ "?" +:+ q) with (String "/" (ds +:+ String "?" q)).
  rewrite chars_ascii by reflexivity.
  rewrite chars_app by reflexivity.
  rewrite (chars_ascii "?") by reflexivity. reflexivity.
Qed.

(** The locator [<prefix>/<digits>?<rest>] on one line, with no version
    segment after the digits. *)
Lemma findall_locator dec pre ds q :
  pre <> EmptyString -> one_line pre = true ->
  ds <> EmptyString -> digits dec ds = true ->
  q <> EmptyString -> one_line q = true ->
  ~ has_version dec (chars ("?" +:+ q)) ->
  re_findall dec version_pattern (pre +:+ "/" +:+ ds +:+ "?" +:+ q) = [ds].
Proof.
  intros Hp Hpl Hd Hdd Hq Hql Hn. unfold re_findall.
  rewrite chars_locator. cbn [re_findall_from].
  change (chars ("?" +:+ q)) with (chars (String "?" q)) in Hn.
  rewrite chars_ascii in Hn by reflexivity.
  rewrite (match_last_segment dec (chars pre) (chars ds) (chars q)); try assumption.
  - rewrite glue_chars, findall_from_nil. reflexivity.
  - intros E. apply Hp, chars_empty, E.
  - intros E. apply Hd, chars_empty, E.
  - intros E. apply Hq, chars_empty, E.
Qed.

Lemma findall_some dec link :
  has_version dec (chars link) ->
  exists g rest u x ds y v,
    re_findall dec version_pattern link = g :: rest
    /\ chars link = u ++ segment x ds y ++ v
    /\ segment_ok dec x ds y /\ g = glue ds.
Proof.
  intros H. unfold re_findall.
  pose proof (findall_from_some dec (S (length (chars link))) (chars link) H
                ltac:(lia)) as Hne.
  pose proof (findall_from_sound dec (S (length (chars link))) (chars link)) as Hs.
  destruct (re_findall_from dec (S (length (chars link))) version_pattern (chars link))
    as [|g rest]; [congruence|].
  apply Forall_cons in Hs as [(u & x & ds & y & v & E & Hok & Hg) _].
  exists g, rest, u, x, ds, y, v.
  split; [reflexivity|]. split; [exact E|]. split; [exact Hok|exact Hg].
Qed.

Lemma findall_none dec link :
  ~ has_version dec (chars link) -> re_findall dec version_pattern link = [].
Proof. intros H. apply findall_from_none, H. Qed.

Lemma no_version_by_findall dec link :
  re_findall dec version_pattern link = [] -> ~ has_version dec (chars link).
Proof.
  intros E H. unfold re_findall in E.
  apply (findall_from_some dec (S (length (chars link))) (chars link) H);
    [lia|exact E].
Qed.


(** ** The orchestrator *)

Lemma poll_event_no_step e : poll_event e -> step_of e = None.
Proof.
  destruct e as [[m u b]| |]; simpl; try reflexivity.
  destruct m; try contradiction. destruct b; [contradiction|reflexivity].
Qed.

Lemma steps_app l1 l2 : steps (l1 ++ l2) = steps l1 ++ steps l2.
Proof. apply omap_app. Qed.

Lemma steps_polls l : Forall poll_event l -> steps l = [].
Proof.
  induction 1 as [|e l He _ IH]; [reflexivity|].
  unfold steps in *. simpl. rewrite (poll_event_no_step e He). exact IH.
Qed.

Lemma steps_applied module pid cv ver b :
  steps (applied module pid cv ver b)
  = [Locate (JStr (name (params module))); Fork pid cv; Apply pid (JStr ver)].
Proof. reflexivity. Qed.

Lemma steps_activation module network pid ver tail :
  Forall poll_event tail ->
  steps (activate_event module network pid ver :: tail)
  = [Activate (JStr network) pid (JStr ver)].
Proof.
  intros H. change (activate_event module network pid ver :: tail)
    with ([activate_event module network pid ver] ++ tail).
  rewrite steps_app, (steps_polls tail H). reflexivity.
Qed.

Lemma steps_activation_done module session requested network pid ver before part :
  activation_done module session requested network pid ver before part ->
  steps part = if requested then [Activate (JStr network) pid (JStr ver)] else [].
Proof.
  unfold activation_done. destruct requested.
  - intros (tail & -> & Hp & _). apply steps_activation, Hp.
  - intros ->. reflexivity.
Qed.

Lemma last_call_not_step_halt module session r st :
  ~ step_halt session (last_call module r) st.
Proof.
  unfold last_call, step_halt.
  destruct (String.eqb (name (params module)) "fail me"); [|tauto].
  intros (_ & l & rq & _ & _ & [[H _]|[H _]]); discriminate H.
Qed.

Lemma last_call_not_running module r : last_call module r <> Running.
Proof.
  unfold last_call. destruct (String.eqb (name (params module)) "fail me");
    discriminate.
Qed.

Lemma not_last_call module session h r st :
  h = Running \/ step_halt session h st -> h <> last_call module r.
Proof.
  intros [->|H] E.
  - symmetry in E. exact (last_call_not_running _ _ E).
  - subst h. exact (last_call_not_step_halt _ _ _ _ H).
Qed.

(** The requests of a run follow the plan, up to where the run ends. *)
Lemma shape_steps module session o st :
  run_shape module session o st ->
  exists pid cv ver,
    steps (log st) `prefix_of` plan module pid cv ver
    /\ ((1 < length (steps (log st)))%nat -> discovered module session pid cv)
    /\ ((2 < length (steps (log st)))%nat -> forked session (api session 1) ver (result st))
    /\ (o = Stop (last_call module (result st)) ->
        steps (log st) = plan module pid cv ver).
Proof.
  intros H. destruct H as
    [h r Hs Hh Hc
    |h r pid cv Hd Hl Hh Hc
    |h r pid cv ver tail Hd Hl Hf Ht Hh
    |h r pid cv ver b tail Hstg Hd Hl Hf Hp Hh
    |h r pid cv ver b stg tail Hprd Hd Hl Hf Hs Hp Hh
    |r pid cv ver b stg prd Hd Hl Hf Hs Hp]; cbn [log result].
  - exists JNull, JNull, EmptyString. split; [|split; [|split]].
    + exists (tail (plan module JNull JNull EmptyString)). reflexivity.
    + simpl. lia.
    + simpl. lia.
    + intros [= E]. exfalso. eapply not_last_call; [right; exact Hh|exact E].
  - exists pid, cv, EmptyString. split; [|split; [|split]].
    + eexists. unfold plan. simpl. reflexivity.
    + intros _. exact Hd.
    + simpl. lia.
    + intros [= E]. exfalso. eapply not_last_call; [right; exact Hh|exact E].
  - exists pid, cv, ver. split; [|split; [|split]].
    + destruct Ht as [->|(b & ->)]; eexists; unfold plan; simpl; reflexivity.
    + intros _. exact Hd.
    + intros _. exact Hf.
    + intros [= E]. exfalso. eapply not_last_call; [right; exact Hh|exact E].
  - exists pid, cv, ver.
    rewrite steps_app, steps_applied, (steps_activation _ _ _ _ _ Hp).
    split; [|split; [|split]].
    + unfold plan. rewrite Hstg. eexists. simpl. reflexivity.
    + intros _. exact Hd.
    + intros _. exact Hf.
    + intros [= E]. exfalso. eapply not_last_call; [exact Hh|exact E].
  - exists pid, cv, ver.
    rewrite !steps_app, steps_applied, (steps_activation _ _ _ _ _ Hp).
    rewrite (steps_activation_done _ _ _ _ _ _ _ _ Hs).
    split; [|split; [|split]].
    + unfold plan. rewrite Hprd. eexists. rewrite app_nil_r. reflexivity.
    + intros _. exact Hd.
    + intros _. exact Hf.
    + intros [= E]. exfalso. eapply not_last_call; [exact Hh|exact E].
  - exists pid, cv, ver.
    rewrite !steps_app, steps_applied.
    rewrite (steps_activation_done _ _ _ _ _ _ _ _ Hs).
    rewrite (steps_activation_done _ _ _ _ _ _ _ _ Hp).
    split; [|split; [|split]].
    + exists []. rewrite app_nil_r. reflexivity.
    + intros _. exact Hd.
    + intros _. exact Hf.
    + intros _. reflexivity.
Qed.

(** What [fail_json] reports is [result] as it stands at the end; short
    of the closing call it is the validator rejecting the last event. *)
Lemma shape_reports module session o st :
  run_shape module session o st ->
  forall msg kw,
    o = Stop (FailJson msg kw) ->
    kw = result st
    /\ (FailJson msg kw = last_call module (result st)
        \/ step_halt session (FailJson msg kw) st).
Proof.
  intros H msg kw E. destruct H as
    [h r Hs Hh Hc
    |h r pid cv Hd Hl Hh Hc
    |h r pid cv ver tail Hd Hl Hf Ht Hh
    |h r pid cv ver b tail Hstg Hd Hl Hf Hp Hh
    |h r pid cv ver b stg tail Hprd Hd Hl Hf Hs Hp Hh
    |r pid cv ver b stg prd Hd Hl Hf Hs Hp]; injection E as E; cbn [result].
  1-3: subst h; split; [exact (proj1 Hh)|right; exact Hh].
  1-2: subst h; destruct Hh as [Hh|Hh]; [discriminate Hh|];
       split; [exact (proj1 Hh)|right; exact Hh].
  rewrite <- E. split; [|left; reflexivity].
  unfold last_call in E.
  destruct (String.eqb (name (params module)) "fail me"); congruence.
Qed.

Lemma split_unique {A} (P : A -> Prop) (front : list A) x back l1 e l2 :
  front ++ x :: back = l1 ++ e :: l2 ->
  P e ->
  Forall (fun y => ~ P y) front ->
  Forall (fun y => ~ P y) back ->
  l1 = front /\ e = x /\ l2 = back.
Proof.
  revert l1. induction front as [|a front IH]; intros l1 E He Hf Hb.
  - destruct l1 as [|y l1]; simpl in E.
    + injection E as -> ->. repeat split.
    + injection E as -> ->. exfalso.
      rewrite Forall_forall in Hb. apply (Hb e); [|exact He].
      apply list_elem_of_In, in_elt.
  - apply Forall_cons in Hf as [Ha Hf].
    destruct l1 as [|y l1]; simpl in E.
    + injection E as -> _. contradiction.
    + injection E as -> E. destruct (IH l1 E He Hf Hb) as (-> & -> & ->).
      repeat split.
Qed.

Lemma no_split {A} (P : A -> Prop) (l l1 : list A) e l2 :
  l = l1 ++ e :: l2 -> P e -> Forall (fun y => ~ P y) l -> False.
Proof.
  intros -> He H. rewrite Forall_forall in H. apply (H e); [|exact He].
  apply list_elem_of_In, in_elt.
Qed.

Lemma poll_event_not_activates network e : poll_event e -> ~ activates network e.
Proof.
  intros He (pid & v & E). rewrite (poll_event_no_step e He) in E. discriminate.
Qed.

Lemma polls_not_activate network l :
  Forall poll_event l -> Forall (fun e => ~ activates network e) l.
Proof.
  intros H. eapply Forall_impl; [exact H|]. intros e. apply poll_event_not_activates.
Qed.

Lemma applied_not_activate network module pid cv ver b :
  Forall (fun e => ~ activates network e) (applied module pid cv ver b).
Proof.
  unfold applied. repeat constructor; intros (p & v & E); discriminate E.
Qed.

Lemma staging_not_production module pid ver :
  ~ activates "PRODUCTION" (activate_event module "STAGING" pid ver).
Proof. intros (p & v & E). discriminate E. Qed.

Lemma activation_done_not_production module session requested pid ver before part :
  activation_done module session requested "STAGING" pid ver before part ->
  Forall (fun e => ~ activates "PRODUCTION" e) part.
Proof.
  unfold activation_done. destruct requested.
  - intros (tail & -> & Hp & _). constructor.
    + apply staging_not_production.
    + apply polls_not_activate, Hp.
  - intros ->. constructor.
Qed.

Lemma before_production module session pid cv ver b stg back l1 e l2 :
  activate_staging (params module) = true ->
  activation_done module session (activate_staging (params module))
    "STAGING" pid ver (applied module pid cv ver b) stg ->
  Forall poll_event back ->
  applied module pid cv ver b ++ stg
    ++ activate_event module "PRODUCTION" pid ver :: back = l1 ++ e :: l2 ->
  activates "PRODUCTION" e ->
  exists l0 u,
    l1 = l0 ++ [fetch u]
    /\ status_active (text (api session (sent l0))) = Some true.
Proof.
  intros Hstg Hs Hb E He.
  pose proof (activation_done_not_production _ _ _ _ _ _ _ Hs) as Hn.
  rewrite app_assoc in E.
  destruct (split_unique (activates "PRODUCTION") _ _ _ _ _ _ E He) as (-> & _ & _).
  - apply Forall_app. split; [apply applied_not_activate|exact Hn].
  - apply polls_not_activate, Hb.
  - rewrite Hstg in Hs. destruct Hs as (tl & -> & _ & t0 & u & -> & Ha).
    exists (applied module pid cv ver b ++ activate_event module "STAGING" pid ver :: t0), u.
    split.
    + rewrite <- app_assoc. reflexivity.
    + rewrite <- Ha. do 3 f_equal; norm_list; reflexivity.
Qed.

(** A production activation is requested right after a fetch of the
    staging activation was answered ACTIVE, when staging was asked for. *)
Lemma shape_production_after_staging module session o st :
  run_shape module session o st ->
  activate_staging (params module) = true ->
  forall l1 e l2,
    log st = l1 ++ e :: l2 ->
    activates "PRODUCTION" e ->
    exists l0 u,
      l1 = l0 ++ [fetch u]
      /\ status_active (text (api session (sent l0))) = Some true.
Proof.
  intros H Hstg l1 e l2 E He. destruct H as
    [h r Hs Hh Hc
    |h r pid cv Hd Hl Hh Hc
    |h r pid cv ver tail Hd Hl Hf Ht Hh
    |h r pid cv ver b tail Hstg' Hd Hl Hf Hp Hh
    |h r pid cv ver b stg tail Hprd Hd Hl Hf Hs Hp Hh
    |r pid cv ver b stg prd Hd Hl Hf Hs Hp]; cbn [log] in E.
  - exfalso. eapply (no_split (activates "PRODUCTION")); [exact E|exact He|].
    repeat constructor; intros (p & v & E'); discriminate E'.
  - exfalso. eapply (no_split (activates "PRODUCTION")); [exact E|exact He|].
    repeat constructor; intros (p & v & E'); discriminate E'.
  - exfalso. eapply (no_split (activates "PRODUCTION")); [exact E|exact He|].
    destruct Ht as [->|(b & ->)];
      repeat constructor; intros (p & v & E'); discriminate E'.
  - exfalso. eapply (no_split (activates "PRODUCTION")); [exact E|exact He|].
    apply Forall_app. split; [apply applied_not_activate|].
    constructor; [apply staging_not_production|apply polls_not_activate, Hp].
  - eapply before_production; eassumption.
  - unfold activation_done in Hp at 1.
    destruct (activate_production (params module)).
    + destruct Hp as (back & -> & Hb & _).
      eapply before_production; eassumption.
    + subst prd. exfalso.
      eapply (no_split (activates "PRODUCTION")); [exact E|exact He|].
      rewrite app_nil_r. apply Forall_app. split; [apply applied_not_activate|].
      eapply activation_done_not_production; exact Hs.
Qed.

(** *** One step after the other *)

Lemma proceeds_bind (out : outcome unit * state) (m : M unit) (k : unit -> M unit)
    (st : state) (next : state -> Prop) :
  out = bind m k st ->
  (forall st', m st = (Ret tt, st') -> out = k tt st' -> next st') ->
  proceeds out (m st) next.
Proof.
  intros E H. unfold proceeds. unfold bind in E.
  destruct (m st) as [[[]|h] st'] eqn:Em; cbn [fst snd].
  - apply H; [reflexivity|exact E].
  - exact E.
Qed.

Lemma get_result_bind {A} k v (f : json -> M A) st :
  result st !! k = Some v -> (x <- get_result k ;; f x) st = f v st.
Proof. intros H. unfold bind, get_result. rewrite H. reflexivity. Qed.

Lemma when_get_result b (f : json -> M unit) v st :
  result st !! "propertyId" = Some v ->
  forall k : unit -> M unit,
    bind (when b (p <- get_result "propertyId" ;; f p)) k st
    = bind (when b (f v)) k st.
Proof.
  intros H k. unfold bind at 1 3. destruct b; [|reflexivity].
  unfold when. rewrite (get_result_bind _ _ _ _ H). reflexivity.
Qed.

(** The run is its steps one after the other, each started where the
    one before returned, the first that halts ending the run. *)
Lemma run_sequence module session fuel :
  check_mode module = false ->
  let out := run module session fuel in
  let n := name (params module) in
  proceeds out (search_property session n (State seed [])) (fun s1 =>
    exists pid cv,
      located (result s1) pid cv
      /\ proceeds out (create_new_property_version session pid cv s1) (fun s2 =>
           exists ver,
             result s2 !! "new_version" = Some (JStr ver)
             /\ proceeds out
                  (update_property module session n pid (JStr ver) s2) (fun s3 =>
                  proceeds out
                    (when (activate_staging (params module))
                       (activate_property module session fuel pid "STAGING") s3)
                    (fun s4 =>
                       proceeds out
                         (when (activate_production (params module))
                            (activate_property module session fuel pid "PRODUCTION")
                            s4)
                         (fun s5 =>
                            out = (Stop (last_call module (result s5)), s5)))))).
Proof.
  intros Hc out n.
  assert (Hout : out = run module session fuel) by reflexivity. clearbody out.
  eapply proceeds_bind.
  { rewrite Hout. unfold run, run_module.
    unfold bind at 1. cbn [boot log result].
    unfold bind at 1. rewrite Hc. unfold when at 1, ret at 1. reflexivity. }
  intros s1 E1 O1.
  destruct (search_property_spec session n (State seed []))
    as (o1 & r1 & E1' & Hfr1 & Hk1 & _).
  rewrite E1 in E1'. injection E1' as <- ->. cbn [result log app] in *.
  destruct (Hk1 "propertyId") as [pid Hpid]; [eexists; reflexivity|].
  destruct (Hk1 "current_version") as [cv Hcv]; [eexists; reflexivity|].
  exists pid, cv. split; [split; assumption|].
  rewrite (get_result_bind _ _ _ (State r1 _) Hpid) in O1.
  rewrite (get_result_bind _ _ _ (State r1 _) Hcv) in O1.
  eapply proceeds_bind; [exact O1|].
  intros s2 E2 O2.
  destruct (create_new_property_version_spec session pid cv
              (State r1 [Http (search_request n)]))
    as (o2 & r2 & E2' & Hfr2 & _ & Hf2).
  rewrite E2 in E2'. injection E2' as <- ->. cbn [result log app] in *.
  destruct (Hf2 eq_refl) as (ver & _ & _ & Hnv & _).
  assert (Hpid2 : r2 !! "propertyId" = Some pid)
    by (rewrite Hfr2 by discriminate; exact Hpid).
  exists ver. split; [exact Hnv|].
  rewrite (get_result_bind _ _ _ (State r2 _) Hpid2) in O2.
  rewrite (get_result_bind _ _ _ (State r2 _) Hnv) in O2.
  eapply proceeds_bind; [exact O2|].
  intros s3 E3 O3.
  assert (Hpid3 : result s3 !! "propertyId" = Some pid).
  { pose proof (update_property_result module session n pid (JStr ver)
                  (State r2 [Http (search_request n); Http (create_request pid cv)]))
      as Hr.
    rewrite E3 in Hr. cbn [snd result] in Hr. rewrite Hr. exact Hpid2. }
  cbv beta in O3.
  rewrite (when_get_result _ (fun p => activate_property module session fuel p "STAGING")
             pid s3 Hpid3) in O3.
  eapply proceeds_bind; [exact O3|].
  intros s4 E4 O4.
  assert (Hpid4 : result s4 !! "propertyId" = Some pid).
  { destruct (activate_staging (params module)); unfold when in E4.
    - pose proof (activate_property_keeps module session fuel pid "STAGING" s3
                    "propertyId" ltac:(discriminate)) as Hr.
      rewrite E4 in Hr. cbn [snd] in Hr. rewrite Hr. exact Hpid3.
    - injection E4 as <-. exact Hpid3. }
  cbv beta in O4.
  rewrite (when_get_result _
             (fun p => activate_property module session fuel p "PRODUCTION")
             pid s4 Hpid4) in O4.
  eapply proceeds_bind; [exact O4|].
  intros s5 E5 O5. rewrite O5. apply last_call_reached.
Qed.

(** A step returns only when the reply to its request was accepted and
    decoded. *)
Lemma returns_on_accepted module session fuel st :
  let reply := api session (sent (log st)) in
  let accepted := status_ok (status_code reply) = true /\ text reply <> None in
  (forall n, (search_property session n st).1 = Ret tt -> accepted)
  /\ (forall pid v,
        (create_new_property_version session pid v st).1 = Ret tt -> accepted)
  /\ (forall n pid v,
        (update_property module session n pid v st).1 = Ret tt -> accepted)
  /\ (forall pid network,
        (activate_property module session fuel pid network st).1 = Ret tt ->
        accepted).
Proof.
  intros reply accepted. subst accepted reply.
  split; [|split; [|split]].
  - intros n. unfold search_property, error_handling. run_step.
    destruct (text (api session (sent (log st)))) as [j0|]; simpl; [|discriminate].
    destruct (status_ok (status_code (api session (sent (log st))))); simpl;
      [|discriminate].
    intros _. split; [reflexivity|discriminate].
  - intros pid v. unfold create_new_property_version, error_handling. run_step.
    destruct (text (api session (sent (log st)))) as [j0|]; simpl; [|discriminate].
    destruct (status_ok (status_code (api session (sent (log st))))); simpl;
      [|discriminate].
    intros _. split; [reflexivity|discriminate].
  - intros n pid v. unfold update_property, load_file, error_handling. run_step.
    destruct (files session (ruletree_path n)) as [[doc|]|]; simpl; try discriminate.
    destruct (setitem doc "comments" _) as [e0|body0]; simpl; [discriminate|].
    rewrite sent_open.
    destruct (text (api session (sent (log st)))) as [j0|]; simpl; [|discriminate].
    destruct (status_ok (status_code (api session (sent (log st))))); simpl;
      [|discriminate].
    intros _. split; [reflexivity|discriminate].
  - intros pid network. unfold activate_property, error_handling. run_step.
    destruct (result st !! "new_version"); simpl; [|discriminate].
    destruct (text (api session (sent (log st)))) as [j0|]; simpl; [|discriminate].
    destruct (status_ok (status_code (api session (sent (log st))))); simpl;
      [|discriminate].
    intros _. split; [reflexivity|discriminate].
Qed.

(** C1, as the code has it.

    The sequence: a run that is not in check mode is its steps one after
    the other, Locate, Fork with the property id and version the search
    left in [result], Apply with the version the fork left there, then
    Activate STAGING and Activate PRODUCTION, each when asked for; each
    step starts in the state the one before returned in, the first step
    that halts (by [fail_json] or by an exception) ends the run as it
    halted, with nothing done after it, and when all have returned the
    run ends in the closing [exit_json] (or the closing [fail_json] of
    the name [fail me]).  A step returns only when the reply to its
    request had an accepted status and a JSON body.

    What it sends: the search request always comes first, and the step
    requests of the log are an initial part of the plan, the whole plan
    when the run ends through the closing call.  With staging asked for,
    a request to activate PRODUCTION comes right after a fetch of the
    staging activation answered ACTIVE.

    How it ends: a run always ends by halting.  When it ends in
    [fail_json], the report carries [result] as accumulated so far, and
    unless it is the closing call the last event of the run is the
    request whose reply the validator rejected.  A failure is either
    such a report or an uncaught exception, which reports no field. *)
Theorem orchestrator_sequence
    (module : AnsibleModule) (session : world) (fuel : nat) :
  check_mode module = false ->
  let out := run module session fuel in
  let n := name (params module) in
  proceeds out (search_property session n (State seed [])) (fun s1 =>
    exists pid cv,
      located (result s1) pid cv
      /\ proceeds out (create_new_property_version session pid cv s1) (fun s2 =>
           exists ver,
             result s2 !! "new_version" = Some (JStr ver)
             /\ proceeds out
                  (update_property module session n pid (JStr ver) s2) (fun s3 =>
                  proceeds out
                    (when (activate_staging (params module))
                       (activate_property module session fuel pid "STAGING") s3)
                    (fun s4 =>
                       proceeds out
                         (when (activate_production (params module))
                            (activate_property module session fuel pid "PRODUCTION")
                            s4)
                         (fun s5 =>
                            out = (Stop (last_call module (result s5)), s5))))))
  /\ (forall st,
        let reply := api session (sent (log st)) in
        let accepted := status_ok (status_code reply) = true /\ text reply <> None in
        (forall pn, (search_property session pn st).1 = Ret tt -> accepted)
        /\ (forall pid v,
              (create_new_property_version session pid v st).1 = Ret tt -> accepted)
        /\ (forall pn pid v,
              (update_property module session pn pid v st).1 = Ret tt -> accepted)
        /\ (forall pid network,
              (activate_property module session fuel pid network st).1 = Ret tt ->
              accepted))
  /\ (exists rest, log out.2 = locate_event module :: rest)
  /\ (exists pid cv ver,
     steps (log out.2) `prefix_of` plan module pid cv ver
     /\ ((1 < length (steps (log out.2)))%nat -> discovered module session pid cv)
     /\ ((2 < length (steps (log out.2)))%nat ->
         forked session (api session 1) ver (result out.2))
     /\ (out.1 = Stop (last_call module (result out.2)) ->
         steps (log out.2) = plan module pid cv ver))
  /\ (activate_staging (params module) = true ->
      forall l1 e l2,
        log out.2 = l1 ++ e :: l2 ->
        activates "PRODUCTION" e ->
        exists l0 u,
          l1 = l0 ++ [fetch u]
          /\ status_active (text (api session (sent l0))) = Some true)
  /\ (exists h, out.1 = Stop h)
  /\ (forall msg kw,
        out.1 = Stop (FailJson msg kw) ->
        kw = result out.2
        /\ (FailJson msg kw = last_call module (result out.2)
            \/ step_halt session (FailJson msg kw) out.2))
  /\ (forall h,
        out.1 = Stop h -> failure h ->
        (exists msg, h = FailJson msg (result out.2)
                     /\ failure_report h = Some (result out.2))
        \/ (exists e, h = Uncaught e /\ failure_report h = None)).
Proof.
  intros Hc out n. pose proof (run_has_shape module session fuel Hc) as H.
  unfold shape_of in H. fold out in H.
  split; [exact (run_sequence module session fuel Hc)|].
  split; [intros st; exact (returns_on_accepted module session fuel st)|].
  split; [destruct H; eexists; norm_list; reflexivity|].
  split; [exact (shape_steps _ _ _ _ H)|].
  split; [exact (shape_production_after_staging _ _ _ _ H)|].
  split; [destruct H; eexists; reflexivity|].
  split; [exact (shape_reports _ _ _ _ H)|].
  intros h E Hf. destruct h as [kw|msg kw|e|]; try contradiction.
  - left. exists msg.
    destruct (shape_reports _ _ _ _ H msg kw E) as [-> _]. split; reflexivity.
  - right. exists e. split; reflexivity.
Qed.

(** C1 as stated fails where a step raises instead of calling
    [fail_json]: with the rule tree of [demo] missing, the run has
    created version 6 and set [changed], then ends in an uncaught
    FileNotFoundError whose report carries no result field. *)
Lemma orchestrator_failure_without_report :
  let out := run demo_module no_files 0 in
  out.1 = Stop (Uncaught (FileNotFoundError "./ruletree/demo.ruletree.json"))
  /\ result out.2 !! "new_version" = Some (JStr "6")
  /\ result out.2 !! "changed" = Some (JBool true)
  /\ ~ reports_partial_result demo_module no_files 0.
Proof.
  split; [vm_compute; reflexivity|].
  split; [vm_compute; reflexivity|].
  split; [vm_compute; reflexivity|].
  intros H.
  specialize (H (Uncaught (FileNotFoundError "./ruletree/demo.ruletree.json"))
                (run demo_module no_files 0).2).
  assert (E : run demo_module no_files 0
              = (Stop (Uncaught (FileNotFoundError "./ruletree/demo.ruletree.json")),
                 (run demo_module no_files 0).2)) by (vm_compute; reflexivity).
  specialize (H E I). discriminate H.
Qed.

(** ** The version forker *)

Lemma run_changed module session fuel :
  result (run module session fuel).2 !! "changed" = Some (JBool true) ->
  exists ver, forked session (api session 1) ver (result (run module session fuel).2).
Proof.
  destruct (check_mode module) eqn:Hc.
  - destruct module as [p c]. simpl in Hc. subst c.
    rewrite run_check_mode. intros H. discriminate H.
  - pose proof (run_has_shape module session fuel Hc) as H. unfold shape_of in H.
    destruct H as
      [h r Hs Hh Hch
      |h r pid cv Hd Hl Hh Hch
      |h r pid cv ver tail Hd Hl Hf Ht Hh
      |h r pid cv ver b tail Hstg Hd Hl Hf Hp Hh
      |h r pid cv ver b stg tail Hprd Hd Hl Hf Hs Hp Hh
      |r pid cv ver b stg prd Hd Hl Hf Hs Hp]; cbn [result];
      try (intros _; exists ver; exact Hf);
      intros E; rewrite Hch in E; discriminate E.
Qed.

Lemma create_new_property_version_ok session property_id version st body link ver rest :
  status_ok (status_code (api session (sent (log st)))) = true ->
  text (api session (sent (log st))) = Some body ->
  getitem body "versionLink" = inr (JStr link) ->
  re_findall (decimal session) version_pattern link = ver :: rest ->
  create_new_property_version session property_id version st
  = (Ret tt,
     State (<["changed" := JBool true]>
              (<["new_version" := JStr ver]>
                 (<["api_creation_response" := body]> (result st))))
           (log st ++ [Http (create_request property_id version)])).
Proof.
  intros Hs Ht Hl Hf.
  unfold create_new_property_version, error_handling. run_step.
  rewrite Ht. simpl. rewrite Hs. simpl. rewrite Hl. simpl. rewrite Hf. reflexivity.
Qed.

Lemma create_new_property_version_raises session property_id version st body :
  status_ok (status_code (api session (sent (log st)))) = true ->
  text (api session (sent (log st))) = Some body ->
  (forall e, getitem body "versionLink" = inl e ->
     create_new_property_version session property_id version st
     = fork_raised property_id version st body e)
  /\ (forall link, getitem body "versionLink" = inr link ->
      (forall s, link <> JStr s) ->
      create_new_property_version session property_id version st
      = fork_raised property_id version st body TypeError)
  /\ (forall link, getitem body "versionLink" = inr (JStr link) ->
      re_findall (decimal session) version_pattern link = [] ->
      create_new_property_version session property_id version st
      = fork_raised property_id version st body IndexError).
Proof.
  intros Hs Ht. unfold fork_raised. split; [|split].
  - intros e Hl. unfold create_new_property_version, error_handling. run_step.
    rewrite Ht. simpl. rewrite Hs. simpl. rewrite Hl. reflexivity.
  - intros link Hl Hn. unfold create_new_property_version, error_handling. run_step.
    rewrite Ht. simpl. rewrite Hs. simpl. rewrite Hl. simpl.
    destruct link; try reflexivity. exfalso. apply (Hn s). reflexivity.
  - intros link Hl Hf. unfold create_new_property_version, error_handling. run_step.
    rewrite Ht. simpl. rewrite Hs. simpl. rewrite Hl. simpl. rewrite Hf. reflexivity.
Qed.

(** C3, as the code has it.  The fork step reads the new version off
    the [versionLink] of an accepted creation reply with the pattern
    [.+/(\d+)\?.+].  For a locator [<prefix>/<digits>?<rest>] on one
    line, prefix and rest not empty and no further version segment after
    the digits (none can be when the rest holds no slash), the step
    returns with [new_version] set to the digits, as a string, and
    [changed] set to true, whatever the path segment before the digits
    is.  For any locator that holds a version segment (a character, a
    slash, digits, a question mark, a character, on one line) the step
    returns with the digits of one of its segments and [changed] true.
    For a locator that holds none the step ends in an uncaught
    IndexError, for a locator that is not a string in a TypeError, for a
    reply without [versionLink] in the lookup's KeyError (TypeError when
    the body is not an object); in these cases the reply is recorded and
    [changed] and [new_version] are left as they were.  No other step
    writes [changed], and a run ends with [changed] true only if its
    creation reply was accepted and announced the version found in
    [new_version]. *)
Theorem fork_extracts_version
    (session : world) (property_id version : json) (st : state) :
  let dec := decimal session in
  let reply := api session (sent (log st)) in
  let out := create_new_property_version session property_id version st in
  (forall body pre ds q,
     status_ok (status_code reply) = true ->
     text reply = Some body ->
     getitem body "versionLink"
       = inr (JStr (pre +:+ "/" +:+ ds +:+ "?" +:+ q)) ->
     pre <> EmptyString -> one_line pre = true ->
     ds <> EmptyString -> digits dec ds = true ->
     q <> EmptyString -> one_line q = true ->
     ~ has_version dec (chars ("?" +:+ q)) ->
     out = fork_done property_id version st body ds)
  /\ (forall q, no_slash q = true -> ~ has_version dec (chars ("?" +:+ q)))
  /\ (forall body link,
     status_ok (status_code reply) = true ->
     text reply = Some body ->
     getitem body "versionLink" = inr (JStr link) ->
     has_version dec (chars link) ->
     exists u x ds y v,
       chars link = u ++ segment x ds y ++ v
       /\ segment_ok dec x ds y
       /\ out = fork_done property_id version st body (glue ds))
  /\ (forall body link,
     status_ok (status_code reply) = true ->
     text reply = Some body ->
     getitem body "versionLink" = inr (JStr link) ->
     ~ has_version dec (chars link) ->
     out = fork_raised property_id version st body IndexError)
  /\ (forall body link,
     status_ok (status_code reply) = true ->
     text reply = Some body ->
     getitem body "versionLink" = inr link ->
     (forall s, link <> JStr s) ->
     out = fork_raised property_id version st body TypeError)
  /\ (forall body e,
     status_ok (status_code reply) = true ->
     text reply = Some body ->
     getitem body "versionLink" = inl e ->
     out = fork_raised property_id version st body e
     /\ (e = KeyError "versionLink" \/ e = TypeError))
  /\ (forall body e,
     result (fork_raised property_id version st body e).2 !! "changed"
     = result st !! "changed"
     /\ result (fork_raised property_id version st body e).2 !! "new_version"
        = result st !! "new_version")
  /\ (forall property_name st',
     result (search_property session property_name st').2 !! "changed"
     = result st' !! "changed")
  /\ (forall module property_name pid nv st',
     result (update_property module session property_name pid nv st').2 !! "changed"
     = result st' !! "changed")
  /\ (forall module fuel pid network st',
     result (activate_property module session fuel pid network st').2 !! "changed"
     = result st' !! "changed")
  /\ (forall module fuel,
     result (run module session fuel).2 !! "changed" = Some (JBool true) ->
     exists ver,
       forked session (api session 1) ver (result (run module session fuel).2)).
Proof.
  intros dec reply out. subst out dec.
  split; [|split; [|split; [|split; [|split; [|split; [|split;
    [|split; [|split; [|split]]]]]]]]].
  - intros body pre ds q Hs Ht Hl Hp Hpl Hne Hd Hq Hql Hn.
    apply (create_new_property_version_ok session property_id version st body
             (pre +:+ "/" +:+ ds +:+ "?" +:+ q) ds []); try assumption.
    apply findall_locator; assumption.
  - intros q Hq. change (chars ("?" +:+ q)) with (chars (String "?" q)).
    rewrite chars_ascii by reflexivity. apply has_version_no_slash, Hq.
  - intros body link Hs Ht Hl Hv.
    destruct (findall_some (decimal session) link Hv)
      as (g & rest & u & x & ds & y & v & Hf & E & Hok & ->).
    exists u, x, ds, y, v. split; [exact E|]. split; [exact Hok|].
    apply (create_new_property_version_ok session property_id version st body
             link (glue ds) rest); assumption.
  - intros body link Hs Ht Hl Hn.
    apply (proj2 (proj2 (create_new_property_version_raises session property_id
                           version st body Hs Ht)) link Hl).
    apply findall_none, Hn.
  - intros body link Hs Ht Hl Hn.
    apply (proj1 (proj2 (create_new_property_version_raises session property_id
                           version st body Hs Ht)) link Hl Hn).
  - intros body e Hs Ht Hl. split.
    + apply (proj1 (create_new_property_version_raises session property_id
                      version st body Hs Ht) e Hl).
    + apply (getitem_error _ _ _ Hl).
  - intros body e. unfold fork_raised. cbn [snd result].
    split; rewrite lookup_insert_ne by discriminate; reflexivity.
  - intros property_name st'. apply search_property_keeps; discriminate.
  - intros module property_name pid nv st'.
    rewrite update_property_result. reflexivity.
  - intros module fuel pid network st'.
    apply activate_property_keeps. discriminate.
  - intros module fuel. apply run_changed.
Qed.

(** C3 as stated fails on both sides.  A locator ending in
    [/versions/6?] with nothing after the question mark is of the form
    claimed, yet the pattern wants a character there: the step ends in
    an uncaught IndexError.  With a second segment in the query the step
    returns the later number, 7 and not 6.  And a locator without any
    [/versions/], as [/activations/44?x=1], does not fail: the step
    returns 44. *)
Lemma fork_pattern_mismatch :
  let step w := create_new_property_version w (JStr "prp_1") (JNum 5) boot in
  (step (link_world "/papi/v1/properties/prp_1/versions/6?")).1
    = Stop (Uncaught IndexError)
  /\ result (step (link_world "/papi/v1/properties/prp_1/versions/6?r=/v/7?x")).2
       !! "new_version" = Some (JStr "7")
  /\ (step (link_world "/papi/v1/properties/prp_1/activations/44?x=1")).1 = Ret tt
  /\ result (step (link_world "/papi/v1/properties/prp_1/activations/44?x=1")).2
       !! "new_version" = Some (JStr "44")
  /\ ~ fork_as_claimed (link_world "/papi/v1/properties/prp_1/versions/6?")
         (JStr "prp_1") (JNum 5) boot
  /\ ~ fork_as_claimed (link_world "/papi/v1/properties/prp_1/versions/6?r=/v/7?x")
         (JStr "prp_1") (JNum 5) boot.
Proof.
  intros step. subst step.
  split; [vm_compute; reflexivity|].
  split; [vm_compute; reflexivity|].
  split; [vm_compute; reflexivity|].
  split; [vm_compute; reflexivity|].
  split.
  - intros H.
    destruct (H (JObj [("versionLink", JStr "/papi/v1/properties/prp_1/versions/6?")])
                "/papi/v1/properties/prp_1/versions/6?" eq_refl eq_refl eq_refl)
      as [H1 _].
    destruct (H1 "6") as (F & _).
    + split; [discriminate|]. split; [reflexivity|].
      exists "/papi/v1/properties/prp_1", "". reflexivity.
    + vm_compute in F. discriminate F.
  - intros H.
    destruct (H (JObj [("versionLink",
                        JStr "/papi/v1/properties/prp_1/versions/6?r=/v/7?x")])
                "/papi/v1/properties/prp_1/versions/6?r=/v/7?x" eq_refl eq_refl eq_refl)
      as [H1 _].
    destruct (H1 "6") as (_ & F & _).
    + split; [discriminate|]. split; [reflexivity|].
      exists "/papi/v1/properties/prp_1", "r=/v/7?x". reflexivity.
    + vm_compute in F. discriminate F.
Qed.

(** ** Locating without an active version *)

Lemma search_property_inactive session property_name st body l :
  status_ok (status_code (api session (sent (log st)))) = true ->
  text (api session (sent (log st))) = Some body ->
  items_of (Some body) = inr (JArr l) ->
  l <> [] ->
  Forall inactive l ->
  search_property session property_name st
  = (Ret tt,
     State (<["api_search_response" := body]> (result st))
           (log st ++ [Http (search_request property_name)])).
Proof.
  intros Hs Ht Hi Hne Hl.
  rewrite (search_property_scan session property_name st body (JArr l) l Hs Ht Hi);
    [|destruct l; [contradiction|reflexivity]|reflexivity].
  apply for_each_inactive, Hl.
Qed.

Lemma search_property_unmarked session property_name st body l1 x l2 e :
  status_ok (status_code (api session (sent (log st)))) = true ->
  text (api session (sent (log st))) = Some body ->
  items_of (Some body) = inr (JArr (l1 ++ x :: l2)) ->
  Forall inactive l1 ->
  getitem x "productionStatus" = inl e ->
  search_property session property_name st
  = (Stop (Uncaught e),
     State (<["api_search_response" := body]> (result st))
           (log st ++ [Http (search_request property_name)])).
Proof.
  intros Hs Ht Hi H1 Hx.
  assert (He : scan_error x = Some e) by (unfold scan_error; rewrite Hx; reflexivity).
  assert (H1' : Forall scannable l1)
    by (eapply Forall_impl; [exact H1|]; intros y Hy; left; exact Hy).
  destruct (search_property_stops session property_name st body l1 x l2 e
              Hs Ht Hi H1' He) as (r1 & r & E1 & -> & Hr).
  rewrite (Hr Hx). rewrite (for_each_inactive _ _ H1) in E1.
  injection E1 as <-. reflexivity.
Qed.

(** C6, as the code has it.  [search_property] ends with the not-found
    failure only when the reply has an accepted status and an empty
    [versions.items].  On an accepted reply whose item list is not empty
    and holds only items with a production status other than ACTIVE, the
    step returns normally having recorded the reply and nothing else, so
    [propertyId] and [current_version] are as before; and a run that is
    not in check mode then goes on to the creation request with the
    seeded empty strings as property id and source version.  An item
    that carries no production status, after items that are not active,
    ends the step there in the uncaught lookup exception, with the
    identifiers untouched; the run ends with it, having sent the search
    request and nothing else. *)
Theorem locate_without_active
    (session : world) (property_name : string) (st : state) :
  let reply := api session (sent (log st)) in
  let out := search_property session property_name st in
  let recorded body :=
    State (<["api_search_response" := body]> (result st))
          (log st ++ [Http (search_request property_name)]) in
  (forall kw,
     out.1 = Stop (FailJson not_found_msg kw) ->
     status_ok (status_code reply) = true
     /\ exists i, items_of (text reply) = inr i /\ truthy i = false
                   /\ forall l, i = JArr l -> l = [])
  /\ (forall body l,
     status_ok (status_code reply) = true ->
     text reply = Some body ->
     items_of (Some body) = inr (JArr l) ->
     l <> [] ->
     Forall inactive l ->
     out = (Ret tt, recorded body)
     /\ result out.2 !! "propertyId" = result st !! "propertyId"
     /\ result out.2 !! "current_version" = result st !! "current_version")
  /\ (forall module fuel body l,
     check_mode module = false ->
     status_ok (status_code (api session 0)) = true ->
     text (api session 0) = Some body ->
     items_of (Some body) = inr (JArr l) ->
     l <> [] ->
     Forall inactive l ->
     exists rest,
       log (run module session fuel).2
       = locate_event module :: fork_event (JStr "") (JStr "") :: rest)
  /\ (forall body l1 x l2 e,
     status_ok (status_code reply) = true ->
     text reply = Some body ->
     items_of (Some body) = inr (JArr (l1 ++ x :: l2)) ->
     Forall inactive l1 ->
     getitem x "productionStatus" = inl e ->
     out = (Stop (Uncaught e), recorded body)
     /\ (e = KeyError "productionStatus" \/ e = TypeError)
     /\ result out.2 !! "propertyId" = result st !! "propertyId"
     /\ result out.2 !! "current_version" = result st !! "current_version")
  /\ (forall module fuel body l1 x l2 e,
     check_mode module = false ->
     status_ok (status_code (api session 0)) = true ->
     text (api session 0) = Some body ->
     items_of (Some body) = inr (JArr (l1 ++ x :: l2)) ->
     Forall inactive l1 ->
     getitem x "productionStatus" = inl e ->
     run module session fuel
     = (Stop (Uncaught e),
        State (<["api_search_response" := body]> seed) [locate_event module])).
Proof.
  intros reply out recorded. subst out recorded.
  split; [|split; [|split; [|split]]].
  - intros kw E.
    destruct (search_property_spec session property_name st)
      as (o & r & E' & _ & _ & Hh).
    rewrite E' in E. simpl in E. subst o.
    destruct (Hh _ eq_refl) as (_ & l & rq & Hl & _ & Hr).
    cbn [log] in Hl. apply app_inj_tail in Hl as [<- _].
    destruct Hr as [[Hm _]|(_ & Hs & i & Hi & Ht)]; [discriminate Hm|].
    split; [exact Hs|]. exists i. split; [exact Hi|]. split; [exact Ht|].
    intros l ->. destruct l; [reflexivity|discriminate Ht].
  - intros body l Hs Ht Hi Hne Hl.
    rewrite (search_property_inactive session property_name st body l Hs Ht Hi Hne Hl).
    split; [reflexivity|]. cbn [snd result].
    split; rewrite lookup_insert_ne by discriminate; reflexivity.
  - intros module fuel body l Hc Hs Ht Hi Hne Hl.
    pose proof (search_property_inactive session (name (params module))
                  (State seed []) body l Hs Ht Hi Hne Hl) as E.
    assert (Hpc : forall pid cv, discovered module session pid cv ->
                    pid = JStr "" /\ cv = JStr "").
    { intros pid cv (_ & H1 & H2). rewrite E in H1, H2. cbn [snd result] in H1, H2.
      rewrite lookup_insert_ne in H1 by discriminate.
      rewrite lookup_insert_ne in H2 by discriminate.
      split; [injection H1 as <-|injection H2 as <-]; reflexivity. }
    pose proof (run_has_shape module session fuel Hc) as H. unfold shape_of in H.
    destruct H as
      [h r Hsr Hh Hch
      |h r pid cv Hd Hlo Hh Hch
      |h r pid cv ver tail Hd Hlo Hf Htl Hh
      |h r pid cv ver b tail Hstg Hd Hlo Hf Hp Hh
      |h r pid cv ver b stg tail Hprd Hd Hlo Hf Hsd Hp Hh
      |r pid cv ver b stg prd Hd Hlo Hf Hsd Hp]; cbn [log];
      try (destruct (Hpc pid cv Hd) as [-> ->]; eexists; norm_list; reflexivity).
    rewrite E in Hsr. discriminate Hsr.
  - intros body l1 x l2 e Hs Ht Hi H1 Hx.
    rewrite (search_property_unmarked session property_name st body l1 x l2 e
               Hs Ht Hi H1 Hx).
    split; [reflexivity|]. split; [apply (getitem_error _ _ _ Hx)|].
    cbn [snd result]. split; rewrite lookup_insert_ne by discriminate; reflexivity.
  - intros module fuel body l1 x l2 e Hc Hs Ht Hi H1 Hx.
    pose proof (search_property_unmarked session (name (params module))
                  (State seed []) body l1 x l2 e Hs Ht Hi H1 Hx) as E.
    unfold run, run_module.
    unfold bind at 1. cbn [boot log result].
    unfold bind at 1. rewrite Hc. unfold when at 1, ret at 1.
    unfold bind at 1. rewrite E. reflexivity.
Qed.

(** C6 as stated fails on a non-empty list none of whose items is
    ACTIVE because its one item carries no production status: the step
    ends in an uncaught KeyError and the run never sends the creation
    request. *)
Lemma locate_unmarked_item_stops :
  run demo_module bare_world 10
    = (Stop (Uncaught (KeyError "productionStatus")),
       State (<["api_search_response" := items_doc [bare_item]]> seed)
             [locate_event demo_module])
  /\ ~ proceeds_as_claimed demo_module bare_world 10.
Proof.
  split; [vm_compute; reflexivity|].
  intros H.
  destruct (H (items_doc [bare_item]) [bare_item] eq_refl eq_refl eq_refl)
    as (F & _).
  - discriminate.
  - constructor; [discriminate|constructor].
  - vm_compute in F. discriminate F.
Qed.

(** ** The version an activation asks for *)

Lemma asks_version_poll ver e : poll_event e -> asks_version ver e.
Proof.
  intros He pid b ->. simpl in He. contradiction.
Qed.

Lemma asks_version_polls ver l : Forall poll_event l -> Forall (asks_version ver) l.
Proof.
  intros H. eapply Forall_impl; [exact H|]. intros e. apply asks_version_poll.
Qed.

Lemma asks_version_applied ver' module pid cv ver b :
  Forall (asks_version ver') (applied module pid cv ver b).
Proof.
  unfold applied. repeat constructor; intros p0 b0 E; discriminate E.
Qed.

Lemma asks_version_activate module network pid ver :
  asks_version ver (activate_event module network pid ver).
Proof.
  intros p0 b0 E. unfold activate_event, activation_request in E.
  injection E as _ <-. reflexivity.
Qed.

Lemma asks_version_done module session requested network pid ver before part :
  activation_done module session requested network pid ver before part ->
  Forall (asks_version ver) part.
Proof.
  unfold activation_done. destruct requested.
  - intros (tail & -> & Hp & _). constructor.
    + apply asks_version_activate.
    + apply asks_version_polls, Hp.
  - intros ->. constructor.
Qed.

(** Whatever a run that got past the fork has logged asks for the
    forked version; a run that did not has logged no activation. *)
Lemma shape_activations module session o st :
  run_shape module session o st ->
  exists ver,
    Forall (asks_version ver) (log st)
    /\ ((exists e, e ∈ log st /\ exists pid b,
           e = Http (Request POST (UrlActivations pid) b)) ->
        forked session (api session 1) ver (result st)
        /\ exists pid cv rest,
             log st = locate_event module :: fork_event pid cv :: rest).
Proof.
  intros H. destruct H as
    [h r Hs Hh Hc
    |h r pid cv Hd Hl Hh Hc
    |h r pid cv ver tail Hd Hl Hf Ht Hh
    |h r pid cv ver b tail Hstg Hd Hl Hf Hp Hh
    |h r pid cv ver b stg tail Hprd Hd Hl Hf Hs Hp Hh
    |r pid cv ver b stg prd Hd Hl Hf Hs Hp]; cbn [log result].
  - exists EmptyString. split.
    + repeat constructor; intros p0 b0 E; discriminate E.
    + intros (e & He & p0 & b0 & ->). exfalso.
      apply list_elem_of_In in He. simpl in He.
      destruct He as [E|[]]. discriminate E.
  - exists EmptyString. split.
    + repeat constructor; intros p0 b0 E; discriminate E.
    + intros (e & He & p0 & b0 & ->). exfalso.
      apply list_elem_of_In in He. simpl in He.
      destruct He as [E|[E|[]]]; discriminate E.
  - exists ver. split.
    + destruct Ht as [->|(b & ->)]; repeat constructor; intros p0 b0 E; discriminate E.
    + intros _. split; [exact Hf|]. eexists _, _, _. norm_list. reflexivity.
  - exists ver. split.
    + apply Forall_app. split; [apply asks_version_applied|].
      constructor; [apply asks_version_activate|apply asks_version_polls, Hp].
    + intros _. split; [exact Hf|]. eexists _, _, _. norm_list. reflexivity.
  - exists ver. split.
    + apply Forall_app. split; [apply asks_version_applied|].
      apply Forall_app. split; [eapply asks_version_done; exact Hs|].
      constructor; [apply asks_version_activate|apply asks_version_polls, Hp].
    + intros _. split; [exact Hf|]. eexists _, _, _. norm_list. reflexivity.
  - exists ver. split.
    + apply Forall_app. split; [apply asks_version_applied|].
      apply Forall_app. split; eapply asks_version_done; eassumption.
    + intros _. split; [exact Hf|]. eexists _, _, _. norm_list. reflexivity.
Qed.

(** C8. Every activation request a run sends carries, as its
    [propertyVersion], the version announced by the accepted reply to
    the creation request of that same run (the second request of the run,
    after the search). *)
Theorem activation_requests_created_version
    (module : AnsibleModule) (session : world) (fuel : nat)
    (property_id : json) (b : option json) :
  Http (Request POST (UrlActivations property_id) b)
    ∈ log (run module session fuel).2 ->
  exists ver pid cv rest,
    log (run module session fuel).2
      = locate_event module :: fork_event pid cv :: rest
    /\ status_ok (status_code (api session 1)) = true
    /\ created_version session (api session 1) = Some ver
    /\ result (run module session fuel).2 !! "new_version" = Some (JStr ver)
    /\ field b "propertyVersion" = JStr ver.
Proof.
  intros Hin. destruct (check_mode module) eqn:Hc.
  { destruct module as [p c]. simpl in Hc. subst c.
    rewrite run_check_mode in Hin. simpl in Hin. inversion Hin. }
  pose proof (run_has_shape module session fuel Hc) as H. unfold shape_of in H.
  destruct (shape_activations _ _ _ _ H) as (ver & Hall & Hex).
  destruct Hex as ((Hs & Hv & Hnv & _) & pid & cv & rest & E).
  { eexists. split; [exact Hin|]. eexists _, _. reflexivity. }
  exists ver, pid, cv, rest. repeat split; try assumption.
  rewrite Forall_forall in Hall. apply (Hall _ Hin property_id b). reflexivity.
Qed.

(** ** Instances at sample inputs *)

(** C5 as stated fails on a search reply with an accepted status and a
    body without [versions]: the validator neither succeeds nor fails
    with one of its two messages, it lets the KeyError escape. *)
Lemma validator_lookup_escapes :
  error_handling (Response 200 (Some (JObj []))) "search" boot
    = (Stop (Uncaught (KeyError "versions")), boot)
  /\ ~ three_way_validator (Response 200 (Some (JObj []))) "search" boot.
Proof.
  split; [reflexivity|].
  intros (_ & _ & H).
  assert (E : (error_handling (Response 200 (Some (JObj []))) "search" boot).1 = Ret tt).
  { apply H; [reflexivity|]. intros [_ E]. discriminate E. }
  discriminate E.
Qed.

Lemma error_handling_cases_witness :
  error_handling (Response 500 None) "create" boot
    = (Stop (FailJson transport_msg (result boot)), boot)
  /\ error_handling (Response 204 None) "update" boot = (Ret tt, boot)
  /\ error_handling (Response 200 (Some (items_doc []))) "search" boot
     = (Stop (FailJson not_found_msg (result boot)), boot)
  /\ error_handling (Response 200 (Some (items_doc [demo_item "ACTIVE" 5]))) "search" boot
     = (Ret tt, boot)
  /\ error_handling (Response 200 (Some (JObj []))) "search" boot
     = (Stop (Uncaught (KeyError "versions")), boot).
Proof.
  split; [|split; [|split; [|split]]].
  - apply (proj1 (error_handling_cases (Response 500 None) "create" boot)).
    reflexivity.
  - apply (proj1 (proj2 (error_handling_cases (Response 204 None) "update" boot)));
      [reflexivity|discriminate].
  - apply (proj1 (proj2 (proj2
             (error_handling_cases (Response 200 (Some (items_doc []))) "search" boot)))
             (JArr [])); reflexivity.
  - apply (proj1 (proj2 (proj2 (proj2
             (error_handling_cases
                (Response 200 (Some (items_doc [demo_item "ACTIVE" 5]))) "search" boot))))
             (JArr [demo_item "ACTIVE" 5])); reflexivity.
  - apply (proj1 (proj2 (proj2 (proj2 (proj2
             (error_handling_cases (Response 200 (Some (JObj []))) "search" boot)))))
             (KeyError "versions")); reflexivity.
Defined.

Lemma check_mode_short_circuit_witness :
  check_mode (Module_ (Parameters "demo" "n" true true) true) = true
  /\ (run (Module_ (Parameters "demo" "n" true true) true) demo_world 10).1
     = Stop (ExitJson seed)
  /\ log (run (Module_ (Parameters "demo" "n" true true) true) demo_world 10).2 = [].
Proof.
  split; [reflexivity|].
  pose proof (check_mode_short_circuit
                (Module_ (Parameters "demo" "n" true true) true) demo_world 10 eq_refl)
    as H.
  split; [exact (proj1 H)|exact (proj1 (proj2 (proj2 H)))].
Defined.

Lemma orchestrator_sequence_witness :
  check_mode demo_module = false
  /\ (exists rest,
        log (run demo_module demo_world 10).2 = locate_event demo_module :: rest)
  /\ (exists h, (run demo_module demo_world 10).1 = Stop h)
  /\ exists pid cv ver,
       steps (log (run demo_module demo_world 10).2)
         `prefix_of` plan demo_module pid cv ver.
Proof.
  split; [reflexivity|].
  pose proof (orchestrator_sequence demo_module demo_world 10 eq_refl) as H.
  destruct H as (_ & _ & H3 & H4 & _ & H6 & _).
  split; [exact H3|]. split; [exact H6|].
  destruct H4 as (pid & cv & ver & Hp & _). exists pid, cv, ver. exact Hp.
Defined.

Lemma polling_loop_witness :
  joined polling_world (JStr "/atv_1") = inr (UrlLink "/atv_1")
  /\ poll polling_world 5 (JStr "/atv_1") boot
     = (Ret tt,
        State (result boot)
          (log boot ++ [fetch (UrlLink "/atv_1"); Sleep 10;
                        fetch (UrlLink "/atv_1"); Sleep 10;
                        fetch (UrlLink "/atv_1")]))
  /\ poll stuck_world 7 (JStr "/atv_1") boot
     = (Stop Running,
        State (result boot) (log boot ++ polling (UrlLink "/atv_1") 7)).
Proof.
  split; [reflexivity|]. split.
  - apply (proj1 (proj2 (proj2
             (polling_loop polling_world (JStr "/atv_1") (UrlLink "/atv_1") boot eq_refl)))
             5%nat (status_doc "PENDING") (status_doc "PENDING") (status_doc "ACTIVE"));
      try reflexivity. simpl. lia.
  - apply (proj2 (proj2 (proj2
             (polling_loop stuck_world (JStr "/atv_1") (UrlLink "/atv_1") boot eq_refl)))).
    intros i. reflexivity.
Defined.

Lemma fork_extracts_version_witness :
  create_new_property_version demo_world (JStr "prp_1") (JNum 5)
    (State seed [Http (search_request "demo")])
  = fork_done (JStr "prp_1") (JNum 5) (State seed [Http (search_request "demo")])
      (JObj [("versionLink",
              JStr "/papi/v1/properties/prp_1/versions/6?contractId=ctr_1")])
      "6"
  /\ create_new_property_version (link_world "x/٣?a") (JStr "prp_1") (JNum 5) boot
     = fork_done (JStr "prp_1") (JNum 5) boot
         (JObj [("versionLink", JStr "x/٣?a")]) "٣"
  /\ create_new_property_version (link_world "/papi/v1/properties/prp_1/versions/6?")
       (JStr "prp_1") (JNum 5) boot
     = fork_raised (JStr "prp_1") (JNum 5) boot
         (JObj [("versionLink", JStr "/papi/v1/properties/prp_1/versions/6?")])
         IndexError.
Proof.
  split; [|split].
  - pose proof (fork_extracts_version demo_world (JStr "prp_1") (JNum 5)
                  (State seed [Http (search_request "demo")])) as (H1 & H2 & _).
    apply (H1 (JObj [("versionLink",
                      JStr "/papi/v1/properties/prp_1/versions/6?contractId=ctr_1")])
              "/papi/v1/properties/prp_1/versions" "6" "contractId=ctr_1");
      try reflexivity; try discriminate.
    apply H2. reflexivity.
  - pose proof (fork_extracts_version (link_world "x/٣?a") (JStr "prp_1") (JNum 5) boot)
      as (H1 & H2 & _).
    apply (H1 (JObj [("versionLink", JStr "x/٣?a")]) "x" "٣" "a");
      try reflexivity; try discriminate.
    apply H2. reflexivity.
  - pose proof (fork_extracts_version
                  (link_world "/papi/v1/properties/prp_1/versions/6?")
                  (JStr "prp_1") (JNum 5) boot) as (_ & _ & _ & H4 & _).
    apply (H4 (JObj [("versionLink", JStr "/papi/v1/properties/prp_1/versions/6?")])
              "/papi/v1/properties/prp_1/versions/6?"); try reflexivity.
    apply no_version_by_findall. reflexivity.
Defined.

Lemma locate_last_active_wins_witness :
  ((search_property demo_world "demo" boot).1 = Ret tt
   /\ result (search_property demo_world "demo" boot).2 !! "propertyId"
      = Some (JStr "prp_1")
   /\ result (search_property demo_world "demo" boot).2 !! "current_version"
      = Some (JNum 5))
  /\ (search_property bare_first_world "demo" boot).1
     = Stop (Uncaught (KeyError "productionStatus")).
Proof.
  split.
  - destruct (locate_last_active_wins demo_world "demo" boot
                (items_doc [demo_item "INACTIVE" 4; demo_item "ACTIVE" 5])
                eq_refl eq_refl) as (H1 & _).
    apply (proj2 (H1 [demo_item "INACTIVE" 4] (demo_item "ACTIVE" 5) []
                     (JStr "prp_1") (JNum 5) eq_refl
                     (conj eq_refl (conj eq_refl eq_refl))
                     ltac:(constructor))).
    constructor; [reflexivity|constructor].
  - destruct (locate_last_active_wins bare_first_world "demo" boot
                (items_doc [bare_item; demo_item "ACTIVE" 5])
                eq_refl eq_refl) as (_ & H2 & _).
    apply (H2 [] bare_item [demo_item "ACTIVE" 5] (KeyError "productionStatus")
              eq_refl ltac:(constructor) eq_refl).
Defined.

Lemma locate_without_active_witness :
  (status_ok (status_code (api empty_world 0)) = true
   /\ exists i, items_of (text (api empty_world 0)) = inr i /\ truthy i = false
                 /\ forall l, i = JArr l -> l = [])
  /\ search_property inactive_world "demo" boot
     = (Ret tt,
        State (<["api_search_response" := items_doc [demo_item "INACTIVE" 4]]>
                 (result boot))
              (log boot ++ [Http (search_request "demo")]))
  /\ (exists rest,
       log (run demo_module inactive_world 10).2
       = locate_event demo_module :: fork_event (JStr "") (JStr "") :: rest)
  /\ run demo_module bare_world 10
     = (Stop (Uncaught (KeyError "productionStatus")),
        State (<["api_search_response" := items_doc [bare_item]]> seed)
              [locate_event demo_module]).
Proof.
  split; [|split; [|split]].
  - apply (proj1 (locate_without_active empty_world "demo" boot)
             (<["api_search_response" := items_doc []]> (result boot))).
    reflexivity.
  - apply (proj1 (proj2 (locate_without_active inactive_world "demo" boot))
             (items_doc [demo_item "INACTIVE" 4]) [demo_item "INACTIVE" 4]);
      try reflexivity; [discriminate|].
    constructor; [reflexivity|constructor].
  - apply (proj1 (proj2 (proj2 (locate_without_active inactive_world "demo" boot)))
             demo_module 10%nat
             (items_doc [demo_item "INACTIVE" 4]) [demo_item "INACTIVE" 4]);
      try reflexivity; [discriminate|].
    constructor; [reflexivity|constructor].
  - apply (proj2 (proj2 (proj2 (proj2 (locate_without_active bare_world "demo" boot))))
             demo_module 10%nat (items_doc [bare_item]) [] bare_item []
             (KeyError "productionStatus"));
      try reflexivity. constructor.
Defined.

Lemma activation_requests_created_version_witness :
  Http (activation_request demo_module (JStr "prp_1") "STAGING" (JStr "6"))
    ∈ log (run demo_module demo_world 10).2
  /\ exists ver,
       created_version demo_world (api demo_world 1) = Some ver
       /\ field (Some (activation_body demo_module "STAGING" (JStr "6")))
            "propertyVersion" = JStr ver.
Proof.
  assert (Hin : Http (activation_request demo_module (JStr "prp_1") "STAGING" (JStr "6"))
                  ∈ log (run demo_module demo_world 10).2).
  { apply list_elem_of_In. vm_compute. do 4 right. left. reflexivity. }
  split; [exact Hin|].
  destruct (activation_requests_created_version demo_module demo_world 10
              (JStr "prp_1") (Some (activation_body demo_module "STAGING" (JStr "6")))
              Hin) as (ver & _ & _ & _ & _ & _ & Hv & _ & Hf).
  exists ver. split; assumption.
Defined.

Lemma update_property_contract_witness :
  update_property demo_module no_files "demo" (JStr "prp_1") (JStr "6") after_fork
    = (Stop (Uncaught (FileNotFoundError "./ruletree/demo.ruletree.json")),
       State (result after_fork)
         (log after_fork ++ [Open "./ruletree/demo.ruletree.json"]))
  /\ update_property demo_module list_ruletree "demo" (JStr "prp_1") (JStr "6")
       after_fork
     = (Stop (Uncaught TypeError),
        State (result after_fork)
          (log after_fork ++ [Open "./ruletree/demo.ruletree.json"]))
  /\ (update_property demo_module demo_world "demo" (JStr "prp_1") (JStr "6")
        after_fork).2
     = State (result after_fork)
         (log after_fork
            ++ [Open "./ruletree/demo.ruletree.json";
                Http (Request PUT (UrlRules (JStr "prp_1") (JStr "6"))
                        (Some (JObj [("rules", JObj []); ("comments", JStr "n")])))])
  /\ (update_property demo_module demo_world "demo" (JStr "prp_1") (JStr "6")
        after_fork).1 = Ret tt.
Proof.
  split; [|split; [|split]].
  - apply (proj1 (update_property_contract demo_module no_files "demo"
                    (JStr "prp_1") (JStr "6") after_fork)).
    reflexivity.
  - apply (proj1 (proj2 (proj2 (update_property_contract demo_module list_ruletree
                                  "demo" (JStr "prp_1") (JStr "6") after_fork)))
             (JArr [])); [reflexivity|]. intros kv. discriminate.
  - destruct (proj1 (proj2 (proj2 (proj2
                (update_property_contract demo_module demo_world "demo"
                   (JStr "prp_1") (JStr "6") after_fork))))
                [("rules", JObj [])] eq_refl) as (_ & _ & Hl & _).
    exact Hl.
  - destruct (proj1 (proj2 (proj2 (proj2
                (update_property_contract demo_module demo_world "demo"
                   (JStr "prp_1") (JStr "6") after_fork))))
                [("rules", JObj [])] eq_refl) as (_ & _ & _ & _ & _ & Hr).
    apply Hr; [discriminate|reflexivity].
Defined.

Lemma decode_before_validate_witness :
  text (api garbled_world (sent (log after_fork))) = None
  /\ status_ok (status_code (api garbled_world (sent (log after_fork)))) = false
  /\ (search_property garbled_world "demo" after_fork).1
     = Stop (Uncaught JSONDecodeError)
  /\ (create_new_property_version garbled_world (JStr "prp_1") (JNum 5) after_fork).1
     = Stop (Uncaught JSONDecodeError)
  /\ (update_property demo_module garbled_world "demo" (JStr "prp_1") (JStr "6")
        after_fork).1
     = Stop (Uncaught JSONDecodeError)
  /\ (activate_property demo_module garbled_world 3 (JStr "prp_1") "STAGING"
        after_fork).1
     = Stop (Uncaught JSONDecodeError)
  /\ exists kw,
       (create_new_property_version rejecting_world (JStr "prp_1") (JNum 5)
          after_fork).1
       = Stop (FailJson transport_msg kw).
Proof.
  split; [reflexivity|]. split; [reflexivity|].
  pose proof (decode_before_validate demo_module garbled_world after_fork
                "demo" "STAGING" (JStr "prp_1") (JNum 5) 3) as H.
  destruct (proj1 H eq_refl) as (H1 & H2 & _ & _).
  pose proof (decode_before_validate demo_module garbled_world after_fork
                "demo" "STAGING" (JStr "prp_1") (JStr "6") 3) as H'.
  destruct (proj1 H' eq_refl) as (_ & _ & H3 & H4).
  split; [exact H1|]. split; [exact H2|].
  split; [exact (H3 [("rules", JObj [])] eq_refl)|].
  split; [exact (H4 (JStr "6") eq_refl)|].
  pose proof (decode_before_validate demo_module rejecting_world after_fork
                "demo" "STAGING" (JStr "prp_1") (JNum 5) 3) as H''.
  exact (proj1 (proj2 (proj2 H'' (JObj []) eq_refl eq_refl))).
Defined.

(** ** Sample runs, evaluated *)

Example findall_sample :
  re_findall sample_decimal version_pattern
    "/papi/v1/properties/prp_173136/versions/2?contractId=ctr_1&groupId=grp_2"
  = ["2"].
Proof. reflexivity. Qed.

Example findall_no_query :
  re_findall sample_decimal version_pattern "/papi/v1/properties/prp_1/versions/6?" = [].
Proof. reflexivity. Qed.

Example findall_two_lines :
  re_findall sample_decimal version_pattern ("x/1?a" +:+ String "010" "y/2?b")
  = ["1"; "2"].
Proof. reflexivity. Qed.

(** Digits beyond ASCII, and a character of two bytes before the slash;
    a superscript two is no decimal digit. *)
Example findall_beyond_ascii :
  re_findall sample_decimal version_pattern "é/٤٢?a" = ["٤٢"]
  /\ chars "é/٤٢?a" = ["é"; "/"; "٤"; "٢"; "?"; "a"]
  /\ re_findall sample_decimal version_pattern "x/５?a" = ["５"]
  /\ re_findall sample_decimal version_pattern "x/²?a" = [].
Proof. repeat split; reflexivity. Qed.

(** Staging only, version 5 active on production: one creation from
    version 5, one rule update, one activation on STAGING, and a result
    with [current_version = 5], [new_version = "6"], [changed = true]. *)
Example demo_run :
  let out := run demo_module demo_world 10 in
  steps (log out.2)
  = [Locate (JStr "demo");
     Fork (JStr "prp_1") (JNum 5);
     Apply (JStr "prp_1") (JStr "6");
     Activate (JStr "STAGING") (JStr "prp_1") (JStr "6")]
  /\ sent (log out.2) = 7%nat
  /\ out.1 = Stop (ExitJson (result out.2))
  /\ result out.2 !! "current_version" = Some (JNum 5)
  /\ result out.2 !! "new_version" = Some (JStr "6")
  /\ result out.2 !! "changed" = Some (JBool true)
  /\ result out.2 !! "api_update_response" = None.
Proof. repeat split; vm_compute; reflexivity. Qed.

(** An empty search: the not-found failure, and nothing after the
    search request. *)
Example empty_search_run :
  let out := run demo_module empty_world 10 in
  steps (log out.2) = [Locate (JStr "demo")]
  /\ out.1 = Stop (FailJson not_found_msg (result out.2))
  /\ result out.2 !! "propertyId" = Some (JStr "")
  /\ result out.2 !! "new_version" = Some (JStr "").
Proof. repeat split; vm_compute; reflexivity. Qed.

(** A staging activation that is aborted remotely: the run is still
    polling when the fuel is spent. *)
Example stuck_poll :
  (poll stuck_world 4 (JStr "/atv_1") boot).1 = Stop Running
  /\ sent (log (poll stuck_world 4 (JStr "/atv_1") boot).2) = 4%nat.
Proof. split; reflexivity. Qed.

(** * Further properties of the module *)

(** ** What the version pattern captures *)

Lemma segment_digits_whole dec link u x ds y v :
  chars link = u ++ segment x ds y ++ v ->
  segment_ok dec x ds y ->
  numeral dec (glue ds).
Proof.
  intros E (_ & Hne & Hd & _).
  assert (Hw : Forall (fun c => chars c = [c]) ds).
  { pose proof (chars_whole link) as H. rewrite E in H.
    apply Forall_app in H as [_ H]. unfold segment in H.
    apply Forall_app in H as [H _].
    apply Forall_cons in H as [_ H]. apply Forall_cons in H as [_ H].
    apply Forall_app in H as [H _]. exact H. }
  pose proof (chars_glue ds Hw (digits_whole dec ds Hd)) as Hc.
  split.
  - intros F. rewrite F in Hc. simpl in Hc. congruence.
  - unfold digits. rewrite Hc. exact Hd.
Qed.

Lemma findall_numerals dec link :
  Forall (numeral dec) (re_findall dec version_pattern link).
Proof.
  unfold re_findall.
  eapply Forall_impl;
    [apply (findall_from_sound dec (S (length (chars link))) (chars link))|].
  intros g (u & x & ds & y & v & E & Hok & ->).
  apply (segment_digits_whole dec link u x ds y v E Hok).
Qed.

(** ** Properties of [result] kept along a run *)

Lemma preserves_bind (P : dict -> Prop) {A B} (m : M A) (f : A -> M B) :
  preserves P m -> (forall a, preserves P (f a)) -> preserves P (bind m f).
Proof.
  intros Hm Hf st HP. unfold bind.
  specialize (Hm st HP). destruct (m st) as [[a|h] st']; simpl in *.
  - apply Hf, Hm.
  - exact Hm.
Qed.

Lemma preserves_same (P : dict -> Prop) {A} (m : M A) :
  (forall st, result (m st).2 = result st) -> preserves P m.
Proof. intros H st HP. rewrite H. exact HP. Qed.

Lemma preserves_when (P : dict -> Prop) b (m : M unit) :
  preserves P m -> preserves P (when b m).
Proof.
  intros H. destruct b; [exact H|]. apply preserves_same. reflexivity.
Qed.

Lemma preserves_get_result (P : dict -> Prop) k : preserves P (get_result k).
Proof.
  apply preserves_same. intros st. unfold get_result.
  destruct (result st !! k); reflexivity.
Qed.

(** A property of [result] that holds of the seed and that each of the
    four steps keeps holds at the end of every run. *)
Lemma run_invariant (P : dict -> Prop) module session fuel :
  P seed ->
  (forall n, preserves P (search_property session n)) ->
  (forall pid v, preserves P (create_new_property_version session pid v)) ->
  (forall pid network, preserves P (activate_property module session fuel pid network)) ->
  P (result (run module session fuel).2).
Proof.
  intros Hseed Hsearch Hcreate Hact.
  assert (Hupd : forall n pid v, preserves P (update_property module session n pid v)).
  { intros n pid v. apply preserves_same. intros st. apply update_property_result. }
  unfold run, run_module. unfold bind at 1. cbn [boot log].
  match goal with |- P (result (?m ?s).2) =>
    assert (G : preserves P m); [|apply (G s); exact Hseed] end.
  apply preserves_bind; [apply preserves_when, preserves_same; reflexivity|intros _].
  apply preserves_bind; [apply Hsearch|intros _].
  apply preserves_bind; [apply preserves_get_result|intros pid].
  apply preserves_bind; [apply preserves_get_result|intros cv].
  apply preserves_bind; [apply Hcreate|intros _].
  apply preserves_bind; [apply preserves_get_result|intros pid'].
  apply preserves_bind; [apply preserves_get_result|intros nv].
  apply preserves_bind; [apply Hupd|intros _].
  apply preserves_bind.
  { apply preserves_when, preserves_bind; [apply preserves_get_result|intros p].
    apply Hact. }
  intros _. apply preserves_bind.
  { apply preserves_when, preserves_bind; [apply preserves_get_result|intros p].
    apply Hact. }
  intros _. apply preserves_bind; [|intros _; apply preserves_same; reflexivity].
  apply preserves_when, preserves_same. reflexivity.
Qed.

Lemma search_property_preserves_key session n k v :
  k <> "api_search_response" -> k <> "current_version" -> k <> "propertyId" ->
  preserves (fun r => r !! k = v) (search_property session n).
Proof.
  intros H1 H2 H3 st HP. rewrite search_property_keeps by assumption. exact HP.
Qed.

Lemma create_new_property_version_keeps session pid v st k :
  k <> "api_creation_response" -> k <> "new_version" -> k <> "changed" ->
  result (create_new_property_version session pid v st).2 !! k = result st !! k.
Proof.
  intros H1 H2 H3.
  destruct (create_new_property_version_spec session pid v st) as (o & r & -> & Hfr & _).
  apply Hfr; assumption.
Qed.

Lemma run_keeps module session fuel k :
  k <> "api_search_response" -> k <> "current_version" -> k <> "propertyId" ->
  k <> "api_creation_response" -> k <> "new_version" -> k <> "changed" ->
  k <> "api_activation_response" ->
  result (run module session fuel).2 !! k = seed !! k.
Proof.
  intros H1 H2 H3 H4 H5 H6 H7.
  apply (run_invariant (fun r => r !! k = seed !! k)); [reflexivity| | |].
  - intros n. apply search_property_preserves_key; assumption.
  - intros pid v st HP. rewrite create_new_property_version_keeps by assumption. exact HP.
  - intros pid network st HP. rewrite activate_property_keeps by assumption. exact HP.
Qed.

Lemma created_version_numeral session reply ver :
  created_version session reply = Some ver -> numeral (decimal session) ver.
Proof.
  unfold created_version.
  destruct (text reply) as [body|]; [|discriminate].
  destruct (getitem body "versionLink") as [e|link]; [discriminate|].
  destruct link as [| | |link| |]; try discriminate.
  pose proof (findall_numerals (decimal session) link) as Hg.
  destruct (re_findall (decimal session) version_pattern link) as [|g rest]; [discriminate|].
  intros [= <-]. apply Forall_cons in Hg as [Hg _]. exact Hg.
Qed.

Lemma create_new_property_version_numeral session pid v st :
  (create_new_property_version session pid v st).1 = Ret tt ->
  exists ds,
    result (create_new_property_version session pid v st).2 !! "new_version"
    = Some (JStr ds)
    /\ numeral (decimal session) ds.
Proof.
  destruct (create_new_property_version_spec session pid v st)
    as (o & r & E & _ & _ & Hf).
  rewrite E. cbn [fst snd result]. intros ->.
  destruct (Hf eq_refl) as (ver & _ & Hc & Hnv & _).
  exists ver. split; [exact Hnv|]. apply (created_version_numeral _ _ _ Hc).
Qed.

(** X1. Group 1 of every match of the version pattern is a non-empty
    string of decimal digits, in ASCII or beyond as the Unicode table of
    the interpreter has them.  So whenever the fork step returns
    normally it has set [new_version] to such a numeral, and at the end
    of every run [new_version] is either the seeded empty string or such
    a numeral. *)
Theorem new_version_is_numeral :
  (forall dec s, Forall (numeral dec) (re_findall dec version_pattern s))
  /\ (forall session pid v st,
        (create_new_property_version session pid v st).1 = Ret tt ->
        exists ds,
          result (create_new_property_version session pid v st).2 !! "new_version"
          = Some (JStr ds)
          /\ numeral (decimal session) ds)
  /\ (forall module session fuel,
        exists ds,
          result (run module session fuel).2 !! "new_version" = Some (JStr ds)
          /\ (ds = EmptyString \/ numeral (decimal session) ds)).
Proof.
  split; [|split].
  - intros dec s. apply findall_numerals.
  - apply create_new_property_version_numeral.
  - intros module session fuel.
    apply (run_invariant
             (fun r => exists ds, r !! "new_version" = Some (JStr ds)
                                  /\ (ds = EmptyString
                                      \/ numeral (decimal session) ds))).
    + exists EmptyString. split; [reflexivity|left; reflexivity].
    + intros n st (ds & H & Hd). exists ds. split; [|exact Hd].
      rewrite search_property_keeps by discriminate. exact H.
    + intros pid v st (ds & H & Hd).
      destruct (create_new_property_version_spec session pid v st)
        as (o & r & E & _ & Hh & Hf).
      rewrite E. cbn [snd result]. destruct o as [[]|h].
      * destruct (Hf eq_refl) as (ver & _ & Hc & Hnv & _).
        exists ver. split; [exact Hnv|right; apply (created_version_numeral _ _ _ Hc)].
      * destruct (Hh h eq_refl) as (_ & _ & Hnv). exists ds.
        split; [rewrite Hnv; exact H|exact Hd].
    + intros pid network st (ds & H & Hd). exists ds. split; [|exact Hd].
      rewrite activate_property_keeps by discriminate. exact H.
Qed.

Lemma new_version_is_numeral_witness :
  (create_new_property_version (link_world "x/٣?a") (JStr "prp_1") (JNum 5) boot).1
    = Ret tt
  /\ exists ds,
       result (create_new_property_version (link_world "x/٣?a") (JStr "prp_1")
                 (JNum 5) boot).2 !! "new_version"
       = Some (JStr ds)
       /\ numeral sample_decimal ds.
Proof.
  split; [reflexivity|].
  apply (proj1 (proj2 new_version_is_numeral) (link_world "x/٣?a")). reflexivity.
Defined.

(** X2. Whatever happens in a run, [result] keeps its five seeded
    fields, [failed] stays false (also in what is handed to
    [fail_json]), and no key is ever added besides the three raw replies
    of the search, the creation and the activation: in particular no
    reply of the update and no message. *)
Theorem result_fields (module : AnsibleModule) (session : world) (fuel : nat) :
  let r := result (run module session fuel).2 in
  r !! "failed" = Some (JBool false)
  /\ (forall k, k ∈ ["changed"; "failed"; "propertyId"; "current_version";
                     "new_version"] -> is_Some (r !! k))
  /\ (forall k, k ∉ result_keys -> r !! k = None).
Proof.
  intros r. subst r. split; [|split].
  - rewrite run_keeps by discriminate. reflexivity.
  - intros k Hk.
    apply (run_invariant (fun r => is_Some (r !! k))).
    + repeat (apply elem_of_cons in Hk as [->|Hk]); try (eexists; reflexivity).
      inversion Hk.
    + intros n st H.
      destruct (search_property_spec session n st) as (o & r & -> & _ & Hs & _).
      apply Hs, H.
    + intros pid v st H.
      destruct (create_new_property_version_spec session pid v st)
        as (o & r & E & Hfr & Hh & Hf).
      rewrite E. cbn [snd result].
      destruct (decide (k = "new_version")) as [->|N1];
        [|destruct (decide (k = "changed")) as [->|N2]].
      * destruct o as [[]|h].
        -- destruct (Hf eq_refl) as (ver & _ & _ & Hnv & _). rewrite Hnv. eauto.
        -- destruct (Hh h eq_refl) as (_ & _ & Hnv). rewrite Hnv. exact H.
      * destruct o as [[]|h].
        -- destruct (Hf eq_refl) as (ver & _ & _ & _ & Hch). rewrite Hch. eauto.
        -- destruct (Hh h eq_refl) as (_ & Hch & _). rewrite Hch. exact H.
      * rewrite Hfr; [exact H| |exact N1|exact N2].
        intros ->. repeat (apply elem_of_cons in Hk as [Hk|Hk]); try discriminate Hk.
        inversion Hk.
    + intros pid network st H. rewrite activate_property_keeps; [exact H|].
      intros ->. repeat (apply elem_of_cons in Hk as [Hk|Hk]); try discriminate Hk.
      inversion Hk.
  - intros k Hk. unfold result_keys in Hk.
    rewrite run_keeps.
    + unfold seed. rewrite !lookup_insert_ne; [apply lookup_empty|..];
        intros <-; apply Hk; set_solver.
    + intros ->. apply Hk. set_solver.
    + intros ->. apply Hk. set_solver.
    + intros ->. apply Hk. set_solver.
    + intros ->. apply Hk. set_solver.
    + intros ->. apply Hk. set_solver.
    + intros ->. apply Hk. set_solver.
    + intros ->. apply Hk. set_solver.
Qed.

Lemma result_fields_witness :
  ("api_update_response" ∉ result_keys)
  /\ result (run demo_module demo_world 10).2 !! "api_update_response" = None
  /\ is_Some (result (run demo_module no_files 10).2 !! "propertyId").
Proof.
  assert (H : "api_update_response" ∉ result_keys).
  { unfold result_keys. intros Hin.
    repeat (apply elem_of_cons in Hin as [Hin|Hin]); try discriminate Hin.
    inversion Hin. }
  split; [exact H|]. split.
  - apply (proj2 (proj2 (result_fields demo_module demo_world 10))). exact H.
  - apply (proj1 (proj2 (result_fields demo_module no_files 10))).
    do 2 apply list_elem_of_further. apply list_elem_of_here.
Defined.

(** ** The polling loop beyond the status field *)

Lemma poll_unfold session fuel link st :
  poll session (S fuel) link st
  = match joined session link with
    | inl e => (Stop (Uncaught e), st)
    | inr u =>
        let st1 := State (result st) (log st ++ [fetch u]) in
        match text (api session (sent (log st))) with
        | None => (Stop (Uncaught JSONDecodeError), st1)
        | Some j =>
            match first_status j with
            | inl e => (Stop (Uncaught e), st1)
            | inr s =>
                if py_eq_str s "ACTIVE" then (Ret tt, st1)
                else poll session fuel link
                       (State (result st) ((log st ++ [fetch u]) ++ [Sleep 10]))
            end
        end
    end.
Proof.
  simpl. unfold bind at 1. rewrite urljoin_joined.
  destruct (joined session link) as [e|u]; [reflexivity|].
  unfold bind at 1. unfold send at 1. cbn [result log]. unfold bind at 1.
  destruct (text (api session (sent (log st)))) as [j|]; simpl; [|reflexivity].
  unfold bind at 1.
  destruct (first_status j) as [e|s]; simpl; [reflexivity|].
  destruct (py_eq_str s "ACTIVE"); reflexivity.
Qed.

(** X3. The polling loop never looks at the status code of a status
    reply: against two APIs whose replies have the same bodies it does
    the same, whatever their status codes (the libraries that take or
    refuse the locator being the same).  A reply with status 500 whose
    body says ACTIVE ends the wait as a success. *)
Theorem poll_ignores_status_code
    (session session' : world) (link : json) (fuel : nat) (st : state) :
  (forall n, text (api session n) = text (api session' n)) ->
  (forall s, locator_ok session s = locator_ok session' s) ->
  poll session fuel link st = poll session' fuel link st.
Proof.
  intros H Hl. revert st. induction fuel as [|fuel IH]; intros st; [reflexivity|].
  rewrite !poll_unfold, (H (sent (log st))).
  assert (Hj : joined session link = joined session' link).
  { unfold joined. destruct (negb (truthy link)); [reflexivity|].
    destruct link; try reflexivity. rewrite Hl. reflexivity. }
  rewrite Hj.
  destruct (joined session' link) as [e|u]; [reflexivity|]. cbv zeta.
  destruct (text (api session' (sent (log st)))) as [j|]; [|reflexivity].
  destruct (first_status j) as [e|s]; [reflexivity|].
  destruct (py_eq_str s "ACTIVE"); [reflexivity|]. apply IH.
Qed.

Lemma poll_ignores_status_code_witness :
  (forall n, text (api polling_world n) = text (api failing_status_world n))
  /\ status_code (api failing_status_world 2) = 500
  /\ poll failing_status_world 5 (JStr "/atv_1") boot
     = poll polling_world 5 (JStr "/atv_1") boot
  /\ (poll failing_status_world 5 (JStr "/atv_1") boot).1 = Ret tt.
Proof.
  split; [intros n; reflexivity|]. split; [reflexivity|]. split.
  - symmetry. apply (poll_ignores_status_code polling_world failing_status_world).
    + intros n. reflexivity.
    + intros s. reflexivity.
  - reflexivity.
Defined.

(** X4. A status reply that is not JSON, or has no
    [activations.items[0].status], ends the loop in an uncaught
    exception at that fetch: after [k] replies with a status other than
    ACTIVE, the loop has made [k + 1] fetches and [k] sleeps and raises;
    it does not retry.  A body that is not JSON raises JSONDecodeError. *)
Theorem poll_malformed_reply
    (session : world) (link : json) (u : url) (st : state) (k fuel : nat) :
  joined session link = inr u ->
  (forall i, (i < k)%nat ->
     status_active (text (api session (sent (log st) + i))) = Some false) ->
  status_active (text (api session (sent (log st) + k))) = None ->
  (k < fuel)%nat ->
  (exists e,
     poll session fuel link st
     = (Stop (Uncaught e), State (result st) (log st ++ polling u k ++ [fetch u])))
  /\ (text (api session (sent (log st) + k)) = None ->
      poll session fuel link st
      = (Stop (Uncaught JSONDecodeError),
         State (result st) (log st ++ polling u k ++ [fetch u]))).
Proof.
  intros Hu Hp Hn Hk.
  replace fuel with (k + S (fuel - S k))%nat by lia.
  rewrite (poll_turns session link u k _ st Hu Hp).
  set (st' := State (result st) (log st ++ polling u k)).
  assert (Hs : sent (log st') = (sent (log st) + k)%nat)
    by (unfold st'; cbn [log]; apply sent_polling).
  assert (Hl : log st' ++ [fetch u] = log st ++ polling u k ++ [fetch u])
    by (unfold st'; cbn [log]; rewrite <- app_assoc; reflexivity).
  split.
  - destruct (poll_broken session (fuel - S k) link u st' Hu) as (e & E).
    + rewrite Hs. exact Hn.
    + exists e. rewrite E, Hl. reflexivity.
  - intros Ht. simpl. unfold bind at 1. rewrite urljoin_joined, Hu.
    unfold bind at 1. unfold send. cbn [result log]. unfold bind at 1.
    fold st'. rewrite Hs, Ht. simpl. rewrite <- Hl. reflexivity.
Qed.

Lemma poll_malformed_reply_witness :
  joined broken_poll_world (JStr "/atv_1") = inr (UrlLink "/atv_1")
  /\ poll broken_poll_world 5 (JStr "/atv_1") boot
     = (Stop (Uncaught JSONDecodeError),
        State (result boot)
          (log boot ++ polling (UrlLink "/atv_1") 1 ++ [fetch (UrlLink "/atv_1")])).
Proof.
  split; [reflexivity|].
  apply (proj2 (poll_malformed_reply broken_poll_world (JStr "/atv_1")
                  (UrlLink "/atv_1") boot 1 5 eq_refl
                  ltac:(intros i Hi; destruct i; [reflexivity|lia])
                  eq_refl ltac:(lia))).
  reflexivity.
Defined.

(** ** Runs without activation, and which networks a run activates *)

(** X5. With neither activation asked for, a run never polls: it sends
    at most three requests, none of them a GET, never sleeps, does not
    depend on the fuel and always ends (it is never left running). *)
Theorem run_without_activation
    (module : AnsibleModule) (session : world) (fuel : nat) :
  activate_staging (params module) = false ->
  activate_production (params module) = false ->
  let out := run module session fuel in
  run module session fuel = run module session 0
  /\ out.1 <> Stop Running
  /\ (sent (log out.2) <= 3)%nat
  /\ Forall (fun e => ~ poll_event e) (log out.2).
Proof.
  intros Hs Hp out. subst out.
  assert (E : run module session fuel = run module session 0).
  { unfold run, run_module. rewrite Hs, Hp. reflexivity. }
  split; [exact E|].
  destruct (check_mode module) eqn:Hc.
  { destruct module as [p c]. simpl in Hc. subst c. rewrite run_check_mode.
    split; [discriminate|]. split; [simpl; lia|constructor]. }
  pose proof (run_has_shape module session fuel Hc) as H. unfold shape_of in H.
  destruct H as
    [h r Hsr Hh Hch
    |h r pid cv Hd Hl Hh Hch
    |h r pid cv ver tail Hd Hl Hf Ht Hh
    |h r pid cv ver b tail Hstg Hd Hl Hf Hpo Hh
    |h r pid cv ver b stg tail Hprd Hd Hl Hf Hsd Hpo Hh
    |r pid cv ver b stg prd Hd Hl Hf Hsd Hpd]; cbn [fst snd log].
  - split; [intros [= ->]; exact Hh|]. split; [simpl; lia|].
    repeat constructor; intros F; exact F.
  - split; [intros [= ->]; exact Hh|]. split; [simpl; lia|].
    repeat constructor; intros F; exact F.
  - split; [intros [= ->]; exact Hh|].
    destruct Ht as [->|(b & ->)]; (split; [simpl; lia|]);
      repeat constructor; intros F; exact F.
  - congruence.
  - congruence.
  - rewrite Hs in Hsd. rewrite Hp in Hpd. simpl in Hsd, Hpd. subst stg prd.
    split; [intros [= F]; exact (last_call_not_running _ _ F)|].
    split; [simpl; lia|].
    repeat constructor; intros F; exact F.
Qed.

Lemma run_without_activation_witness :
  activate_staging (params update_only_module) = false
  /\ activate_production (params update_only_module) = false
  /\ (run update_only_module demo_world 0).1 <> Stop Running
  /\ (sent (log (run update_only_module demo_world 0).2) <= 3)%nat.
Proof.
  split; [reflexivity|]. split; [reflexivity|].
  pose proof (run_without_activation update_only_module demo_world 0 eq_refl eq_refl)
    as H.
  split; [exact (proj1 (proj2 H))|exact (proj1 (proj2 (proj2 H)))].
Defined.

Lemma prefix_elem_of {A} (l1 l2 : list A) x :
  l1 `prefix_of` l2 -> x ∈ l1 -> x ∈ l2.
Proof. intros [k ->] H. apply elem_of_app. left. exact H. Qed.

(** X6. A run only ever asks to activate a network that was asked for:
    every activation request in its log is for STAGING with
    [activate_staging] set or for PRODUCTION with [activate_production]
    set.  In all it sends at most one request per step of the plan. *)
Theorem requested_networks_only
    (module : AnsibleModule) (session : world) (fuel : nat) :
  (forall e net pid v,
     e ∈ log (run module session fuel).2 ->
     step_of e = Some (Activate net pid v) ->
     (net = JStr "STAGING" /\ activate_staging (params module) = true)
     \/ (net = JStr "PRODUCTION" /\ activate_production (params module) = true))
  /\ (length (steps (log (run module session fuel).2))
      <= 3 + flag (activate_staging (params module))
         + flag (activate_production (params module)))%nat.
Proof.
  destruct (check_mode module) eqn:Hc.
  { destruct module as [p c]. simpl in Hc. subst c. rewrite run_check_mode.
    split; [|simpl; lia]. intros e net pid v Hin. inversion Hin. }
  pose proof (run_has_shape module session fuel Hc) as H. unfold shape_of in H.
  destruct (shape_steps _ _ _ _ H) as (pid0 & cv0 & ver0 & Hpre & _).
  split.
  - intros e net pid v Hin He.
    assert (Hs : Activate net pid v ∈ steps (log (run module session fuel).2)).
    { unfold steps. apply list_elem_of_omap. exists e. split; assumption. }
    apply (prefix_elem_of _ _ _ Hpre) in Hs. unfold plan in Hs.
    apply elem_of_app in Hs as [Hs|Hs].
    { repeat (apply elem_of_cons in Hs as [Hs|Hs]); try discriminate Hs.
      inversion Hs. }
    apply elem_of_app in Hs as [Hs|Hs].
    + destruct (activate_staging (params module)); [|inversion Hs].
      apply list_elem_of_singleton in Hs. injection Hs as -> _ _.
      left. split; reflexivity.
    + destruct (activate_production (params module)); [|inversion Hs].
      apply list_elem_of_singleton in Hs. injection Hs as -> _ _.
      right. split; reflexivity.
  - apply prefix_length in Hpre. etransitivity; [exact Hpre|].
    unfold plan. rewrite !length_app.
    destruct (activate_staging (params module)),
             (activate_production (params module)); simpl; lia.
Qed.

Lemma requested_networks_only_witness :
  Http (activation_request demo_module (JStr "prp_1") "STAGING" (JStr "6"))
    ∈ log (run demo_module demo_world 10).2
  /\ activate_staging (params demo_module) = true.
Proof.
  assert (Hin : Http (activation_request demo_module (JStr "prp_1") "STAGING" (JStr "6"))
                  ∈ log (run demo_module demo_world 10).2).
  { apply list_elem_of_In. vm_compute. do 4 right. left. reflexivity. }
  split; [exact Hin|].
  destruct (proj1 (requested_networks_only demo_module demo_world 10)
              _ (JStr "STAGING") (JStr "prp_1") (JStr "6") Hin eq_refl)
    as [[_ H]|[H _]]; [exact H|discriminate H].
Defined.

(** ** The run that goes through *)

Lemma search_property_located session n st body l1 a l2 p v :
  status_ok (status_code (api session (sent (log st)))) = true ->
  text (api session (sent (log st))) = Some body ->
  items_of (Some body) = inr (JArr (l1 ++ a :: l2)) ->
  Forall scannable l1 ->
  active_with a p v ->
  Forall inactive l2 ->
  exists r,
    search_property session n st
    = (Ret tt, State r (log st ++ [Http (search_request n)]))
    /\ r !! "propertyId" = Some p
    /\ r !! "current_version" = Some v
    /\ (forall k, k <> "api_search_response" -> k <> "current_version" ->
                  k <> "propertyId" -> r !! k = result st !! k).
Proof.
  intros Hs Ht Hi H1 Ha H2.
  destruct (search_property_spec session n st) as (o & r & E & Hfr & _).
  rewrite (search_property_scan session n st body (JArr (l1 ++ a :: l2))
             (l1 ++ a :: l2) Hs Ht Hi) in E;
    [|destruct l1; reflexivity|reflexivity].
  rewrite for_each_app in E.
  destruct (for_each_scannable l1
              (State (<["api_search_response" := body]> (result st))
                     (log st ++ [Http (search_request n)])) H1) as (r1 & E1).
  rewrite E1 in E. simpl in E. unfold bind in E.
  rewrite (scan_item_active _ _ _ _ Ha) in E.
  rewrite (for_each_inactive _ _ H2) in E. cbn [result log] in E.
  injection E as <- <-.
  eexists. split; [|split; [|split]].
  - rewrite (search_property_scan session n st body (JArr (l1 ++ a :: l2))
               (l1 ++ a :: l2) Hs Ht Hi);
      [|destruct l1; reflexivity|reflexivity].
    rewrite for_each_app, E1. simpl. unfold bind.
    rewrite (scan_item_active _ _ _ _ Ha).
    rewrite (for_each_inactive _ _ H2). reflexivity.
  - apply lookup_insert_eq.
  - rewrite lookup_insert_ne by discriminate. apply lookup_insert_eq.
  - exact Hfr.
Qed.

Lemma update_property_ok module session n pid nv st kv j :
  files session (ruletree_path n) = Some (Some (JObj kv)) ->
  status_ok (status_code (api session (sent (log st)))) = true ->
  text (api session (sent (log st))) = Some j ->
  update_property module session n pid nv st
  = (Ret tt,
     State (result st)
       (log st ++ [Open (ruletree_path n);
                   Http (Request PUT (UrlRules pid nv)
                           (Some (JObj (assoc_set "comments"
                                          (JStr (version_notes (params module))) kv))))])).
Proof.
  intros Hf Hs Ht. unfold update_property, load_file, error_handling. run_step.
  rewrite Hf. simpl. rewrite sent_open, Ht. simpl. rewrite Hs. simpl.
  rewrite <- app_assoc. reflexivity.
Qed.

Lemma activation_stage_ok module session fuel network st pid ver body link u k :
  result st !! "propertyId" = Some pid ->
  result st !! "new_version" = Some (JStr ver) ->
  accepted_activation session (sent (log st)) body link u k ->
  (k < fuel)%nat ->
  (property_id <- get_result "propertyId" ;;
   activate_property module session fuel property_id network) st
  = (Ret tt,
     State (<["api_activation_response" := body]> (result st))
       (log st ++ activate_event module network pid ver
               :: polling u k ++ [fetch u])).
Proof.
  intros Hpid Hnv (Hs & Ht & Hl & Hu & Hp & Ha) Hk.
  unfold bind at 1. unfold get_result at 1. rewrite Hpid.
  unfold activate_property.
  unfold bind at 1. unfold get_result at 1. rewrite Hnv.
  fold (activation_request module pid network (JStr ver)).
  fold (activate_event module network pid ver).
  unfold bind at 1. unfold send at 1. cbn [result log].
  unfold bind at 1. rewrite Ht. simpl.
  fold (activation_request module pid network (JStr ver)).
  fold (activate_event module network pid ver).
  unfold bind at 1. unfold set_result at 1. cbn [result log].
  unfold bind at 1. unfold error_handling. rewrite Hs. simpl.
  unfold bind at 1. rewrite Hl. simpl.
  set (st1 := State (<["api_activation_response" := body]> (result st))
                    (log st ++ [activate_event module network pid ver])).
  assert (Hs1 : sent (log st1) = S (sent (log st))).
  { unfold st1. cbn [log]. rewrite sent_app. simpl. lia. }
  replace fuel with (k + S (fuel - S k))%nat by lia.
  rewrite (poll_turns session link u k _ st1 Hu);
    [|intros i Hi; rewrite Hs1; apply Hp, Hi].
  rewrite (poll_done session _ link u); [|exact Hu|].
  - unfold st1. cbn [result log]. rewrite <- !app_assoc. reflexivity.
  - cbn [log]. rewrite sent_polling, Hs1. exact Ha.
Qed.

Lemma goes_through_eq
    (module : AnsibleModule) (session : world) (fuel : nat)
    (b0 : json) (l1 l2 : list json) (a pid cv : json)
    (b1 : json) (link ver : string) (rest : list string)
    (kv : list (string * json)) (b2 : json)
    (bs ls : json) (us : url) (ks : nat)
    (bp lp : json) (up : url) (kp : nat) :
  check_mode module = false ->
  status_ok (status_code (api session 0)) = true ->
  text (api session 0) = Some b0 ->
  items_of (Some b0) = inr (JArr (l1 ++ a :: l2)) ->
  Forall scannable l1 -> active_with a pid cv -> Forall inactive l2 ->
  status_ok (status_code (api session 1)) = true ->
  text (api session 1) = Some b1 ->
  getitem b1 "versionLink" = inr (JStr link) ->
  re_findall (decimal session) version_pattern link = ver :: rest ->
  files session (ruletree_path (name (params module))) = Some (Some (JObj kv)) ->
  status_ok (status_code (api session 2)) = true ->
  text (api session 2) = Some b2 ->
  (activate_staging (params module) = true ->
     accepted_activation session 3 bs ls us ks /\ (ks < fuel)%nat) ->
  (activate_production (params module) = true ->
     accepted_activation session
       (if activate_staging (params module) then 5 + ks else 3) bp lp up kp
     /\ (kp < fuel)%nat) ->
  exists r,
    run module session fuel
    = (Stop (last_call module r),
       State r
         (applied module pid cv ver
            (Some (JObj (assoc_set "comments"
                           (JStr (version_notes (params module))) kv)))
          ++ (if activate_staging (params module)
              then activate_event module "STAGING" pid ver
                   :: polling us ks ++ [fetch us]
              else [])
          ++ (if activate_production (params module)
              then activate_event module "PRODUCTION" pid ver
                   :: polling up kp ++ [fetch up]
              else [])))
    /\ r !! "propertyId" = Some pid
    /\ r !! "current_version" = Some cv
    /\ r !! "new_version" = Some (JStr ver)
    /\ r !! "changed" = Some (JBool true).
Proof.
  intros Hc S0 T0 I0 H1 Ha H2 S1 T1 L1 F1 Hf S2 T2 Hstg Hprd.
  unfold run, run_module.
  unfold bind at 1. cbn [boot log result].
  unfold bind at 1. rewrite Hc. unfold when at 1, ret at 1.
  unfold bind at 1.
  destruct (search_property_located session (name (params module)) (State seed [])
              b0 l1 a l2 pid cv S0 T0 I0 H1 Ha H2) as (r1 & E1 & Hpid & Hcv & _).
  rewrite E1. cbn [log app].
  unfold bind at 1. unfold get_result at 1. cbn [result]. rewrite Hpid.
  unfold bind at 1. unfold get_result at 1. cbn [result]. rewrite Hcv.
  unfold bind at 1.
  rewrite (create_new_property_version_ok session pid cv
             (State r1 [Http (search_request (name (params module)))])
             b1 link ver rest S1 T1 L1 F1).
  cbn [result log app].
  set (r2 := <["changed" := JBool true]>
               (<["new_version" := JStr ver]>
                  (<["api_creation_response" := b1]> r1))).
  assert (P2 : r2 !! "propertyId" = Some pid)
    by (unfold r2; rewrite !lookup_insert_ne by discriminate; exact Hpid).
  assert (C2 : r2 !! "current_version" = Some cv)
    by (unfold r2; rewrite !lookup_insert_ne by discriminate; exact Hcv).
  assert (N2 : r2 !! "new_version" = Some (JStr ver))
    by (unfold r2; rewrite lookup_insert_ne by discriminate; apply lookup_insert_eq).
  assert (G2 : r2 !! "changed" = Some (JBool true))
    by (unfold r2; apply lookup_insert_eq).
  unfold bind at 1. unfold get_result at 1. cbn [result]. rewrite P2.
  unfold bind at 1. unfold get_result at 1. cbn [result]. rewrite N2.
  unfold bind at 1.
  rewrite (update_property_ok module session (name (params module)) pid (JStr ver)
             (State r2 [Http (search_request (name (params module)));
                        Http (create_request pid cv)])
             kv b2 Hf S2 T2).
  cbn [result log app].
  change ([Http (search_request (name (params module)));
           Http (create_request pid cv);
           Open (ruletree_path (name (params module)));
           Http (Request PUT (UrlRules pid (JStr ver))
                   (Some (JObj (assoc_set "comments"
                                  (JStr (version_notes (params module))) kv))))])
    with (applied module pid cv ver
            (Some (JObj (assoc_set "comments"
                           (JStr (version_notes (params module))) kv)))).
  set (done := applied module pid cv ver _).
  assert (Sd : sent done = 3%nat) by reflexivity.
  unfold bind at 1.
  destruct (activate_staging (params module)) eqn:Fs; unfold when at 1.
  - destruct (Hstg eq_refl) as [As Ks].
    rewrite (activation_stage_ok module session fuel "STAGING" (State r2 done)
               pid ver bs ls us ks P2 N2 As Ks).
    cbn [result log].
    set (r3 := <["api_activation_response" := bs]> r2).
    set (l3 := done ++ activate_event module "STAGING" pid ver
                      :: polling us ks ++ [fetch us]).
    assert (S3 : sent l3 = (5 + ks)%nat).
    { unfold l3. rewrite sent_app, Sd.
      change (activate_event module "STAGING" pid ver :: polling us ks ++ [fetch us])
        with ([activate_event module "STAGING" pid ver] ++ polling us ks ++ [fetch us]).
      rewrite !sent_app. pose proof (sent_polling [] us ks) as Hk.
      simpl in Hk. rewrite Hk. simpl. lia. }
    assert (P3 : r3 !! "propertyId" = Some pid)
      by (unfold r3; rewrite lookup_insert_ne by discriminate; exact P2).
    assert (N3 : r3 !! "new_version" = Some (JStr ver))
      by (unfold r3; rewrite lookup_insert_ne by discriminate; exact N2).
    unfold bind at 1.
    destruct (activate_production (params module)) eqn:Fp; unfold when at 1.
    + destruct (Hprd eq_refl) as [Ap Kp]. rewrite <- S3 in Ap.
      rewrite (activation_stage_ok module session fuel "PRODUCTION" (State r3 l3)
                 pid ver bp lp up kp P3 N3 Ap Kp).
      rewrite last_call_reached. cbn [result log]. eexists.
      split; [unfold l3; rewrite <- !app_assoc; reflexivity|].
      unfold r3.
      repeat split; rewrite !lookup_insert_ne by discriminate; assumption.
    + unfold ret at 1. rewrite last_call_reached. cbn [result log]. eexists.
      split; [unfold l3; rewrite app_nil_r; reflexivity|].
      unfold r3.
      repeat split; rewrite !lookup_insert_ne by discriminate; assumption.
  - unfold ret at 1. unfold bind at 1.
    destruct (activate_production (params module)) eqn:Fp; unfold when at 1.
    + destruct (Hprd eq_refl) as [Ap Kp]. rewrite <- Sd in Ap.
      rewrite (activation_stage_ok module session fuel "PRODUCTION" (State r2 done)
                 pid ver bp lp up kp P2 N2 Ap Kp).
      rewrite last_call_reached. cbn [result log]. eexists.
      split; [reflexivity|].
      repeat split; rewrite !lookup_insert_ne by discriminate; assumption.
    + unfold ret at 1. rewrite last_call_reached. cbn [result log]. eexists.
      split; [rewrite app_nil_r; reflexivity|].
      repeat split; assumption.
Qed.

(** X7. The run that goes through.  When the search reply is accepted
    and its last active item has id [pid] and version [cv], the creation
    reply is accepted with a locator in which the pattern finds [ver],
    the rule tree is an object, the update reply is accepted, and each
    activation asked for is accepted and turns ACTIVE after [ks] (resp.
    [kp]) other status replies, then with more fuel than that the run
    ends in its closing call ([exit_json], or [fail_json] for the name
    [fail me]) having sent exactly the plan, the fork from [cv], the
    update and the activations for [ver], each activation followed by its
    fetches 10 seconds apart; [result] then holds [pid], [cv], [ver] and
    [changed = true]. *)
Theorem run_goes_through
    (module : AnsibleModule) (session : world) (fuel : nat)
    (b0 : json) (l1 l2 : list json) (a pid cv : json)
    (b1 : json) (link ver : string) (rest : list string)
    (kv : list (string * json)) (b2 : json)
    (bs ls : json) (us : url) (ks : nat)
    (bp lp : json) (up : url) (kp : nat) :
  check_mode module = false ->
  status_ok (status_code (api session 0)) = true ->
  text (api session 0) = Some b0 ->
  items_of (Some b0) = inr (JArr (l1 ++ a :: l2)) ->
  Forall scannable l1 -> active_with a pid cv -> Forall inactive l2 ->
  status_ok (status_code (api session 1)) = true ->
  text (api session 1) = Some b1 ->
  getitem b1 "versionLink" = inr (JStr link) ->
  re_findall (decimal session) version_pattern link = ver :: rest ->
  files session (ruletree_path (name (params module))) = Some (Some (JObj kv)) ->
  status_ok (status_code (api session 2)) = true ->
  text (api session 2) = Some b2 ->
  (activate_staging (params module) = true ->
     accepted_activation session 3 bs ls us ks /\ (ks < fuel)%nat) ->
  (activate_production (params module) = true ->
     accepted_activation session
       (if activate_staging (params module) then 5 + ks else 3) bp lp up kp
     /\ (kp < fuel)%nat) ->
  let out := run module session fuel in
  out.1 = Stop (last_call module (result out.2))
  /\ log out.2
     = applied module pid cv ver
         (Some (JObj (assoc_set "comments"
                        (JStr (version_notes (params module))) kv)))
       ++ (if activate_staging (params module)
           then activate_event module "STAGING" pid ver :: polling us ks ++ [fetch us]
           else [])
       ++ (if activate_production (params module)
           then activate_event module "PRODUCTION" pid ver
                :: polling up kp ++ [fetch up]
           else [])
  /\ result out.2 !! "propertyId" = Some pid
  /\ result out.2 !! "current_version" = Some cv
  /\ result out.2 !! "new_version" = Some (JStr ver)
  /\ result out.2 !! "changed" = Some (JBool true).
Proof.
  intros Hc S0 T0 I0 H1 Ha H2 S1 T1 L1 F1 Hf S2 T2 Hstg Hprd out. subst out.
  destruct (goes_through_eq module session fuel b0 l1 l2 a pid cv b1 link ver rest
              kv b2 bs ls us ks bp lp up kp
              Hc S0 T0 I0 H1 Ha H2 S1 T1 L1 F1 Hf S2 T2 Hstg Hprd)
    as (r & -> & Hp & Hcv & Hnv & Hch).
  cbn [fst snd result log]. repeat split; assumption.
Qed.

Lemma run_goes_through_witness :
  check_mode demo_module = false
  /\ accepted_activation demo_world 3
       (JObj [("activationLink", JStr "/papi/v1/properties/prp_1/activations/atv_1")])
       (JStr "/papi/v1/properties/prp_1/activations/atv_1")
       (UrlLink "/papi/v1/properties/prp_1/activations/atv_1") 2
  /\ (run demo_module demo_world 10).1
     = Stop (last_call demo_module (result (run demo_module demo_world 10).2))
  /\ result (run demo_module demo_world 10).2 !! "new_version" = Some (JStr "6")
  /\ result (run demo_module demo_world 10).2 !! "changed" = Some (JBool true).
Proof.
  assert (A : accepted_activation demo_world 3
       (JObj [("activationLink", JStr "/papi/v1/properties/prp_1/activations/atv_1")])
       (JStr "/papi/v1/properties/prp_1/activations/atv_1")
       (UrlLink "/papi/v1/properties/prp_1/activations/atv_1") 2).
  { repeat split. intros i Hi. destruct i as [|[|i]]; [reflexivity|reflexivity|lia]. }
  split; [reflexivity|]. split; [exact A|].
  pose proof (run_goes_through demo_module demo_world 10
                (items_doc [demo_item "INACTIVE" 4; demo_item "ACTIVE" 5])
                [demo_item "INACTIVE" 4] [] (demo_item "ACTIVE" 5)
                (JStr "prp_1") (JNum 5)
                (JObj [("versionLink",
                        JStr "/papi/v1/properties/prp_1/versions/6?contractId=ctr_1")])
                "/papi/v1/properties/prp_1/versions/6?contractId=ctr_1" "6" []
                [("rules", JObj [])] (JObj [])
                (JObj [("activationLink",
                        JStr "/papi/v1/properties/prp_1/activations/atv_1")])
                (JStr "/papi/v1/properties/prp_1/activations/atv_1")
                (UrlLink "/papi/v1/properties/prp_1/activations/atv_1") 2
                JNull JNull UrlBase 0
                eq_refl eq_refl eq_refl eq_refl
                ltac:(constructor; [left; reflexivity|constructor])
                (conj eq_refl (conj eq_refl eq_refl))
                ltac:(constructor)
                eq_refl eq_refl eq_refl eq_refl eq_refl eq_refl eq_refl
                (fun _ => conj A (ltac:(lia) : (2 < 10)%nat))
                ltac:(intros H; discriminate H)) as H.
  destruct H as (H1 & _ & _ & _ & H5 & H6).
  split; [exact H1|]. split; [exact H5|exact H6].
Defined.

(** ** The closing calls *)

(** X8. Outside check mode a run reaches [exit_json] only with
    [changed = true] and every step of the plan sent, and never under the
    name [fail me]; under that name the requested failure comes last,
    after the version has been created, updated and activated as asked:
    its report too says [changed = true]. *)
Theorem closing_calls (module : AnsibleModule) (session : world) (fuel : nat) :
  check_mode module = false ->
  let out := run module session fuel in
  (forall kw,
     out.1 = Stop (ExitJson kw) ->
     name (params module) <> "fail me"
     /\ kw = result out.2
     /\ kw !! "changed" = Some (JBool true)
     /\ exists pid cv ver, steps (log out.2) = plan module pid cv ver)
  /\ (forall kw,
     out.1 = Stop (FailJson "You requested this to fail" kw) ->
     name (params module) = "fail me"
     /\ kw = result out.2
     /\ kw !! "changed" = Some (JBool true)
     /\ exists pid cv ver, steps (log out.2) = plan module pid cv ver).
Proof.
  intros Hc out. subst out.
  pose proof (run_has_shape module session fuel Hc) as H. unfold shape_of in H.
  pose proof (shape_steps _ _ _ _ H) as (pid0 & cv0 & ver0 & _ & _ & _ & Hplan).
  assert (G : forall h, (run module session fuel).1 = Stop h ->
              (h = Running \/ step_halt session h (run module session fuel).2)
              \/ (h = last_call module (result (run module session fuel).2)
                  /\ result (run module session fuel).2 !! "changed"
                     = Some (JBool true))).
  { intros h0. destruct H as
      [h r Hsr Hh Hch
      |h r pid cv Hd Hl Hh Hch
      |h r pid cv ver tail Hd Hl Hf Ht Hh
      |h r pid cv ver b tail Hstg Hd Hl Hf Hpo Hh
      |h r pid cv ver b stg tail Hprd Hd Hl Hf Hsd Hpo Hh
      |r pid cv ver b stg prd Hd Hl Hf Hsd Hpd]; cbn [fst snd result];
      intros [= <-]; try (left; right; exact Hh); try (left; exact Hh).
    right. split; [reflexivity|]. destruct Hf as (_ & _ & _ & Hch). exact Hch. }
  split.
  - intros kw E. destruct (G _ E) as [[F|F]|[El Hch]];
      [discriminate F|destruct F|].
    unfold last_call in El.
    destruct (String.eqb_spec (name (params module)) "fail me") as [Hn|Hn];
      [discriminate El|].
    injection El as El. split; [exact Hn|]. split; [exact El|].
    split; [rewrite El; exact Hch|].
    exists pid0, cv0, ver0. apply Hplan. rewrite E. f_equal.
    unfold last_call. destruct (String.eqb_spec (name (params module)) "fail me");
      [contradiction|]. f_equal. exact El.
  - intros kw E. destruct (G _ E) as [[F|F]|[El Hch]];
      [discriminate F| |].
    { destruct F as (_ & l & rq & _ & _ & [[F _]|[F _]]); discriminate F. }
    unfold last_call in El.
    destruct (String.eqb_spec (name (params module)) "fail me") as [Hn|Hn];
      [|discriminate El].
    injection El as El. split; [exact Hn|]. split; [exact El|].
    split; [rewrite El; exact Hch|].
    exists pid0, cv0, ver0. apply Hplan. rewrite E. f_equal.
    unfold last_call. destruct (String.eqb_spec (name (params module)) "fail me");
      [|contradiction]. f_equal. exact El.
Qed.

Lemma closing_calls_witness :
  check_mode fail_me_module = false
  /\ (run fail_me_module fail_me_world 0).1
     = Stop (FailJson "You requested this to fail"
               (result (run fail_me_module fail_me_world 0).2))
  /\ result (run fail_me_module fail_me_world 0).2 !! "changed" = Some (JBool true).
Proof.
  split; [reflexivity|].
  assert (E : (run fail_me_module fail_me_world 0).1
              = Stop (FailJson "You requested this to fail"
                        (result (run fail_me_module fail_me_world 0).2)))
    by (vm_compute; reflexivity).
  split; [exact E|].
  destruct (proj2 (closing_calls fail_me_module fail_me_world 0 eq_refl) _ E)
    as (_ & _ & H & _).
  exact H.
Defined.

(** ** What a failure report holds *)

(** X9. A reply the validator rejects for its status code is recorded
    before it is rejected: the report of the search, creation and
    activation steps carries the decoded body of the rejected reply
    under the step's [api_*_response] key, with the other fields as they
    were.  The update step records nothing: its report is [result] as it
    was before the step. *)
Theorem rejected_reply_recorded
    (module : AnsibleModule) (session : world) (st : state) (body : json) :
  status_ok (status_code (api session (sent (log st)))) = false ->
  text (api session (sent (log st))) = Some body ->
  (forall n,
     let r := <["api_search_response" := body]> (result st) in
     search_property session n st
     = (Stop (FailJson transport_msg r),
        State r (log st ++ [Http (search_request n)])))
  /\ (forall pid v,
     let r := <["api_creation_response" := body]> (result st) in
     create_new_property_version session pid v st
     = (Stop (FailJson transport_msg r),
        State r (log st ++ [Http (create_request pid v)])))
  /\ (forall fuel pid network nv,
     result st !! "new_version" = Some nv ->
     let r := <["api_activation_response" := body]> (result st) in
     activate_property module session fuel pid network st
     = (Stop (FailJson transport_msg r),
        State r (log st ++ [Http (activation_request module pid network nv)])))
  /\ (forall n pid nv kv,
     files session (ruletree_path n) = Some (Some (JObj kv)) ->
     (update_property module session n pid nv st).1
     = Stop (FailJson transport_msg (result st))).
Proof.
  intros Hs Ht. split; [|split; [|split]].
  - intros n r. unfold search_property, error_handling. run_step.
    rewrite Ht. simpl. rewrite Hs. reflexivity.
  - intros pid v r. unfold create_new_property_version, error_handling. run_step.
    rewrite Ht. simpl. rewrite Hs. reflexivity.
  - intros fuel pid network nv Hv r. unfold activate_property, error_handling.
    run_step. rewrite Hv. simpl. rewrite Ht. simpl. rewrite Hs. reflexivity.
  - intros n pid nv kv Hf. unfold update_property, load_file, error_handling.
    run_step. rewrite Hf. simpl. rewrite sent_open, Ht. simpl. rewrite Hs.
    reflexivity.
Qed.

Lemma rejected_reply_recorded_witness :
  status_ok (status_code (api rejecting_world (sent (log after_fork)))) = false
  /\ search_property rejecting_world "demo" after_fork
     = (Stop (FailJson transport_msg
                (<["api_search_response" := JObj []]> (result after_fork))),
        State (<["api_search_response" := JObj []]> (result after_fork))
          (log after_fork ++ [Http (search_request "demo")]))
  /\ (update_property demo_module rejecting_world "demo" (JStr "prp_1") (JStr "6")
        after_fork).1
     = Stop (FailJson transport_msg (result after_fork)).
Proof.
  split; [reflexivity|].
  pose proof (rejected_reply_recorded demo_module rejecting_world after_fork (JObj [])
                eq_refl eq_refl) as H.
  split.
  - exact (proj1 H "demo").
  - exact (proj2 (proj2 (proj2 H)) "demo" (JStr "prp_1") (JStr "6")
             [("rules", JObj [])] eq_refl).
Defined.

(** X10. A search that finds nothing ends the run there.  Outside check
    mode, when the first reply is accepted and its [versions.items] is
    empty, the run ends in [fail_json] with the not-found message, its
    only event is the search request, and the report is the seed plus the
    raw search reply: the identifiers are still the empty strings and
    [changed] is false. *)
Theorem run_not_found
    (module : AnsibleModule) (session : world) (fuel : nat) (body i : json) :
  check_mode module = false ->
  status_ok (status_code (api session 0)) = true ->
  text (api session 0) = Some body ->
  items_of (Some body) = inr i ->
  truthy i = false ->
  run module session fuel
  = (Stop (FailJson not_found_msg (<["api_search_response" := body]> seed)),
     State (<["api_search_response" := body]> seed) [locate_event module]).
Proof.
  intros Hc Hs Ht Hi Htr. unfold run, run_module.
  unfold bind at 1. cbn [boot log result].
  unfold bind at 1. rewrite Hc. unfold when at 1, ret at 1.
  unfold bind at 1.
  assert (E : search_property session (name (params module)) (State seed [])
              = (Stop (FailJson not_found_msg (<["api_search_response" := body]> seed)),
                 State (<["api_search_response" := body]> seed) [locate_event module])).
  { unfold search_property, error_handling, items_of in *. run_step.
    rewrite Ht. simpl. rewrite Hs. simpl.
    destruct (getitem body "versions") as [e|vs]; [discriminate|]. simpl.
    rewrite Hi. simpl. rewrite Htr. reflexivity. }
  rewrite E. reflexivity.
Qed.

Lemma run_not_found_witness :
  check_mode demo_module = false
  /\ run demo_module empty_world 10
     = (Stop (FailJson not_found_msg (<["api_search_response" := items_doc []]> seed)),
        State (<["api_search_response" := items_doc []]> seed)
          [locate_event demo_module]).
Proof.
  split; [reflexivity|].
  apply (run_not_found demo_module empty_world 10 (items_doc []) (JArr []));
    reflexivity.
Defined.

(** ** The rule tree the update step accepts *)

(** X11. The update step sends its request only for a rule tree that
    decodes to a JSON object.  A file that is not JSON ends the step in
    an uncaught JSONDecodeError, a document that is not an object (a
    list, a string, a number) in an uncaught TypeError when [comments] is
    assigned; in both cases, as for a missing file, nothing is sent. *)
Theorem update_property_guard
    (module : AnsibleModule) (session : world) (n : string)
    (pid nv : json) (st : state) :
  let path := ruletree_path n in
  let out := update_property module session n pid nv st in
  (files session path = Some None ->
     out = (Stop (Uncaught JSONDecodeError),
            State (result st) (log st ++ [Open path])))
  /\ (forall doc,
        files session path = Some (Some doc) ->
        (forall kv, doc <> JObj kv) ->
        out = (Stop (Uncaught TypeError),
               State (result st) (log st ++ [Open path])))
  /\ (sent (log out.2) <> sent (log st) ->
      exists kv, files session path = Some (Some (JObj kv))).
Proof.
  intros path out. subst out. split; [|split].
  - intros Hf. unfold update_property, load_file. run_step. fold path.
    rewrite Hf. reflexivity.
  - intros doc Hf Hd. unfold update_property, load_file. run_step. fold path.
    rewrite Hf. simpl.
    destruct doc; try reflexivity. exfalso. apply (Hd kv). reflexivity.
  - intros Hn.
    destruct (files session path) as [[doc|]|] eqn:Hf.
    + destruct doc as [| | | | |kv]; try (exfalso; apply Hn;
        unfold update_property, load_file; run_step; fold path; rewrite Hf; simpl;
        apply sent_open).
      exists kv. reflexivity.
    + exfalso. apply Hn. unfold update_property, load_file. run_step. fold path.
      rewrite Hf. simpl. apply sent_open.
    + exfalso. apply Hn. unfold update_property, load_file. run_step. fold path.
      rewrite Hf. simpl. apply sent_open.
Qed.

Lemma update_property_guard_witness :
  update_property demo_module garbled_ruletree "demo" (JStr "prp_1") (JStr "6")
    after_fork
  = (Stop (Uncaught JSONDecodeError),
     State (result after_fork)
       (log after_fork ++ [Open (ruletree_path "demo")]))
  /\ update_property demo_module list_ruletree "demo" (JStr "prp_1") (JStr "6")
       after_fork
     = (Stop (Uncaught TypeError),
        State (result after_fork)
          (log after_fork ++ [Open (ruletree_path "demo")]))
  /\ exists kv, files demo_world (ruletree_path "demo") = Some (Some (JObj kv)).
Proof.
  split; [|split].
  - apply (proj1 (update_property_guard demo_module garbled_ruletree "demo"
                    (JStr "prp_1") (JStr "6") after_fork)).
    reflexivity.
  - apply (proj1 (proj2 (update_property_guard demo_module list_ruletree "demo"
                           (JStr "prp_1") (JStr "6") after_fork)) (JArr []));
      [reflexivity|]. intros kv. discriminate.
  - apply (proj2 (proj2 (update_property_guard demo_module demo_world "demo"
                           (JStr "prp_1") (JStr "6") after_fork))).
    vm_compute. lia.
Defined.

(** ** Production without staging *)

(** X12. When only production is asked for, nothing stands between the
    rule update and the production activation: the request to activate
    PRODUCTION is the fourth request of the run, sent right after the PUT
    of the rule tree, with no fetch before it. *)
Theorem production_without_staging
    (module : AnsibleModule) (session : world) (fuel : nat)
    (l1 l2 : list event) (e : event) :
  check_mode module = false ->
  activate_staging (params module) = false ->
  log (run module session fuel).2 = l1 ++ e :: l2 ->
  activates "PRODUCTION" e ->
  (exists pid cv ver b, l1 = applied module pid cv ver b)
  /\ sent l1 = 3%nat
  /\ Forall (fun x => ~ poll_event x) l1.
Proof.
  intros Hc Hs E He.
  pose proof (run_has_shape module session fuel Hc) as H. unfold shape_of in H.
  assert (G : exists pid cv ver b, l1 = applied module pid cv ver b).
  { destruct H as
      [h r Hsr Hh Hch
      |h r pid cv Hd Hl Hh Hch
      |h r pid cv ver tail Hd Hl Hf Ht Hh
      |h r pid cv ver b tail Hstg Hd Hl Hf Hpo Hh
      |h r pid cv ver b stg tail Hprd Hd Hl Hf Hsd Hpo Hh
      |r pid cv ver b stg prd Hd Hl Hf Hsd Hpd]; cbn [snd log] in E.
    - exfalso. eapply (no_split (activates "PRODUCTION")); [exact E|exact He|].
      repeat constructor; intros (p & v & E'); discriminate E'.
    - exfalso. eapply (no_split (activates "PRODUCTION")); [exact E|exact He|].
      repeat constructor; intros (p & v & E'); discriminate E'.
    - exfalso. eapply (no_split (activates "PRODUCTION")); [exact E|exact He|].
      destruct Ht as [->|(b & ->)];
        repeat constructor; intros (p & v & E'); discriminate E'.
    - congruence.
    - rewrite Hs in Hsd. simpl in Hsd. subst stg. rewrite app_nil_l in E.
      destruct (split_unique (activates "PRODUCTION") _ _ _ _ _ _ E He)
        as (-> & _ & _).
      + apply applied_not_activate.
      + apply polls_not_activate, Hpo.
      + exists pid, cv, ver, b. reflexivity.
    - rewrite Hs in Hsd. simpl in Hsd. subst stg. rewrite app_nil_l in E.
      unfold activation_done in Hpd.
      destruct (activate_production (params module)).
      + destruct Hpd as (back & -> & Hb & _).
        destruct (split_unique (activates "PRODUCTION") _ _ _ _ _ _ E He)
          as (-> & _ & _).
        * apply applied_not_activate.
        * apply polls_not_activate, Hb.
        * exists pid, cv, ver, b. reflexivity.
      + subst prd. exfalso.
        eapply (no_split (activates "PRODUCTION")); [exact E|exact He|].
        rewrite app_nil_r. apply applied_not_activate. }
  split; [exact G|]. destruct G as (pid & cv & ver & b & ->).
  split; [reflexivity|]. repeat constructor; intros F; exact F.
Qed.

Lemma production_without_staging_witness :
  check_mode production_only_module = false
  /\ activate_staging (params production_only_module) = false
  /\ activates "PRODUCTION"
       (activate_event production_only_module "PRODUCTION" (JStr "prp_1") "6")
  /\ exists l1 l2,
       log (run production_only_module demo_world 10).2
       = l1 ++ activate_event production_only_module "PRODUCTION" (JStr "prp_1") "6"
               :: l2
       /\ sent l1 = 3%nat.
Proof.
  split; [reflexivity|]. split; [reflexivity|].
  assert (A : activates "PRODUCTION"
       (activate_event production_only_module "PRODUCTION" (JStr "prp_1") "6"))
    by (eexists _, _; reflexivity).
  split; [exact A|].
  assert (E : exists l2,
            log (run production_only_module demo_world 10).2
            = applied production_only_module (JStr "prp_1") (JNum 5) "6"
                (Some (JObj [("rules", JObj []); ("comments", JStr "n")]))
              ++ activate_event production_only_module "PRODUCTION" (JStr "prp_1") "6"
                 :: l2)
    by (eexists; vm_compute; reflexivity).
  destruct E as (l2 & E). eexists _, l2. split; [exact E|].
  exact (proj1 (proj2 (production_without_staging production_only_module demo_world 10
                         _ l2 _ eq_refl eq_refl E A))).
Defined.

(** ** An activation reply without a usable locator *)

(** X13. An accepted activation reply is used for its [activationLink]
    without any check.  When the key is missing the step ends in an
    uncaught KeyError, when the locator is a non-empty value that is not
    a string in an uncaught TypeError from [urljoin], and when it is a
    string the libraries refuse in an uncaught ValueError; in all three
    cases the activation has been requested and its reply recorded, but
    no status is ever fetched. *)
Theorem activation_without_link
    (module : AnsibleModule) (session : world) (fuel : nat)
    (pid : json) (network : string) (st : state) (nv body : json) :
  result st !! "new_version" = Some nv ->
  status_ok (status_code (api session (sent (log st)))) = true ->
  text (api session (sent (log st))) = Some body ->
  let after :=
    State (<["api_activation_response" := body]> (result st))
          (log st ++ [Http (activation_request module pid network nv)]) in
  (forall e,
     getitem body "activationLink" = inl e ->
     activate_property module session fuel pid network st
     = (Stop (Uncaught e), after))
  /\ (forall link,
     getitem body "activationLink" = inr link ->
     truthy link = true -> (forall s, link <> JStr s) ->
     activate_property module session (S fuel) pid network st
     = (Stop (Uncaught TypeError), after))
  /\ (forall s,
     getitem body "activationLink" = inr (JStr s) ->
     s <> EmptyString -> locator_ok session s = false ->
     activate_property module session (S fuel) pid network st
     = (Stop (Uncaught ValueError), after)).
Proof.
  intros Hv Hs Ht after. subst after.
  assert (G : forall link e,
            getitem body "activationLink" = inr link ->
            joined session link = inl e ->
            activate_property module session (S fuel) pid network st
            = (Stop (Uncaught e),
               State (<["api_activation_response" := body]> (result st))
                     (log st ++ [Http (activation_request module pid network nv)]))).
  { intros link e Hl Hj. unfold activate_property.
    unfold bind at 1. unfold get_result at 1. rewrite Hv.
    unfold bind at 1. unfold send at 1. cbn [result log].
    unfold bind at 1. rewrite Ht. simpl.
    unfold bind at 1. unfold set_result at 1. cbn [result log].
    unfold bind at 1. unfold error_handling. rewrite Hs. simpl.
    unfold bind at 1. rewrite Hl. unfold try, ret.
    unfold bind at 1. rewrite urljoin_joined, Hj. reflexivity. }
  split; [|split].
  - intros e Hl. unfold activate_property, error_handling. run_step.
    rewrite Hv. simpl. rewrite Ht. simpl. rewrite Hs. simpl. rewrite Hl. reflexivity.
  - intros link Hl Htr Hn. apply (G link TypeError Hl).
    unfold joined. rewrite Htr. simpl.
    destruct link; try reflexivity. exfalso. apply (Hn s). reflexivity.
  - intros s Hl Hne Hr. apply (G (JStr s) ValueError Hl).
    unfold joined. simpl. rewrite Hr.
    destruct (String.eqb_spec s ""); [contradiction|reflexivity].
Qed.

Lemma activation_without_link_witness :
  result after_fork !! "new_version" = Some (JStr "6")
  /\ activate_property demo_module demo_world 3 (JStr "prp_1") "STAGING" after_fork
     = (Stop (Uncaught (KeyError "activationLink")),
        State (<["api_activation_response" := JObj []]> (result after_fork))
          (log after_fork
             ++ [Http (activation_request demo_module (JStr "prp_1") "STAGING"
                         (JStr "6"))]))
  /\ activate_property demo_module refused_link_world 3 (JStr "prp_1") "STAGING"
       after_fork
     = (Stop (Uncaught ValueError),
        State (<["api_activation_response" := JObj [("activationLink", JStr "//[")]]>
                 (result after_fork))
          (log after_fork
             ++ [Http (activation_request demo_module (JStr "prp_1") "STAGING"
                         (JStr "6"))])).
Proof.
  split; [reflexivity|]. split.
  - apply (proj1 (activation_without_link demo_module demo_world 3 (JStr "prp_1")
                    "STAGING" after_fork (JStr "6") (JObj []) eq_refl eq_refl eq_refl)).
    reflexivity.
  - apply (proj2 (proj2 (activation_without_link demo_module refused_link_world 2
                           (JStr "prp_1") "STAGING" after_fork (JStr "6")
                           (JObj [("activationLink", JStr "//[")])
                           eq_refl eq_refl eq_refl)) "//[");
      [reflexivity|discriminate|reflexivity].
Defined.
